(** * SAME alert decoder: a shallow embedding of [src/same_decoder.py] and
    [src/database_migrations.py], with the properties of the decode,
    validate, enrich, persist and publish pipeline.

    Python values are modelled as follows.
    - [str] is [string]; an [ascii] stands for a code point in
      U+0000..U+00FF, so the classification functions below follow Python's
      Unicode tables on that range (superscript digits, NEL, NBSP).
    - [dict] used as a lookup table is a [gmap]; a Python [set] is a [gset].
    - An exception is a value of [exn]; a function that may raise returns
      a [result].
    - A [datetime] with zero seconds is a number of minutes since an epoch. *)

From Stdlib Require Import ZArith Ascii String List Lia Bool.
From stdpp Require Import base option list gmap strings.
Import ListNotations.

Local Open Scope string_scope.
Local Open Scope Z_scope.

(** ** Results and exceptions *)

(** The exceptions the two modules raise, one constructor per raise site
    (same text, same payload) or per library error. *)
Inductive exn : Type :=
  | MessageEmpty                               (* "Message cannot be empty" *)
  | MessageNoStartMarker                       (* "Message must start with 'ZCZC-'" *)
  | MessageTooLong (len : nat)                 (* "Message too long: {len} characters" *)
  | TooFewParts (n : nat) (parts : list string)(* "... expected at least 5 parts, got {n}" *)
  | EmptyOriginatorOrEvent                     (* "Originator and event code cannot be empty" *)
  | InvalidDurationPart (part : string)        (* "Invalid duration format in part: ..." *)
  | IncompleteAfterDuration                    (* "Incomplete SAME message after duration" *)
  | MissingRequiredFields                      (* "Missing required fields in SAME message" *)
  | NoValidFipsCodes                           (* "No valid FIPS codes found" *)
  | InvalidDurationFormat (duration : string)  (* "Invalid duration format: ... (expected 4-digit number)" *)
  | InvalidTimestampFormat (timestamp : string)(* "Invalid timestamp format: ... (expected 7-digit JJJHHMM)" *)
  | InvalidJulianDay (jjj : Z)                 (* "Invalid julian day: ... (must be 1-366)" *)
  | InvalidHour (hh : Z)                       (* "Invalid hour: ... (must be 0-23)" *)
  | InvalidMinute (mm : Z)                     (* "Invalid minute: ... (must be 0-59)" *)
  | IntValueError (literal : string)           (* ValueError of int() *)
  | StrptimeValueError                         (* ValueError of datetime.strptime *)
  | SqliteNoSuchTable (table : string)         (* "no such table: ..." *)
  | SqliteNoSuchColumn (column : string)       (* "no such column: ..." *)
  | SqliteNoColumnNamed (column : string)      (* "table alerts has no column named ..." *)
  | SqliteDuplicateColumn (column : string)    (* "duplicate column name: ..." *)
  | SqliteNonConstantDefault                   (* "Cannot add a column with non-constant default" *)
  | OverflowError                              (* "Python int too large to convert to SQLite INTEGER" *)
  | OSErrorOnWrite                             (* OSError of open() on the snapshot's temporary file *)
  | MigrationFailed.                           (* RuntimeError("Database migration failed") *)

Inductive result (A : Type) : Type :=
  | Ok (a : A)
  | Raise (e : exn).
Arguments Ok {A} a.
Arguments Raise {A} e.

(** [result] is a monad: [x ← r; k] runs [k] unless [r] raised. *)
#[global] Instance result_ret : MRet result := fun A a => Ok a.
#[global] Instance result_bind : MBind result := fun A B k r =>
  match r with
  | Ok a => k a
  | Raise e => Raise e
  end.

(** ** Python string primitives *)
Module Py.

Definition code (c : ascii) : N := N_of_ascii c.

(** [str.isspace] on one character. *)
Definition isspace (c : ascii) : bool :=
  let n := code c in
  ((9 <=? n) && (n <=? 13) || (28 <=? n) && (n <=? 32)
   || (n =? 133) || (n =? 160))%N.

(** Characters of Unicode category Nd (what [int] accepts). *)
Definition isdecimal_char (c : ascii) : bool :=
  let n := code c in ((48 <=? n) && (n <=? 57))%N.

(** [str.isdigit] on one character: decimals and the superscripts
    U+00B2, U+00B3, U+00B9. *)
Definition isdigit_char (c : ascii) : bool :=
  let n := code c in
  (isdecimal_char c || (n =? 178) || (n =? 179) || (n =? 185))%N.

Fixpoint all_chars (p : ascii -> bool) (s : string) : bool :=
  match s with
  | EmptyString => true
  | String c r => p c && all_chars p r
  end.

Definition is_empty (s : string) : bool :=
  match s with EmptyString => true | _ => false end.

(** [s.isdigit()]: every character is a digit and there is at least one. *)
Definition isdigit (s : string) : bool :=
  negb (is_empty s) && all_chars isdigit_char s.

Definition len (s : string) : nat := String.length s.

Fixpoint lstrip_by (p : ascii -> bool) (s : string) : string :=
  match s with
  | EmptyString => EmptyString
  | String c r => if p c then lstrip_by p r else s
  end.

Fixpoint rstrip_by (p : ascii -> bool) (s : string) : string :=
  match s with
  | EmptyString => EmptyString
  | String c r =>
      let r' := rstrip_by p r in
      if is_empty r' && p c then EmptyString else String c r'
  end.

(** [s.strip()] *)
Definition strip (s : string) : string := rstrip_by isspace (lstrip_by isspace s).

(** [s.rstrip(c)] for a one-character argument. *)
Definition rstrip_char (c : ascii) (s : string) : string :=
  rstrip_by (Ascii.eqb c) s.

(** [s.startswith(p)] *)
Definition startswith (p s : string) : bool := String.prefix p s.

Fixpoint last_char (s : string) : option ascii :=
  match s with
  | EmptyString => None
  | String c EmptyString => Some c
  | String _ r => last_char r
  end.

(** [s.endswith(c)] for a one-character argument. *)
Definition endswith_char (c : ascii) (s : string) : bool :=
  match last_char s with
  | Some d => Ascii.eqb c d
  | None => false
  end.

(** [s[n:]] *)
Fixpoint slice_from (n : nat) (s : string) : string :=
  match n, s with
  | O, _ => s
  | S n', String _ r => slice_from n' r
  | S _, EmptyString => EmptyString
  end.

(** [s[:n]] *)
Fixpoint slice_to (n : nat) (s : string) : string :=
  match n, s with
  | S n', String c r => String c (slice_to n' r)
  | _, _ => EmptyString
  end.

(** [s[i:j]] for [i <= j] *)
Definition slice (i j : nat) (s : string) : string :=
  slice_to (j - i) (slice_from i s).

(** [c in s] for a one-character [c]. *)
Fixpoint contains_char (c : ascii) (s : string) : bool :=
  match s with
  | EmptyString => false
  | String d r => Ascii.eqb c d || contains_char c r
  end.

(** [sub in s] *)
Fixpoint contains (sub s : string) : bool :=
  String.prefix sub s ||
  match s with
  | EmptyString => false
  | String _ r => contains sub r
  end.

(** [s.split(c)] for a one-character separator: never the empty list. *)
Fixpoint split (sep : ascii) (s : string) : list string :=
  match s with
  | EmptyString => [EmptyString]
  | String c r =>
      if Ascii.eqb sep c then EmptyString :: split sep r
      else match split sep r with
           | h :: t => String c h :: t
           | [] => [String c EmptyString]
           end
  end.

(** [s.split(c, 1)]: at most one cut, at the first occurrence. *)
Fixpoint split1 (sep : ascii) (s : string) : list string :=
  match s with
  | EmptyString => [EmptyString]
  | String c r =>
      if Ascii.eqb sep c then [EmptyString; r]
      else match split1 sep r with
           | h :: t => String c h :: t
           | [] => [String c EmptyString]
           end
  end.

(** [s.replace(old, new)]: all non-overlapping occurrences, left to
    right. [skip] counts the characters of a match still to be dropped. *)
Fixpoint replace_from (skip : nat) (old new s : string) : string :=
  match s with
  | EmptyString => EmptyString
  | String c r =>
      match skip with
      | S k => replace_from k old new r
      | O =>
          if String.prefix old s
          then new ++ replace_from (len old - 1) old new r
          else String c (replace_from O old new r)
      end
  end.

(** For a non-empty [old]. *)
Definition replace (old new s : string) : string := replace_from O old new s.

(** [sep.join(l)] *)
Fixpoint join (sep : string) (l : list string) : string :=
  match l with
  | [] => EmptyString
  | [x] => x
  | x :: r => x ++ sep ++ join sep r
  end.

Definition digit_value (c : ascii) : Z := Z.of_N (code c) - 48.

(** The digits of an [int] literal after the sign: decimal characters,
    single underscores only between two of them. *)
Fixpoint int_digits (acc : Z) (after_underscore : bool) (s : string) : option Z :=
  match s with
  | EmptyString => if after_underscore then None else Some acc
  | String c r =>
      if isdecimal_char c then int_digits (10 * acc + digit_value c) false r
      else if Ascii.eqb c "_" && negb after_underscore then int_digits acc true r
      else None
  end.

Definition int_unsigned (s : string) : option Z :=
  match s with
  | String c r => if isdecimal_char c then int_digits (digit_value c) false r else None
  | EmptyString => None
  end.

(** [int(s)] in base 10: surrounding whitespace, an optional sign, then
    the digits. [None] stands for ValueError. *)
Definition int (s : string) : option Z :=
  match strip s with
  | EmptyString => None
  | String c r =>
      if Ascii.eqb c "+" then int_unsigned r
      else if Ascii.eqb c "-" then Z.opp <$> int_unsigned r
      else int_unsigned (String c r)
  end.

(** [c * n] *)
Fixpoint repeat (c : ascii) (n : nat) : string :=
  match n with
  | O => EmptyString
  | S n' => String c (repeat c n')
  end.

(** ASCII lower-casing, the folding SQLite applies to identifiers. *)
Definition lower_char (c : ascii) : ascii :=
  let n := code c in
  if ((65 <=? n) && (n <=? 90))%N then ascii_of_N (n + 32) else c.

Fixpoint lower (s : string) : string :=
  match s with
  | EmptyString => EmptyString
  | String c r => String (lower_char c) (lower r)
  end.

End Py.


(** ** The persistent state *)

(** Text produced by [strftime], or the fallback text of
    [format_julian_timestamp]. The two formats of the program show an
    instant to the minute, and [strptime] with the format that wrote a
    text reads the same instant back, so a formatted time is kept as its
    instant. *)
Inductive time_text : Type :=
  | UTCText (instant : Z)          (* "%b %d %Y, %H:%M UTC" *)
  | LocalText (instant : Z)        (* "%b %d %Y, %-I:%M %p" *)
  | InvalidText (token : string).  (* "Invalid timestamp ({token})" *)

(** The values bound by the INSERT of [log_alert_to_db], column by column. *)
Module DbRow.
Record t : Type := {
  timestamp_utc : time_text;
  originator : string;
  event : string;
  event_code : string;
  fips_codes : string;
  regions : string;
  duration_minutes : Z;
  issued_code : string;
  source : string;
  raw_message : string
}.
End DbRow.

(** The dictionary [message_data] that [write_last_message] dumps. *)
Module Snapshot.
Record t : Type := {
  event : string;
  event_code : string;
  originator : string;
  source : string;
  issued_local : time_text;
  duration_minutes : Z;
  regions : list string;
  updated : string
}.
End Snapshot.

(** The SQLite file [runtime/alerts.db]. *)
Record database : Type := {
  version_rows : option (list Z);         (* table schema_version: the version of each row, by id; None: no such table *)
  alerts_columns : option (list string);  (* table alerts: its column names, in order; None: no such table *)
  indexes : gmap string string;           (* the indexes on alerts: name and indexed column *)
  alerts_rows : list DbRow.t                (* rows of alerts, by id *)
}.

(** What a first [sqlite3.connect] finds: an empty file. *)
Definition empty_database : database :=
  {| version_rows := None; alerts_columns := None; indexes := ∅; alerts_rows := [] |}.

(** [PRAGMA index_list(alerts)], the names. *)
Definition index_names (d : database) : gset string := dom (indexes d).

(** The messages handed to [logger], by call site. *)
Inductive log_record : Type :=
  | LogDatabaseError (e : exn)              (* "Database error: ..." *)
  | LogUnexpectedDatabaseError (e : exn)    (* "Unexpected database error: ..." *)
  | LogCurrentSchemaVersion (v : Z)
  | LogTargetSchemaVersion (v : Z)
  | LogSchemaUpToDate                       (* "Database schema is up to date" *)
  | LogVersionNewer (current expected : Z)  (* "Database version ... is newer than expected ..." *)
  | LogBackedUp
  | LogCreatedBackup
  | LogRunningV0V1
  | LogRunningV1V2
  | LogAddedEventCode
  | LogAddedCreatedAt
  | LogAddedIndexes
  | LogMigratedTo (v : Z)                   (* "Successfully migrated to version ..." *)
  | LogMissingColumns (missing : gset string)
  | LogExtraColumns (extra : gset string)
  | LogValidationPassed
  | LogAllMigrationsCompleted
  | LogValidationFailed
  | LogMigrationFailed (e : exn)
  | LogConsiderRestoring
  | LogInitializing
  | LogDatabaseReady (version : Z) (records : nat)
  | LogFailedToInitialize (e : exn)
  | LogStartingStream
  | LogErrorDecoding (buffer : string) (e : exn)  (* "Error decoding message '...': ..." *)
  | LogAlertLogged (event : string) (regions : nat)
  | LogFailedToLogAlert (e : exn)
  | LogUpdatedLastMessage (event : string)
  | LogFailedToWriteLastMessage (e : exn)
  | LogSuccessfullyProcessed (event : string)
  | LogFailedToDecode (msg : string) (e : exn).

(** The files under [runtime/] and the log. *)
Record world : Type := {
  db : database;                        (* alerts.db *)
  db_backup : option database;          (* alerts.db.backup *)
  last_message : option Snapshot.t;     (* last_message.json *)
  snapshot_writable : bool;             (* whether last_message.json.tmp can be opened for writing *)
  log : list log_record
}.

Definition set_db (d : database) (w : world) : world :=
  {| db := d; db_backup := db_backup w; last_message := last_message w;
     snapshot_writable := snapshot_writable w; log := log w |}.

Definition set_db_backup (b : option database) (w : world) : world :=
  {| db := db w; db_backup := b; last_message := last_message w;
     snapshot_writable := snapshot_writable w; log := log w |}.

Definition set_last_message (s : option Snapshot.t) (w : world) : world :=
  {| db := db w; db_backup := db_backup w; last_message := s;
     snapshot_writable := snapshot_writable w; log := log w |}.

Definition add_log (r : log_record) (w : world) : world :=
  {| db := db w; db_backup := db_backup w; last_message := last_message w;
     snapshot_writable := snapshot_writable w; log := (log w ++ [r])%list |}.

(** ** Effectful code: a state and exception monad over [world] *)

(** A statement sequence: it ends normally with a value or by raising, and
    leaves the world it reached either way. *)
Definition action (A : Type) : Type := world -> result A * world.

#[global] Instance action_ret : MRet action := fun A a w => (Ok a, w).
#[global] Instance action_bind : MBind action := fun A B k m w =>
  match m w with
  | (Ok a, w') => k a w'
  | (Raise e, w') => (Raise e, w')
  end.

Definition raise {A : Type} (e : exn) : action A := fun w => (Raise e, w).

(** [try: m  except Exception as e: h e] *)
Definition try_except {A : Type} (m : action A) (h : exn -> action A) : action A :=
  fun w =>
    match m w with
    | (Ok a, w') => (Ok a, w')
    | (Raise e, w') => h e w'
    end.

Definition logger (r : log_record) : action unit := fun w => (Ok tt, add_log r w).

Definition read_db : action database := fun w => (Ok (db w), w).

(** One SQL statement in autocommit mode, or a write that is committed:
    the file changes only if the statement succeeds. *)
Definition execute (stmt : database -> result database) : action unit :=
  fun w =>
    match stmt (db w) with
    | Ok d => (Ok tt, set_db d w)
    | Raise e => (Raise e, w)
    end.

(** The version a reader finds: that of the row with the highest id, 0
    without the table or without a row. *)
Definition stored_version (d : database) : Z :=
  match version_rows d with
  | None => 0
  | Some rows => default 0 (last rows)
  end.

(** ** SQL statements of the two modules *)

(** SQLite compares identifiers without regard to ASCII case. *)
Definition has_column (cols : list string) (name : string) : bool :=
  bool_decide (Py.lower name ∈ Py.lower <$> cols).

Definition with_version_rows (rows : option (list Z)) (d : database) : database :=
  {| version_rows := rows; alerts_columns := alerts_columns d;
     indexes := indexes d; alerts_rows := alerts_rows d |}.

Definition with_alerts_columns (cols : option (list string)) (d : database) : database :=
  {| version_rows := version_rows d; alerts_columns := cols;
     indexes := indexes d; alerts_rows := alerts_rows d |}.

Definition with_indexes (ixs : gmap string string) (d : database) : database :=
  {| version_rows := version_rows d; alerts_columns := alerts_columns d;
     indexes := ixs; alerts_rows := alerts_rows d |}.

Definition with_alerts_rows (rows : list DbRow.t) (d : database) : database :=
  {| version_rows := version_rows d; alerts_columns := alerts_columns d;
     indexes := indexes d; alerts_rows := rows |}.

(** The columns of the CREATE TABLE of [migration_v0_to_v1]. *)
Definition BASE_COLUMNS : list string :=
  ["id"; "timestamp_utc"; "originator"; "event"; "fips_codes"; "regions";
   "duration_minutes"; "issued_code"; "source"; "raw_message"].

(** [CREATE TABLE IF NOT EXISTS alerts (...)] *)
Definition create_alerts_if_not_exists (d : database) : result database :=
  match alerts_columns d with
  | Some _ => Ok d
  | None => Ok (with_alerts_columns (Some BASE_COLUMNS) d)
  end.

(** [PRAGMA table_info(alerts)], the names: no row for a missing table. *)
Definition table_info_alerts (d : database) : list string :=
  default [] (alerts_columns d).

(** [ALTER TABLE alerts ADD COLUMN name ...]. A default that is not a
    constant (CURRENT_TIMESTAMP) is refused when the table holds rows. *)
Definition alter_add_column (name : string) (constant_default : bool)
    (d : database) : result database :=
  match alerts_columns d with
  | None => Raise (SqliteNoSuchTable "alerts")
  | Some cols =>
      if has_column cols name then Raise (SqliteDuplicateColumn name)
      else if negb constant_default && negb (bool_decide (alerts_rows d = []))
      then Raise SqliteNonConstantDefault
      else Ok (with_alerts_columns (Some (cols ++ [name])%list) d)
  end.

(** [CREATE INDEX IF NOT EXISTS name ON alerts(column)]. An index of
    that name stays as it is, on whatever column it has; a new one is on
    the column the statement names. *)
Definition create_index_if_not_exists (name column : string)
    (d : database) : result database :=
  match alerts_columns d with
  | None => Raise (SqliteNoSuchTable "main.alerts")
  | Some cols =>
      match indexes d !! name with
      | Some _ => Ok d
      | None =>
          if has_column cols column then Ok (with_indexes (<[name := column]> (indexes d)) d)
          else Raise (SqliteNoSuchColumn column)
      end
  end.

(** What the sqlite3 module binds to an INTEGER: a signed 64-bit value. *)
Definition in_int64 (z : Z) : bool := (- 2 ^ 63 <=? z) && (z <? 2 ^ 63).

(** The columns named by the INSERT of [log_alert_to_db]. *)
Definition INSERT_COLUMNS : list string :=
  ["timestamp_utc"; "originator"; "event"; "event_code"; "fips_codes"; "regions";
   "duration_minutes"; "issued_code"; "source"; "raw_message"].

(** [INSERT INTO alerts (...) VALUES (...)] and the commit. The statement
    is prepared first (table, columns); then the values are bound, and
    the one integer among them, the duration, must fit 64 bits. *)
Definition insert_alert (row : DbRow.t) (d : database) : result database :=
  match alerts_columns d with
  | None => Raise (SqliteNoSuchTable "alerts")
  | Some cols =>
      match filter (fun c => ¬ has_column cols c) INSERT_COLUMNS with
      | [] =>
          if in_int64 (DbRow.duration_minutes row)
          then Ok (with_alerts_rows (alerts_rows d ++ [row])%list d)
          else Raise OverflowError
      | c :: _ => Raise (SqliteNoColumnNamed c)
      end
  end.

(** [CREATE TABLE IF NOT EXISTS schema_version (...)] *)
Definition create_schema_version_if_not_exists (d : database) : result database :=
  Ok (with_version_rows (Some (default [] (version_rows d))) d).

(** [INSERT INTO schema_version (version, description) VALUES (?, ?)] and
    the commit. A version outside 64 bits cannot be bound: no row is
    written. *)
Definition insert_schema_version (version : Z) (d : database) : result database :=
  match version_rows d with
  | None => Raise (SqliteNoSuchTable "schema_version")
  | Some rows =>
      if in_int64 version
      then Ok (with_version_rows (Some (rows ++ [version])%list) d)
      else Raise OverflowError
  end.

(** ** [database_migrations.py] *)

Definition CURRENT_SCHEMA_VERSION : Z := 2.

Module Migrations.

(** The context manager [get_db_connection]: an exception of the body is
    logged and raised again. No statement of the module leaves an open
    transaction behind a failure, so the rollback has nothing to undo. *)
Definition get_db_connection {A : Type} (body : action A) : action A :=
  try_except body (fun e => _ ← logger (LogDatabaseError e); raise e).

(** [get_schema_version]. The two reads cannot fail here, so the handler
    that answers 0 is never entered. *)
Definition get_schema_version : action Z :=
  try_except
    (get_db_connection
       (d ← read_db; mret (stored_version d)))
    (fun _ => mret 0).

(** [set_schema_version]. The CREATE TABLE is committed on its own, so
    the table stays when the INSERT fails. *)
Definition set_schema_version (version : Z) : action unit :=
  get_db_connection
    (_ ← execute create_schema_version_if_not_exists;
     execute (insert_schema_version version)).

(** [backup_database]. The file exists by the time it is called, because
    [get_schema_version] has connected to it; the result is whether a
    backup path is returned. *)
Definition backup_database : action bool :=
  fun w => (Ok true, add_log LogBackedUp (set_db_backup (Some (db w)) w)).

(** [migration_v0_to_v1] *)
Definition migration_v0_to_v1 : action unit :=
  _ ← logger LogRunningV0V1;
  get_db_connection (execute create_alerts_if_not_exists).

(** [migration_v1_to_v2] *)
Definition migration_v1_to_v2 : action unit :=
  _ ← logger LogRunningV1V2;
  get_db_connection
    (d ← read_db;
     let existing_columns : gset string := list_to_set (table_info_alerts d) in
     _ ← (if bool_decide ("event_code" ∉ existing_columns)
          then _ ← execute (alter_add_column "event_code" true);
               logger LogAddedEventCode
          else mret tt);
     _ ← (if bool_decide ("created_at" ∉ existing_columns)
          then _ ← execute (alter_add_column "created_at" false);
               logger LogAddedCreatedAt
          else mret tt);
     _ ← execute (create_index_if_not_exists "idx_alerts_timestamp" "timestamp_utc");
     _ ← execute (create_index_if_not_exists "idx_alerts_event_code" "event_code");
     _ ← execute (create_index_if_not_exists "idx_alerts_originator" "originator");
     _ ← execute (create_index_if_not_exists "idx_alerts_created_at" "created_at");
     logger LogAddedIndexes).

Definition expected_columns : gset string :=
  list_to_set ["id"; "timestamp_utc"; "originator"; "event"; "event_code";
               "fips_codes"; "regions"; "duration_minutes"; "issued_code";
               "source"; "raw_message"; "created_at"].

(** [validate_schema] *)
Definition validate_schema : action bool :=
  get_db_connection
    (d ← read_db;
     let actual_columns : gset string := list_to_set (table_info_alerts d) in
     let missing_columns := expected_columns ∖ actual_columns in
     let extra_columns := actual_columns ∖ expected_columns in
     if bool_decide (missing_columns ≠ ∅)
     then _ ← logger (LogMissingColumns missing_columns); mret false
     else
       _ ← (if bool_decide (extra_columns ≠ ∅)
            then logger (LogExtraColumns extra_columns) else mret tt);
       _ ← logger LogValidationPassed;
       mret true).

(** The list [migrations] of [run_migrations]. *)
Definition migrations : list (Z * Z * action unit) :=
  [(0, 1, migration_v0_to_v1); (1, 2, migration_v1_to_v2)].

(** The loop over [migrations]; the result is the final value of the
    local [current_version]. *)
Fixpoint run_steps (current_version : Z) (steps : list (Z * Z * action unit)) : action Z :=
  match steps with
  | [] => mret current_version
  | (from_version, to_version, migration_func) :: rest =>
      if current_version =? from_version then
        _ ← migration_func;
        _ ← set_schema_version to_version;
        _ ← logger (LogMigratedTo to_version);
        run_steps to_version rest
      else run_steps current_version rest
  end.

(** [run_migrations] *)
Definition run_migrations : action bool :=
  current_version ← get_schema_version;
  _ ← logger (LogCurrentSchemaVersion current_version);
  _ ← logger (LogTargetSchemaVersion CURRENT_SCHEMA_VERSION);
  if current_version =? CURRENT_SCHEMA_VERSION then
    _ ← logger LogSchemaUpToDate; mret true
  else if CURRENT_SCHEMA_VERSION <? current_version then
    _ ← logger (LogVersionNewer current_version CURRENT_SCHEMA_VERSION); mret false
  else
    backup_path ← backup_database;
    _ ← (if backup_path : bool then logger LogCreatedBackup else mret tt);
    try_except
      (_ ← run_steps current_version migrations;
       valid ← validate_schema;
       if valid : bool
       then _ ← logger LogAllMigrationsCompleted; mret true
       else _ ← logger LogValidationFailed; mret false)
      (fun e =>
         _ ← logger (LogMigrationFailed e);
         _ ← (if backup_path : bool then logger LogConsiderRestoring else mret tt);
         raise e).

(** [get_database_stats], the two values its caller reads. The COUNT
    needs the table. *)
Definition get_database_stats : action (Z * nat) :=
  get_db_connection
    (d ← read_db;
     match alerts_columns d with
     | None => raise (SqliteNoSuchTable "alerts")
     | Some _ =>
         version ← get_schema_version;
         mret (version, length (alerts_rows d))
     end).

End Migrations.

(** ** [same_decoder.py]: the header parser *)

Definition START_MARKER : string := "ZCZC-".

(** [validate_same_message_format]. The [isinstance] test cannot fail on a
    value of type [string]. *)
Definition validate_same_message_format (msg : string) : result string :=
  let msg := Py.strip msg in
  if Py.is_empty msg then Raise MessageEmpty
  else if negb (Py.startswith START_MARKER msg) then Raise MessageNoStartMarker
  else if (1000 <? Py.len msg)%nat then Raise (MessageTooLong (Py.len msg))
  else Ok msg.

(** The dictionary [parse_same_message] returns. *)
Module Parsed.
Record t : Type := {
  originator : string;
  event_code : string;
  fips_codes : list string;
  duration : string;
  timestamp : string;
  station_id : string
}.
End Parsed.

(** The local variables of the scanning loop of [parse_same_message]:
    [duration], [timestamp] and [station_id] start as [None]. *)
Record scan_state : Type := {
  fips_codes : list string;
  duration : option string;
  timestamp : option string;
  station_id : option string
}.

(** [if s: l.append(s)] *)
Definition append_nonempty (l : list string) (s : string) : list string :=
  if Py.is_empty s then l else (l ++ [s])%list.

(** The loop [for i in range(2, len(parts))], on the tokens from [parts[i]]
    onward; [fips] is the list collected so far. The reads of [parts[i+1]]
    and [parts[i+2]] raise IndexError past the end, which the loop turns
    into its own error. *)
Fixpoint scan_parts (fips : list string) (rest : list string) : result scan_state :=
  match rest with
  | [] => Ok {| fips_codes := fips; duration := None; timestamp := None; station_id := None |}
  | part :: following =>
      if Py.contains_char "+" part then
        match Py.split1 "+" part with
        | [fips_part; dur] =>
            let fips := append_nonempty fips (Py.strip fips_part) in
            match following with
            | ts :: st :: _ =>
                Ok {| fips_codes := fips; duration := Some dur;
                      timestamp := Some (Py.strip ts); station_id := Some (Py.strip st) |}
            | _ => Raise IncompleteAfterDuration
            end
        | _ => Raise (InvalidDurationPart part)
        end
      else scan_parts (append_nonempty fips (Py.strip part)) following
  end.

(** Truth value of an optional string: [None] and [""] are false. *)
Definition truthy (o : option string) : bool :=
  match o with
  | Some s => negb (Py.is_empty s)
  | None => false
  end.

(** [msg[5:].rstrip('-').split('-')] *)
Definition header_parts (msg : string) : list string :=
  Py.split "-" (Py.rstrip_char "-" (Py.slice_from 5 msg)).

(** The body of [parse_same_message] after the split. The two indexed
    reads are guarded by the length test. *)
Definition parse_parts (parts : list string) : result Parsed.t :=
  if (length parts <? 5)%nat then Raise (TooFewParts (length parts) parts)
  else
    let originator := Py.strip (nth 0 parts "") in
    let event_code := Py.strip (nth 1 parts "") in
    if Py.is_empty originator || Py.is_empty event_code
    then Raise EmptyOriginatorOrEvent
    else
      st ← scan_parts [] (drop 2 parts);
      if negb (truthy (Some originator) && truthy (Some event_code)
               && truthy (duration st) && truthy (timestamp st)
               && truthy (station_id st))
      then Raise MissingRequiredFields
      else if bool_decide (fips_codes st = []) then Raise NoValidFipsCodes
      else
        let dur := default "" (duration st) in
        let ts := default "" (timestamp st) in
        let sid := default "" (station_id st) in
        if negb (Py.isdigit dur) || negb (Py.len dur =? 4)%nat
        then Raise (InvalidDurationFormat dur)
        else if negb (Py.isdigit ts) || negb (Py.len ts =? 7)%nat
        then Raise (InvalidTimestampFormat ts)
        else Ok {| Parsed.originator := originator; Parsed.event_code := event_code;
                   Parsed.fips_codes := fips_codes st; Parsed.duration := dur;
                   Parsed.timestamp := ts; Parsed.station_id := sid |}.

(** [parse_same_message] *)
Definition parse_same_message (msg : string) : result Parsed.t :=
  msg ← validate_same_message_format msg;
  parse_parts (header_parts msg).

(** ** [same_decoder.py]: enrichment *)

(** What the decoder reads but never writes: the reference tables of
    [_csv_cache] (a table maps a key to its CSV row, a row maps a column
    name to its cell) and the readings of the clock, taken as fixed while
    one stream is processed. *)
Record environment : Type := {
  originators : gmap string (gmap string string);
  events : gmap string (gmap string string);
  counties : gmap string (gmap string string);
  states : gmap string (gmap string string);
  year_start : Z;       (* the instant of January 1st, 00:00 UTC, of the current UTC year *)
  utc_offset : Z -> Z;  (* minutes the local zone is ahead of UTC at an instant *)
  now_text : string     (* datetime.now() as "%Y-%m-%d %H:%M:%S" *)
}.

(** [int(s)], raising. *)
Definition int_of (s : string) : result Z :=
  match Py.int s with
  | Some z => Ok z
  | None => Raise (IntValueError s)
  end.

(** The [try] block of [format_julian_timestamp]: the instant of the
    message, in minutes. *)
Definition julian_instant (env : environment) (timestamp : string) : result Z :=
  if Py.is_empty timestamp || negb (Py.isdigit timestamp) || negb (Py.len timestamp =? 7)%nat
  then Raise (InvalidTimestampFormat timestamp)
  else
    jjj ← int_of (Py.slice_to 3 timestamp);
    hh ← int_of (Py.slice 3 5 timestamp);
    mm ← int_of (Py.slice_from 5 timestamp);
    if negb ((1 <=? jjj) && (jjj <=? 366)) then Raise (InvalidJulianDay jjj)
    else if negb ((0 <=? hh) && (hh <=? 23)) then Raise (InvalidHour hh)
    else if negb ((0 <=? mm) && (mm <=? 59)) then Raise (InvalidMinute mm)
    else Ok (year_start env + (jjj - 1) * 1440 + hh * 60 + mm).

(** [format_julian_timestamp]: every exception of the block is caught and
    answered with the fallback text. *)
Definition format_julian_timestamp (env : environment) (timestamp : string) : time_text :=
  match julian_instant env timestamp with
  | Ok instant => UTCText instant
  | Raise _ => InvalidText timestamp
  end.

(** [datetime.strptime(text, "%b %d %Y, %H:%M UTC")] *)
Definition strptime_utc (text : time_text) : result Z :=
  match text with
  | UTCText instant => Ok instant
  | _ => Raise StrptimeValueError
  end.

(** [resolve_region_descriptions] *)
Definition resolve_region_descriptions (env : environment) (fips_codes : list string)
    : list string :=
  (fun fips =>
     match counties env !! fips ≫= (fun entry => entry !! "county") with
     | Some county => county
     | None => "Unknown Region (" ++ fips ++ ")"
     end) <$> fips_codes.

(** The dictionary [create_alert_data] returns. *)
Module Alert.
Record t : Type := {
  originator : string;
  event : string;
  event_code : string;
  fips_codes : list string;
  region_descriptions : list string;
  duration_minutes : Z;
  timestamp_utc : time_text;
  issued_code : string;
  source : string;
  raw_message : string;
  end_time : option Z
}.
End Alert.

(** [table.get(key, {}).get(field, fallback)] *)
Definition get_or (table : gmap string (gmap string string))
    (key field fallback : string) : string :=
  default fallback (default ∅ (table !! key) !! field).

(** [create_alert_data] *)
Definition create_alert_data (env : environment) (parsed : Parsed.t) (msg : string)
    : result Alert.t :=
  let origin := get_or (originators env) (Parsed.originator parsed) "name"
                       (Parsed.originator parsed) in
  let event := get_or (events env) (Parsed.event_code parsed) "description"
                      (Parsed.event_code parsed) in
  let issued_jjjhhmm := Parsed.timestamp parsed in
  let formatted_time := format_julian_timestamp env issued_jjjhhmm in
  duration_minutes ← int_of (Parsed.duration parsed);
  let end_time :=
    match strptime_utc formatted_time with
    | Ok dt_utc => Some (dt_utc + duration_minutes)
    | Raise _ => None
    end in
  let region_descriptions := resolve_region_descriptions env (Parsed.fips_codes parsed) in
  Ok {| Alert.originator := origin;
        Alert.event := event;
        Alert.event_code := Parsed.event_code parsed;
        Alert.fips_codes := Parsed.fips_codes parsed;
        Alert.region_descriptions := region_descriptions;
        Alert.duration_minutes := duration_minutes;
        Alert.timestamp_utc := formatted_time;
        Alert.issued_code := Parsed.timestamp parsed;
        Alert.source := Parsed.station_id parsed;
        Alert.raw_message := msg;
        Alert.end_time := end_time |}.

(** ** [same_decoder.py]: persistence, publication and the stream *)

(** Whether an exception is a [sqlite3.Error]. *)
Definition is_sqlite_error (e : exn) : bool :=
  match e with
  | SqliteNoSuchTable _ | SqliteNoSuchColumn _ | SqliteNoColumnNamed _
  | SqliteDuplicateColumn _ | SqliteNonConstantDefault => true
  | _ => false
  end.

(** The context manager [get_db_connection] of the decoder: one handler
    for [sqlite3.Error], one for every other exception. *)
Definition get_db_connection {A : Type} (body : action A) : action A :=
  try_except body
    (fun e => _ ← logger (if is_sqlite_error e then LogDatabaseError e
                          else LogUnexpectedDatabaseError e);
              raise e).

(** The tuple bound to the INSERT. *)
Definition alert_row (alert : Alert.t) : DbRow.t :=
  {| DbRow.timestamp_utc := Alert.timestamp_utc alert;
     DbRow.originator := Alert.originator alert;
     DbRow.event := Alert.event alert;
     DbRow.event_code := Alert.event_code alert;
     DbRow.fips_codes := Py.join "," (Alert.fips_codes alert);
     DbRow.regions := Py.join ", " (Alert.region_descriptions alert);
     DbRow.duration_minutes := Alert.duration_minutes alert;
     DbRow.issued_code := Alert.issued_code alert;
     DbRow.source := Alert.source alert;
     DbRow.raw_message := Alert.raw_message alert |}.

(** [log_alert_to_db] *)
Definition log_alert_to_db (alert : Alert.t) : action unit :=
  try_except
    (get_db_connection
       (_ ← execute (insert_alert (alert_row alert));
        logger (LogAlertLogged (Alert.event alert) (length (Alert.fips_codes alert)))))
    (fun e => _ ← logger (LogFailedToLogAlert e); raise e).

(** The region list of the snapshot: [" County"] is removed when every
    region contains ["County"]. *)
Definition display_regions (region_descriptions : list string) : list string :=
  let regions := region_descriptions in
  if negb (bool_decide (regions = [])) && forallb (Py.contains "County") regions
  then Py.replace " County" "" <$> regions
  else regions.

(** The local time text of the snapshot; a text that [strptime] refuses is
    kept as it is. *)
Definition issued_local_text (env : environment) (timestamp_utc : time_text) : time_text :=
  match strptime_utc timestamp_utc with
  | Ok dt_utc => LocalText (dt_utc + utc_offset env dt_utc)
  | Raise _ => timestamp_utc
  end.

(** The dictionary [message_data]. *)
Definition message_data (env : environment) (alert : Alert.t) : Snapshot.t :=
  {| Snapshot.event := Alert.event alert;
     Snapshot.event_code := Alert.event_code alert;
     Snapshot.originator := Alert.originator alert;
     Snapshot.source := Alert.source alert;
     Snapshot.issued_local := issued_local_text env (Alert.timestamp_utc alert);
     Snapshot.duration_minutes := Alert.duration_minutes alert;
     Snapshot.regions := display_regions (Alert.region_descriptions alert);
     Snapshot.updated := now_text env |}.

(** Writing the temporary file and renaming it over the snapshot. *)
Definition write_and_rename (data : Snapshot.t) : action unit :=
  fun w =>
    if snapshot_writable w then (Ok tt, set_last_message (Some data) w)
    else (Raise OSErrorOnWrite, w).

(** [write_last_message]. On failure the temporary file is removed and
    the published file is the one from before. *)
Definition write_last_message (env : environment) (alert : Alert.t) : action unit :=
  try_except
    (_ ← write_and_rename (message_data env alert);
     logger (LogUpdatedLastMessage (Alert.event alert)))
    (fun e => _ ← logger (LogFailedToWriteLastMessage e); raise e).

(** Lifting of a pure computation that may raise. *)
Definition lift {A : Type} (r : result A) : action A := fun w => (r, w).

(** [decode_same_message]. [print_alert_summary] only logs and is left
    out. *)
Definition decode_same_message (env : environment) (msg : string) : action unit :=
  try_except
    (parsed ← lift (parse_same_message msg);
     alert ← lift (create_alert_data env parsed msg);
     _ ← log_alert_to_db alert;
     _ ← write_last_message env alert;
     logger (LogSuccessfullyProcessed (Alert.event alert)))
    (fun e => _ ← logger (LogFailedToDecode msg e); raise e).

(** The [try] statement inside the loop of [stream_decode_from_stdin]:
    an exception of the decoding is logged and dropped. *)
Definition decode_guarded (env : environment) (buffer : string) : action unit :=
  try_except (decode_same_message env buffer)
             (fun e => logger (LogErrorDecoding buffer e)).

(** One iteration of the loop of [stream_decode_from_stdin]: from the
    value of [buffer] before the line to its value after it. *)
Definition stream_step (env : environment) (buffer : string) (line : string)
    : action string :=
  let line := Py.strip line in
  if negb (Py.startswith START_MARKER line) then mret buffer
  else
    let buffer := buffer ++ line in
    if Py.endswith_char "-" line then
      _ ← decode_guarded env buffer;
      mret ""
    else mret buffer.

(** The loop [for line in sys.stdin]. *)
Fixpoint stream_loop (env : environment) (buffer : string) (lines : list string)
    : action string :=
  match lines with
  | [] => mret buffer
  | line :: rest =>
      buffer ← stream_step env buffer line;
      stream_loop env buffer rest
  end.

(** [initialize_database] *)
Definition initialize_database : action unit :=
  try_except
    (_ ← logger LogInitializing;
     success ← Migrations.run_migrations;
     if negb success then raise MigrationFailed
     else
       stats ← Migrations.get_database_stats;
       logger (LogDatabaseReady stats.1 stats.2))
    (fun e => _ ← logger (LogFailedToInitialize e); raise e).


(** ** The error kinds of the specification *)

(** The specification sorts the failures of one message into kinds; the
    program raises ValueError, sqlite3 errors and OSError, and a kind is
    read off the raise site. *)
Inductive error_kind : Type :=
  | GrammarViolation
  | FieldFormatInvalid
  | PersistenceFailure
  | PublishFailure
  | MigrationFailure
  | InternalFault.

Definition kind_of (e : exn) : error_kind :=
  match e with
  | MessageEmpty | MessageNoStartMarker | MessageTooLong _ | TooFewParts _ _
  | EmptyOriginatorOrEvent | InvalidDurationPart _ | IncompleteAfterDuration
  | MissingRequiredFields | NoValidFipsCodes => GrammarViolation
  | InvalidDurationFormat _ | InvalidTimestampFormat _
  | InvalidJulianDay _ | InvalidHour _ | InvalidMinute _ => FieldFormatInvalid
  | SqliteNoSuchTable _ | SqliteNoSuchColumn _ | SqliteNoColumnNamed _
  | SqliteDuplicateColumn _ | SqliteNonConstantDefault | OverflowError => PersistenceFailure
  | OSErrorOnWrite => PublishFailure
  | MigrationFailed => MigrationFailure
  | IntValueError _ | StrptimeValueError => InternalFault
  end.

(** The field an error names, if it names one. *)
Definition field_named (e : exn) : option string :=
  match e with
  | InvalidDurationFormat _ => Some "duration"
  | InvalidTimestampFormat _ => Some "timestamp"
  | _ => None
  end.

(** A store and a snapshot path in working order, before any message. *)
Definition fresh_world : world :=
  {| db := empty_database; db_backup := None; last_message := None;
     snapshot_writable := true; log := [] |}.

(** No reference table has an entry; the year starts at instant 0 and
    local time is UTC. *)
Definition bare_environment : environment :=
  {| originators := ∅; events := ∅; counties := ∅; states := ∅;
     year_start := 0; utc_offset := fun _ => 0; now_text := "2025-10-05 04:15:00" |}.

(** The message of [scripts/test_decoder.py]. *)
Definition TEST_MESSAGE : string :=
  "ZCZC-EAS-RWT-012057-012081-012101-012103-012115+0030-2780415-WTSP/TV-".

(** 1001 characters without the start marker, and 1005 with it. *)
Definition long_noise : string := Py.repeat "A" 1001.
Definition long_header : string := START_MARKER ++ Py.repeat "A" 1000.

(** A header cut in two by the transport. *)
Definition broken_header : list string :=
  ["ZCZC-EAS-RWT-012057"; "+0030-2780415-WTSP/TV-"].

(** An alert for one region, named as in the argument. *)
Definition alert_for_regions (names : list string) : Alert.t :=
  {| Alert.originator := "EAS"; Alert.event := "RWT"; Alert.event_code := "RWT";
     Alert.fips_codes := ["012057"]; Alert.region_descriptions := names;
     Alert.duration_minutes := 30; Alert.timestamp_utc := UTCText 399135;
     Alert.issued_code := "2780415"; Alert.source := "WTSP/TV";
     Alert.raw_message := "ZCZC-EAS-RWT-012057+0030-2780415-WTSP/TV-";
     Alert.end_time := Some 399165 |}.

(** A header whose one area code is the word County; no reference table
    knows it, so it resolves to "Unknown Region (County)". *)
Definition county_area_header : string := "ZCZC-WXR-TOR-County+0030-2780415-KTBW/NWS-".

(** The world after a message went through all stages. *)
Definition decoded_world (env : environment) (alert : Alert.t) (d : database)
    (w : world) : world :=
  add_log (LogSuccessfullyProcessed (Alert.event alert))
    (add_log (LogUpdatedLastMessage (Alert.event alert))
       (set_last_message (Some (message_data env alert))
          (add_log (LogAlertLogged (Alert.event alert) (length (Alert.fips_codes alert)))
             (set_db d w)))).

(** One area code joined to the duration, and nothing after it. *)
Definition short_header : string := "ZCZC-EAS-RWT-012057+0030-".

(** Three area codes, the last joined to the duration, and nothing after it. *)
Definition cut_header : string := "ZCZC-EAS-RWT-012057-012081-012101+0030-".

(** The store after the start-up migration of an empty file. *)
Definition ready_world : world := (initialize_database fresh_world).2.

(** The migrated store, with a snapshot path that cannot be written. *)
Definition unwritable_world : world :=
  {| db := db ready_world; db_backup := db_backup ready_world;
     last_message := None; snapshot_writable := false; log := [] |}.

(** Headers with a timestamp of seven digits and day 0, day 367, hour 24
    or minute 60, and one with a duration of three digits. *)
Definition day_zero_header : string := "ZCZC-EAS-RWT-012057+0030-0000415-WTSP/TV-".
Definition day_367_header : string := "ZCZC-EAS-RWT-012057+0030-3670415-WTSP/TV-".
Definition hour_24_header : string := "ZCZC-EAS-RWT-012057+0030-2782415-WTSP/TV-".
Definition minute_60_header : string := "ZCZC-EAS-RWT-012057+0030-2780460-WTSP/TV-".
Definition short_duration_header : string := "ZCZC-EAS-RWT-012057+030-2780415-WTSP/TV-".

(** A warning for one hour and thirty minutes, with what the parser and
    the enrichment make of it under [bare_environment]. *)
Definition ninety_minute_header : string := "ZCZC-WXR-TOR-012057+0130-2780415-KTBW/NWS-".

Definition ninety_minute_parsed : Parsed.t :=
  {| Parsed.originator := "WXR"; Parsed.event_code := "TOR";
     Parsed.fips_codes := ["012057"]; Parsed.duration := "0130";
     Parsed.timestamp := "2780415"; Parsed.station_id := "KTBW/NWS" |}.

Definition ninety_minute_alert : Alert.t :=
  {| Alert.originator := "WXR"; Alert.event := "TOR"; Alert.event_code := "TOR";
     Alert.fips_codes := ["012057"];
     Alert.region_descriptions := ["Unknown Region (012057)"];
     Alert.duration_minutes := 130; Alert.timestamp_utc := UTCText 399135;
     Alert.issued_code := "2780415"; Alert.source := "KTBW/NWS";
     Alert.raw_message := ninety_minute_header;
     Alert.end_time := Some 399265 |}.

(** A line that starts a header, after trimming, and a line that ends
    one. *)
Definition is_header_line (line : string) : bool :=
  Py.startswith START_MARKER (Py.strip line).

Definition is_terminated (line : string) : bool :=
  Py.endswith_char "-" (Py.strip line).

(** A line that is noise or a header complete on its line. *)
Definition well_framed (line : string) : Prop :=
  is_header_line line = true -> is_terminated line = true.

(** The headers among lines that are all well framed: the trimmed lines
    that start with the marker, in order. *)
Definition headers_of (lines : list string) : list string :=
  filter (fun l => Py.startswith START_MARKER l = true) (Py.strip <$> lines).

(** Each header decoded in turn, with the failures logged and dropped. *)
Definition process_all (env : environment) (headers : list string) (w : world) : world :=
  foldl (fun w header => (decode_guarded env header w).2) w headers.

(** The version table after the rows [written] were appended to it; an
    INSERT creates the table when it is missing. *)
Definition extend_rows (rows : option (list Z)) (written : list Z) : option (list Z) :=
  match written with
  | [] => rows
  | _ => Some (default [] rows ++ written)%list
  end.

(** Each element is less than the next one. *)
Fixpoint strictly_increasing (l : list Z) : Prop :=
  match l with
  | x :: (y :: _) as rest => x < y /\ strictly_increasing rest
  | _ => True
  end.

(** An action that leaves the version table as it is, however it ends. *)
Definition keeps_versions {A : Type} (m : action A) : Prop :=
  forall w, version_rows (db (m w).2) = version_rows (db w).

(** The four indexes of [migration_v1_to_v2]. *)
Definition INDEX_NAMES : list string :=
  ["idx_alerts_timestamp"; "idx_alerts_event_code"; "idx_alerts_originator";
   "idx_alerts_created_at"].

(** The same four, each with the column its statement names: issue time,
    event code, originator and receipt time. *)
Definition MIGRATION_INDEXES : list (string * string) :=
  [("idx_alerts_timestamp", "timestamp_utc"); ("idx_alerts_event_code", "event_code");
   ("idx_alerts_originator", "originator"); ("idx_alerts_created_at", "created_at")].

(** The indexes after a successful CREATE INDEX IF NOT EXISTS. *)
Definition add_index (name column : string) (ixs : gmap string string)
    : gmap string string :=
  match ixs !! name with
  | Some _ => ixs
  | None => <[name := column]> ixs
  end.

Definition add_indexes (l : list (string * string)) (ixs : gmap string string)
    : gmap string string :=
  foldl (fun acc nc => add_index nc.1 nc.2 acc) ixs l.

(** A store at version 0 as the program meets it: a new file, or a file
    where only the version table or the base table of alerts, still
    without a row, was created (the base table is the one of the legacy
    [init_db.py]). *)
Definition version_zero_store (d : database) : Prop :=
  stored_version d = 0 /\
  (alerts_columns d = None \/ alerts_columns d = Some BASE_COLUMNS) /\
  alerts_rows d = [].

(** A store a later program version has written. *)
Definition newer_world : world :=
  {| db := {| version_rows := Some [1; 2; 3]; alerts_columns := Some BASE_COLUMNS;
              indexes := ∅; alerts_rows := [] |};
     db_backup := None; last_message := None; snapshot_writable := true; log := [] |}.

(** The base table of the legacy [init_db.py] with one row, written by the
    legacy decoder. *)
Definition populated_legacy_world : world :=
  {| db := {| version_rows := None; alerts_columns := Some BASE_COLUMNS;
              indexes := ∅;
              alerts_rows := [alert_row (alert_for_regions ["Pinellas County"])] |};
     db_backup := None; last_message := None; snapshot_writable := true; log := [] |}.

(** Whether the day, the hour or the minute of a JJJHHMM text is out of
    its range (day 1 to 366, hour 0 to 23, minute 0 to 59). *)
Definition out_of_range (timestamp : string) : bool :=
  match Py.int (Py.slice_to 3 timestamp), Py.int (Py.slice 3 5 timestamp),
        Py.int (Py.slice_from 5 timestamp) with
  | Some jjj, Some hh, Some mm =>
      negb ((1 <=? jjj) && (jjj <=? 366)) || negb ((0 <=? hh) && (hh <=? 23))
      || negb ((0 <=? mm) && (mm <=? 59))
  | _, _, _ => false
  end.

(** The area codes the scan collects from the tokens before the duration
    and from the fragment in front of the separator. *)
Definition collected_codes (areas : list string) (frag : string) : list string :=
  filter (fun s => s <> "") (Py.strip <$> (areas ++ [frag])%list).

Definition no_plus (s : string) : Prop := Py.contains_char "+" s = false.

(** The outcome of parsing read off the tokens of a header of the
    expected shape: originator, event code, area codes, the token that
    joins a last area code [frag] and the duration [d] with the separator,
    then the timestamp and the station. It is compared with
    [parse_parts] in [parse_parts_shape]. *)
Definition shaped_outcome (orig ev : string) (areas : list string)
    (frag d ts st : string) : result Parsed.t :=
  if Py.is_empty (Py.strip orig) || Py.is_empty (Py.strip ev)
  then Raise EmptyOriginatorOrEvent
  else if Py.is_empty d || Py.is_empty (Py.strip ts) || Py.is_empty (Py.strip st)
  then Raise MissingRequiredFields
  else if bool_decide (collected_codes areas frag = []) then Raise NoValidFipsCodes
  else if negb (Py.isdigit d && (Py.len d =? 4)%nat)
  then Raise (InvalidDurationFormat d)
  else if negb (Py.isdigit (Py.strip ts) && (Py.len (Py.strip ts) =? 7)%nat)
  then Raise (InvalidTimestampFormat (Py.strip ts))
  else Ok {| Parsed.originator := Py.strip orig; Parsed.event_code := Py.strip ev;
             Parsed.fips_codes := collected_codes areas frag; Parsed.duration := d;
             Parsed.timestamp := Py.strip ts; Parsed.station_id := Py.strip st |}.

(** The layout of a header, from its fields: the start marker, the
    originator, the event code, the area codes (the last one joined to the
    duration by the separator), the timestamp and the station, each
    followed by a dash. The program has no such function; it is the
    inverse that [header_round_trip] compares the parser with. *)
Definition render_header (orig ev : string) (areas : list string)
    (last dur ts st : string) : string :=
  START_MARKER
  ++ Py.join "-" ([orig; ev] ++ areas ++ [(last ++ String "+" dur)%string; ts; st])%list
  ++ "-".

Definition no_dash (s : string) : Prop := Py.contains_char "-" s = false.

(** A token that the parser takes as it is: not empty, without a dash and
    without whitespace around it. *)
Definition clean_token (s : string) : Prop :=
  s <> "" /\ no_dash s /\ Py.strip s = s.

(** An area code as the parser stores it: not empty, trimmed, without a
    dash and without the separator. *)
Definition good_code (s : string) : Prop :=
  s <> "" /\ no_dash s /\ no_plus s /\ Py.strip s = s.

(** A header whose duration is written with four superscript twos
    (U+00B2), and what the parser makes of it. *)
Definition superscript_duration_text : string := Py.repeat (ascii_of_nat 178) 4.

Definition superscript_header : string :=
  "ZCZC-EAS-RWT-012057+" ++ superscript_duration_text ++ "-2780415-WTSP/TV-".

Definition superscript_parsed : Parsed.t :=
  {| Parsed.originator := "EAS"; Parsed.event_code := "RWT";
     Parsed.fips_codes := ["012057"]; Parsed.duration := superscript_duration_text;
     Parsed.timestamp := "2780415"; Parsed.station_id := "WTSP/TV" |}.

(** From [w] to [w'] the schema, the version table, the indexes and the
    backup are the same, the rows of [w] are still there, in order, and at
    most [n] rows follow them. *)
Definition only_appends (n : nat) (w w' : world) : Prop :=
  version_rows (db w') = version_rows (db w) /\
  alerts_columns (db w') = alerts_columns (db w) /\
  indexes (db w') = indexes (db w) /\
  db_backup w' = db_backup w /\
  snapshot_writable w' = snapshot_writable w /\
  exists added, alerts_rows (db w') = (alerts_rows (db w) ++ added)%list /\
                (length added <= n)%nat.

(** A text that starts with the start marker and ends with a dash. *)
Definition framed (s : string) : Prop :=
  Py.startswith START_MARKER s = true /\ Py.endswith_char "-" s = true.

(** What the buffer of the stream loop can hold between two lines. *)
Definition buffer_ok (buffer : string) : Prop :=
  buffer = "" \/ Py.startswith START_MARKER buffer = true.

(** An action all of whose runs relate the world before to the world
    after, however they end. *)
Definition respects {A : Type} (R : world -> world -> Prop) (m : action A) : Prop :=
  forall w, R w (m w).2.

(** The store [d'] has everything the store [d] has: the same rows, its
    indexes on their columns, and its columns in the same positions. *)
Definition db_grows (d d' : database) : Prop :=
  alerts_rows d' = alerts_rows d /\
  indexes d ⊆ indexes d' /\
  (forall cols, alerts_columns d = Some cols ->
                exists more, alerts_columns d' = Some (cols ++ more)%list).

(** What the migration has no business with: the snapshot and whether it
    can be written. *)
Definition same_snapshot (w w' : world) : Prop :=
  last_message w' = last_message w /\ snapshot_writable w' = snapshot_writable w.

(** The columns after both migrations of a base table. *)
Definition FULL_COLUMNS : list string :=
  (BASE_COLUMNS ++ ["event_code"; "created_at"])%list.

(* ------------------------------------------------------------------ *)
(** * Properties *)

(** ** Strings *)

Lemma startswith_nonempty (p s : string) :
  Py.is_empty p = false -> Py.startswith p s = true -> Py.is_empty s = false.
Proof.
  destruct p as [|c p]; [discriminate|].
  destruct s as [|d s]; [discriminate|reflexivity].
Qed.

Lemma is_empty_true (s : string) : Py.is_empty s = true <-> s = "".
Proof. destruct s; simpl; split; congruence. Qed.

Lemma is_empty_false (s : string) : Py.is_empty s = false <-> s <> "".
Proof. destruct s; simpl; split; congruence. Qed.

(** ** C4: the test message *)

(** C4. Parsing the header of the repository's test script succeeds and
    yields originator EAS, event code RWT, the five area codes in the
    order of the header, duration 0030, issue timestamp 2780415 and
    station WTSP/TV. *)
Theorem parse_test_message :
  parse_same_message
    "ZCZC-EAS-RWT-012057-012081-012101-012103-012115+0030-2780415-WTSP/TV-" =
  Ok {| Parsed.originator := "EAS"; Parsed.event_code := "RWT";
        Parsed.fips_codes := ["012057"; "012081"; "012101"; "012103"; "012115"];
        Parsed.duration := "0030"; Parsed.timestamp := "2780415";
        Parsed.station_id := "WTSP/TV" |}.
Proof. vm_compute. reflexivity. Qed.

(** ** C10: the length limit *)

(** C10, as stated, fails: a string of 1001 characters that lacks the
    start marker is refused for the missing marker, not for its length. *)
Lemma long_noise_not_too_long :
  (1000 <? Py.len (Py.strip long_noise))%nat = true /\
  parse_same_message long_noise = Raise MessageNoStartMarker /\
  parse_same_message long_noise <> Raise (MessageTooLong (Py.len (Py.strip long_noise))).
Proof.
  assert (H : parse_same_message long_noise = Raise MessageNoStartMarker)
    by (vm_compute; reflexivity).
  split; [vm_compute; reflexivity|].
  split; [exact H|]. rewrite H. discriminate.
Qed.

(** C10, amended. A string of more than 1000 characters after trimming is
    refused before it is split into tokens: with the too-long error when
    it starts with the start marker, with the missing-marker error when it
    does not. *)
Theorem too_long_rejected (msg : string) :
  (1000 < Py.len (Py.strip msg))%nat ->
  parse_same_message msg =
  Raise (if Py.startswith START_MARKER (Py.strip msg)
         then MessageTooLong (Py.len (Py.strip msg))
         else MessageNoStartMarker).
Proof.
  intros Hlen. unfold parse_same_message, validate_same_message_format.
  destruct (Py.is_empty (Py.strip msg)) eqn:He.
  - apply is_empty_true in He. rewrite He in Hlen. simpl in Hlen. lia.
  - destruct (Py.startswith START_MARKER (Py.strip msg)); simpl; [|reflexivity].
    apply Nat.ltb_lt in Hlen. rewrite Hlen. reflexivity.
Qed.

Lemma too_long_rejected_witness :
  parse_same_message long_header = Raise (MessageTooLong 1005).
Proof.
  refine (eq_trans (too_long_rejected long_header _) _).
  - apply Nat.ltb_lt. vm_compute. reflexivity.
  - vm_compute. reflexivity.
Defined.

(** ** C3: lines without the start marker *)

(** Whatever the buffer holds, a line that does not start with the marker
    leaves the buffer and the world as they were. *)
Lemma stream_step_skips (env : environment) (buffer line : string) (w : world) :
  Py.startswith START_MARKER (Py.strip line) = false ->
  stream_step env buffer line w = (Ok buffer, w).
Proof. intros H. unfold stream_step. rewrite H. reflexivity. Qed.

(** C3, the code at the failing input. The second half of a header cut in
    two arrives while the buffer holds the first half; it is dropped, the
    buffer keeps the first half alone and nothing is decoded. *)
Theorem continuation_line_dropped (env : environment) (w : world) :
  stream_loop env "" broken_header w = (Ok "ZCZC-EAS-RWT-012057", w).
Proof. reflexivity. Qed.

(** The half that stays in the buffer is glued to the next header: the
    test message that follows is decoded with the tokens of the stale half
    among its area codes. *)
Example stale_half_joins_next_header :
  let w := (stream_loop bare_environment "" (broken_header ++ [TEST_MESSAGE]) ready_world).2 in
  DbRow.fips_codes <$> alerts_rows (db w)
    = ["012057ZCZC,EAS,RWT,012057,012081,012101,012103,012115"].
Proof. vm_compute. reflexivity. Qed.

(** ** C8: the region list of the snapshot *)

Lemma display_regions_spec (names : list string) :
  display_regions names =
  if forallb (Py.contains "County") names
  then Py.replace " County" "" <$> names
  else names.
Proof.
  unfold display_regions. destruct names as [|n names]; [reflexivity|].
  rewrite bool_decide_eq_false_2 by discriminate. reflexivity.
Qed.

Example display_regions_suffix :
  display_regions ["Pinellas County"; "Polk County"] = ["Pinellas"; "Polk"].
Proof. vm_compute. reflexivity. Qed.

Example display_regions_mixed :
  display_regions ["Pinellas County"; "Unknown Region (012081)"] =
  ["Pinellas County"; "Unknown Region (012081)"].
Proof. vm_compute. reflexivity. Qed.

(** A region name in which no space precedes the token: the published
    entry still contains it, because the text that is removed is the
    token with a space before it. *)
Lemma county_prefix_kept :
  let alert := alert_for_regions ["County Cork"] in
  forallb (Py.contains "County") (Alert.region_descriptions alert) = true /\
  Snapshot.regions <$> last_message (write_last_message bare_environment alert fresh_world).2
    = Some ["County Cork"] /\
  Py.contains "County" "County Cork" = true.
Proof. vm_compute. repeat split. Qed.

(** What [write_last_message] does in general. The snapshot that is
    published lists the region names of the alert with every occurrence
    of " County" (the token and the space before it) removed from every
    entry when every name contains "County", and lists them unchanged
    when some name does not contain it. *)
Theorem published_regions (env : environment) (alert : Alert.t) (w : world) :
  snapshot_writable w = true ->
  exists snapshot,
    last_message (write_last_message env alert w).2 = Some snapshot /\
    Snapshot.regions snapshot =
      if forallb (Py.contains "County") (Alert.region_descriptions alert)
      then Py.replace " County" "" <$> Alert.region_descriptions alert
      else Alert.region_descriptions alert.
Proof.
  intros Hw. exists (message_data env alert). split.
  - unfold write_last_message, try_except, write_and_rename, mbind, action_bind.
    rewrite Hw. reflexivity.
  - apply display_regions_spec.
Qed.

Lemma published_regions_witness :
  exists snapshot,
    last_message
      (write_last_message bare_environment
         (alert_for_regions ["Pinellas County"; "Polk County"]) fresh_world).2
      = Some snapshot /\
    Snapshot.regions snapshot = ["Pinellas"; "Polk"].
Proof.
  exact (published_regions bare_environment
           (alert_for_regions ["Pinellas County"; "Polk County"]) fresh_world eq_refl).
Defined.

(** C8. The claim fails on a header the decoder can receive. The one
    area code of [county_area_header] resolves to the region name
    "Unknown Region (County)", so every region name contains the token
    "County"; the message is stored and published, and the region list of
    the snapshot is ["Unknown Region (County)"]: the token is still in
    the entry. [write_last_message] tests for "County" and removes
    " County", against its comment "Remove 'County' if every region
    contains it". *)
Theorem county_token_not_stripped :
  let r := decode_same_message bare_environment county_area_header ready_world in
  exists p alert,
    parse_same_message county_area_header = Ok p /\
    create_alert_data bare_environment p county_area_header = Ok alert /\
    Alert.region_descriptions alert = ["Unknown Region (County)"] /\
    forallb (Py.contains "County") (Alert.region_descriptions alert) = true /\
    r.1 = Ok tt /\
    Snapshot.regions <$> last_message r.2 = Some ["Unknown Region (County)"] /\
    forallb (Py.contains "County") ["Unknown Region (County)"] = true.
Proof.
  eexists _, _. split; [vm_compute; reflexivity|].
  split; [vm_compute; reflexivity|].
  vm_compute. repeat split.
Qed.

(** ** The decode pipeline, stage by stage *)

Ltac unfold_action :=
  unfold try_except, logger, lift, raise, execute, read_db,
    mbind, mret, action_bind, action_ret in *.

(** A message that does not parse changes nothing but the log. *)
Lemma decode_parse_error (env : environment) (msg : string) (e : exn) (w : world) :
  parse_same_message msg = Raise e ->
  decode_same_message env msg w = (Raise e, add_log (LogFailedToDecode msg e) w).
Proof. intros H. unfold decode_same_message. unfold_action. rewrite H. reflexivity. Qed.

(** Nor does a message whose enrichment raises. *)
Lemma decode_enrich_error (env : environment) (msg : string) (p : Parsed.t)
    (e : exn) (w : world) :
  parse_same_message msg = Ok p ->
  create_alert_data env p msg = Raise e ->
  decode_same_message env msg w = (Raise e, add_log (LogFailedToDecode msg e) w).
Proof.
  intros Hp Ha. unfold decode_same_message. unfold_action. rewrite Hp, Ha. reflexivity.
Qed.

Lemma decode_success (env : environment) (msg : string) (p : Parsed.t)
    (alert : Alert.t) (d : database) (w : world) :
  parse_same_message msg = Ok p ->
  create_alert_data env p msg = Ok alert ->
  insert_alert (alert_row alert) (db w) = Ok d ->
  snapshot_writable w = true ->
  decode_same_message env msg w = (Ok tt, decoded_world env alert d w).
Proof.
  intros Hp Ha Hi Hw.
  unfold decode_same_message, log_alert_to_db, get_db_connection, write_last_message,
    write_and_rename.
  unfold_action. rewrite Hp, Ha. simpl. rewrite Hi. simpl. rewrite Hw. reflexivity.
Qed.

(** Whatever happens to a message, the rows already stored stay, in
    order, and at most one row is added. *)
Lemma decode_appends (env : environment) (msg : string) (w : world) :
  let w' := (decode_same_message env msg w).2 in
  alerts_rows (db w') = alerts_rows (db w) \/
  exists row, alerts_rows (db w') = (alerts_rows (db w) ++ [row])%list.
Proof.
  unfold decode_same_message, log_alert_to_db, get_db_connection, write_last_message,
    write_and_rename.
  unfold_action.
  destruct (parse_same_message msg) as [p|e]; [|left; reflexivity].
  destruct (create_alert_data env p msg) as [a|e]; [|left; reflexivity].
  simpl. unfold insert_alert.
  destruct (alerts_columns (db w)) as [cols|]; [|left; reflexivity].
  destruct (filter _ INSERT_COLUMNS); [|left; reflexivity].
  destruct (in_int64 _); [|left; reflexivity].
  simpl. destruct (snapshot_writable w); simpl; right; eexists; reflexivity.
Qed.

(** ** The scan of the area codes *)

Lemma contains_char_app (c : ascii) (a b : string) :
  Py.contains_char c (a ++ String c b) = true.
Proof.
  induction a as [|x a IH]; simpl.
  - rewrite Ascii.eqb_refl. reflexivity.
  - rewrite IH. apply orb_true_r.
Qed.

Lemma split1_app (c : ascii) (a b : string) :
  Py.contains_char c a = false ->
  Py.split1 c (a ++ String c b) = [a; b].
Proof.
  induction a as [|x a IH]; simpl; intros H.
  - rewrite Ascii.eqb_refl. reflexivity.
  - apply orb_false_elim in H as [Hx Ha]. rewrite Hx, (IH Ha). reflexivity.
Qed.

(** A token that contains the separator is cut in two at its first
    occurrence. *)
Lemma split1_two (c : ascii) (s : string) :
  Py.contains_char c s = true ->
  exists a b, s = a ++ String c b /\ Py.contains_char c a = false.
Proof.
  induction s as [|x s IH]; simpl; [discriminate|].
  destruct (Ascii.eqb c x) eqn:Hx; simpl; intros H.
  - apply Ascii.eqb_eq in Hx as <-. exists "", s. split; reflexivity.
  - destruct (IH H) as (a & b & -> & Ha). exists (String x a), b.
    split; [reflexivity|]. simpl. rewrite Hx. exact Ha.
Qed.

Lemma append_nonempty_filter (l : list string) (s : string) :
  append_nonempty l s = (l ++ filter (fun s => s <> "") [s])%list.
Proof.
  unfold append_nonempty. destruct s; simpl.
  - rewrite filter_cons_False by (intros H; apply H; reflexivity).
    rewrite filter_nil, app_nil_r. reflexivity.
  - rewrite filter_cons_True by discriminate. reflexivity.
Qed.

(** The scan of a token list of the expected shape: area codes, then the
    token with the separator, then two tokens. *)
Lemma scan_parts_shape (fips areas : list string) (frag d ts st : string)
    (beyond : list string) :
  Forall no_plus areas -> no_plus frag ->
  scan_parts fips (areas ++ (frag ++ String "+" d) :: ts :: st :: beyond) =
  Ok {| fips_codes := (fips ++ collected_codes areas frag)%list;
        duration := Some d;
        timestamp := Some (Py.strip ts);
        station_id := Some (Py.strip st) |}.
Proof.
  intros Ha Hf. revert fips. unfold collected_codes.
  induction Ha as [|a areas Hp _ IH]; intros fips; simpl.
  - rewrite contains_char_app, (split1_app _ _ _ Hf), append_nonempty_filter.
    reflexivity.
  - rewrite Hp, IH, append_nonempty_filter, <- app_assoc. f_equal. f_equal.
    apply (f_equal (app fips)). symmetry. apply (filter_app _ [Py.strip a]).
Qed.

(** The scan when fewer than two tokens follow the token with the
    separator. *)
Lemma scan_parts_incomplete (fips areas : list string) (tok : string)
    (following : list string) :
  Forall no_plus areas -> Py.contains_char "+" tok = true ->
  (length following < 2)%nat ->
  scan_parts fips (areas ++ tok :: following) = Raise IncompleteAfterDuration.
Proof.
  intros Ha Ht Hl. revert fips.
  induction Ha as [|a areas Hp _ IH]; intros fips; simpl.
  - rewrite Ht. destruct (split1_two _ _ Ht) as (x & y & -> & Hx).
    rewrite (split1_app _ _ _ Hx).
    destruct following as [|t1 [|t2 rest]]; simpl in Hl; try reflexivity; lia.
  - rewrite Hp. apply IH.
Qed.

(** The parser on a token list of the expected shape; the tokens beyond
    the station do not matter. *)
Lemma parse_parts_shape (orig ev : string) (areas : list string)
    (frag d ts st : string) (beyond : list string) :
  Forall no_plus areas -> no_plus frag ->
  parse_parts (orig :: ev :: areas ++ (frag ++ String "+" d) :: ts :: st :: beyond) =
  shaped_outcome orig ev areas frag d ts st.
Proof.
  intros Ha Hf. unfold parse_parts, shaped_outcome.
  replace (length _ <? 5)%nat with false.
  2:{ symmetry. apply Nat.ltb_ge. simpl. rewrite length_app. simpl. lia. }
  cbn [nth drop]. rewrite drop_0.
  rewrite (scan_parts_shape [] areas frag d ts st beyond Ha Hf).
  cbn [mbind result_bind fips_codes duration timestamp station_id truthy default app].
  destruct (Py.is_empty (Py.strip orig)); [reflexivity|].
  destruct (Py.is_empty (Py.strip ev)); [reflexivity|].
  destruct (Py.is_empty d); [reflexivity|].
  destruct (Py.is_empty (Py.strip ts)); [reflexivity|].
  destruct (Py.is_empty (Py.strip st)); [reflexivity|].
  cbn [negb andb orb].
  destruct (bool_decide (collected_codes areas frag = [])); [reflexivity|].
  rewrite !negb_andb. reflexivity.
Qed.

(** ** C5: the tokens after the duration *)

(** C5, as stated, fails: the only area code of this header carries the
    separator and no token follows it, yet the error is the one for too
    few tokens, raised before the scan. *)
Lemma short_header_too_few_parts :
  header_parts short_header = ["EAS"; "RWT"; "012057+0030"] /\
  parse_same_message short_header = Raise (TooFewParts 3 ["EAS"; "RWT"; "012057+0030"]) /\
  parse_same_message short_header <> Raise IncompleteAfterDuration.
Proof.
  assert (H : parse_same_message short_header
              = Raise (TooFewParts 3 ["EAS"; "RWT"; "012057+0030"]))
    by (vm_compute; reflexivity).
  split; [vm_compute; reflexivity|]. split; [exact H|]. rewrite H. discriminate.
Qed.

(** C5, amended. Take a header that passes the format validation, has at
    least five tokens and non-empty originator and event code, and let
    [tok] be the first token from the third on that contains '+'. If fewer
    than two tokens follow it, parsing fails with the incomplete-message
    error, a grammar violation. If two tokens follow it, the tokens beyond
    them do not change the outcome, and a successful parse has the first,
    trimmed, as issue timestamp and the second, trimmed, as station. *)
Theorem after_duration (msg m orig ev : string) (areas : list string)
    (tok : string) (following : list string) :
  validate_same_message_format msg = Ok m ->
  header_parts m = (orig :: ev :: areas ++ tok :: following)%list ->
  (5 <= length (header_parts m))%nat ->
  Py.strip orig <> "" -> Py.strip ev <> "" ->
  Forall no_plus areas -> Py.contains_char "+" tok = true ->
  match following with
  | ts :: st :: beyond =>
      parse_same_message msg = parse_parts (orig :: ev :: areas ++ [tok; ts; st])%list /\
      forall p, parse_same_message msg = Ok p ->
                Parsed.timestamp p = Py.strip ts /\ Parsed.station_id p = Py.strip st
  | _ =>
      parse_same_message msg = Raise IncompleteAfterDuration /\
      kind_of IncompleteAfterDuration = GrammarViolation
  end.
Proof.
  intros Hv Hparts Hlen Ho He Ha Ht.
  assert (Hparse : parse_same_message msg = parse_parts (header_parts m)).
  { unfold parse_same_message. rewrite Hv. reflexivity. }
  assert (Hshort : (length following < 2)%nat ->
                   parse_parts (header_parts m) = Raise IncompleteAfterDuration).
  { intros Hf. unfold parse_parts.
    apply Nat.ltb_ge in Hlen. rewrite Hlen, Hparts. cbn [nth drop]. rewrite drop_0.
    apply is_empty_false in Ho, He. rewrite Ho, He. cbn [orb].
    rewrite (scan_parts_incomplete [] areas tok following Ha Ht Hf). reflexivity. }
  destruct following as [|ts [|st beyond]].
  - rewrite Hparse, Hshort by (simpl; lia). split; reflexivity.
  - rewrite Hparse, Hshort by (simpl; lia). split; reflexivity.
  - destruct (split1_two _ _ Ht) as (frag & d & -> & Hfrag).
    rewrite Hparse, Hparts, !parse_parts_shape by assumption.
    split; [reflexivity|].
    intros p. unfold shaped_outcome.
    repeat (match goal with |- context [if ?b then _ else _] => destruct b end;
            try discriminate).
    intros [= <-]. split; reflexivity.
Qed.

Lemma after_duration_witness :
  parse_same_message cut_header = Raise IncompleteAfterDuration /\
  kind_of IncompleteAfterDuration = GrammarViolation.
Proof.
  refine (after_duration cut_header "ZCZC-EAS-RWT-012057-012081-012101+0030-"
            "EAS" "RWT" ["012057"; "012081"] "012101+0030" [] _ _ _ _ _ _ _).
  - vm_compute. reflexivity.
  - vm_compute. reflexivity.
  - vm_compute. lia.
  - vm_compute. discriminate.
  - vm_compute. discriminate.
  - repeat constructor.
  - vm_compute. reflexivity.
Defined.

(** ** C1: the formats of duration and timestamp *)

(** A timestamp out of range is not an error of the enrichment: the
    exception is caught where it is raised and the fallback text is
    returned. *)
Lemma out_of_range_invalid (env : environment) (ts : string) :
  out_of_range ts = true -> format_julian_timestamp env ts = InvalidText ts.
Proof.
  unfold out_of_range, format_julian_timestamp, julian_instant, int_of.
  destruct (_ || _ || _); [reflexivity|].
  destruct (Py.int (Py.slice_to 3 ts)) as [jjj|]; [|discriminate].
  destruct (Py.int (Py.slice 3 5 ts)) as [hh|]; [|discriminate].
  destruct (Py.int (Py.slice_from 5 ts)) as [mm|]; [|discriminate].
  cbn [mbind result_bind].
  destruct (negb ((1 <=? jjj) && (jjj <=? 366))); [reflexivity|].
  destruct (negb ((0 <=? hh) && (hh <=? 23))); [reflexivity|].
  destruct (negb ((0 <=? mm) && (mm <=? 59))); [reflexivity|discriminate].
Qed.

Example out_of_range_examples :
  out_of_range "0000415" = true /\ out_of_range "3670415" = true /\
  out_of_range "2782415" = true /\ out_of_range "2780460" = true /\
  out_of_range "2780415" = false.
Proof. vm_compute. repeat split. Qed.

(** C1, as stated, fails: the timestamp of this header has seven digits
    and day 0; the header is parsed, the alert is stored as a new row and
    published, with the fallback text as its issue time. *)
Lemma day_zero_stored :
  let r := decode_same_message bare_environment day_zero_header ready_world in
  Parsed.timestamp <$> (match parse_same_message day_zero_header with
                        | Ok p => Some p | Raise _ => None end) = Some "0000415" /\
  out_of_range "0000415" = true /\
  r.1 = Ok tt /\
  alerts_rows (db ready_world) = [] /\
  DbRow.timestamp_utc <$> alerts_rows (db r.2) = [InvalidText "0000415"] /\
  last_message ready_world = None /\
  Snapshot.issued_local <$> last_message r.2 = Some (InvalidText "0000415").
Proof. vm_compute. repeat split. Qed.

(** The same for day 367, hour 24 and minute 60. *)
Example out_of_range_stored :
  Forall (fun header =>
            let r := decode_same_message bare_environment header ready_world in
            r.1 = Ok tt /\ length (alerts_rows (db r.2)) = 1%nat /\
            is_Some (last_message r.2))
         [day_367_header; hour_24_header; minute_60_header].
Proof. repeat constructor; vm_compute; eauto. Qed.

(** C1, amended. Take a header that passes the format validation and
    whose tokens are an originator, an event code, area codes, the token
    [frag+d], then [ts] and [st], all required fields being non-empty.
    - If [d] is not exactly four digits, decoding fails with the
      invalid-duration error, which names the duration; the store and the
      snapshot are as before.
    - Otherwise, if [ts] trimmed is not exactly seven digits, decoding
      fails with the invalid-timestamp error, which names the timestamp;
      the store and the snapshot are as before.
    - Otherwise the header is parsed, and the ranges of day, hour and
      minute are not a reason to fail: when the enrichment, the INSERT and
      the write of the snapshot succeed, the alert is stored and
      published, and a timestamp out of range gives it the fallback text
      as issue time and no end time. *)
Theorem field_formats (env : environment) (msg m orig ev : string)
    (areas : list string) (frag d ts st : string) (beyond : list string) (w : world) :
  validate_same_message_format msg = Ok m ->
  header_parts m =
    (orig :: ev :: areas ++ (frag ++ String "+" d)%string :: ts :: st :: beyond)%list ->
  Forall no_plus areas -> no_plus frag ->
  Py.strip orig <> "" -> Py.strip ev <> "" ->
  d <> "" -> Py.strip ts <> "" -> Py.strip st <> "" ->
  collected_codes areas frag <> [] ->
  if negb (Py.isdigit d && (Py.len d =? 4)%nat) then
    decode_same_message env msg w =
      (Raise (InvalidDurationFormat d),
       add_log (LogFailedToDecode msg (InvalidDurationFormat d)) w) /\
    kind_of (InvalidDurationFormat d) = FieldFormatInvalid /\
    field_named (InvalidDurationFormat d) = Some "duration"
  else if negb (Py.isdigit (Py.strip ts) && (Py.len (Py.strip ts) =? 7)%nat) then
    decode_same_message env msg w =
      (Raise (InvalidTimestampFormat (Py.strip ts)),
       add_log (LogFailedToDecode msg (InvalidTimestampFormat (Py.strip ts))) w) /\
    kind_of (InvalidTimestampFormat (Py.strip ts)) = FieldFormatInvalid /\
    field_named (InvalidTimestampFormat (Py.strip ts)) = Some "timestamp"
  else
    let parsed :=
      {| Parsed.originator := Py.strip orig; Parsed.event_code := Py.strip ev;
         Parsed.fips_codes := collected_codes areas frag; Parsed.duration := d;
         Parsed.timestamp := Py.strip ts; Parsed.station_id := Py.strip st |} in
    parse_same_message msg = Ok parsed /\
    forall alert store,
      create_alert_data env parsed msg = Ok alert ->
      insert_alert (alert_row alert) (db w) = Ok store ->
      snapshot_writable w = true ->
      decode_same_message env msg w = (Ok tt, decoded_world env alert store w) /\
      (out_of_range (Py.strip ts) = true ->
       Alert.timestamp_utc alert = InvalidText (Py.strip ts) /\
       Alert.end_time alert = None).
Proof.
  intros Hv Hparts Ha Hf Ho He Hd Hts Hst Hc.
  assert (Hparse : parse_same_message msg = shaped_outcome orig ev areas frag d ts st).
  { unfold parse_same_message. rewrite Hv. cbn [mbind result_bind].
    rewrite Hparts. apply parse_parts_shape; assumption. }
  unfold shaped_outcome in Hparse.
  apply is_empty_false in Ho, He, Hd, Hts, Hst.
  rewrite Ho, He, Hd, Hts, Hst in Hparse. cbn [orb] in Hparse.
  rewrite bool_decide_eq_false_2 in Hparse by exact Hc.
  destruct (negb (Py.isdigit d && (Py.len d =? 4)%nat)).
  { split; [|split; reflexivity]. apply decode_parse_error, Hparse. }
  destruct (negb (Py.isdigit (Py.strip ts) && (Py.len (Py.strip ts) =? 7)%nat)).
  { split; [|split; reflexivity]. apply decode_parse_error, Hparse. }
  cbv zeta. split; [exact Hparse|].
  intros alert store Halert Hins Hw. split.
  - eapply decode_success; eassumption.
  - intros Hr. unfold create_alert_data in Halert.
    cbn [Parsed.duration Parsed.timestamp] in Halert.
    destruct (int_of d) as [n|]; [|discriminate].
    cbn [mbind result_bind] in Halert.
    rewrite (out_of_range_invalid env _ Hr) in Halert.
    injection Halert as <-. split; reflexivity.
Qed.

Lemma field_formats_witness :
  decode_same_message bare_environment short_duration_header ready_world =
    (Raise (InvalidDurationFormat "030"),
     add_log (LogFailedToDecode short_duration_header (InvalidDurationFormat "030"))
       ready_world) /\
  kind_of (InvalidDurationFormat "030") = FieldFormatInvalid /\
  field_named (InvalidDurationFormat "030") = Some "duration".
Proof.
  refine (field_formats bare_environment short_duration_header short_duration_header
            "EAS" "RWT" [] "012057" "030" "2780415" "WTSP/TV" [] ready_world
            _ _ _ _ _ _ _ _ _ _).
  - vm_compute. reflexivity.
  - vm_compute. reflexivity.
  - constructor.
  - vm_compute. reflexivity.
  - vm_compute. discriminate.
  - vm_compute. discriminate.
  - discriminate.
  - vm_compute. discriminate.
  - vm_compute. discriminate.
  - vm_compute. discriminate.
Defined.

(** ** C2: the duration in minutes *)

(** A parsed message has a duration of four digits and a timestamp of
    seven. *)
Lemma parse_ok_formats (msg : string) (p : Parsed.t) :
  parse_same_message msg = Ok p ->
  Py.isdigit (Parsed.duration p) = true /\ Py.len (Parsed.duration p) = 4%nat /\
  Py.isdigit (Parsed.timestamp p) = true /\ Py.len (Parsed.timestamp p) = 7%nat.
Proof.
  unfold parse_same_message.
  destruct (validate_same_message_format msg) as [m|]; [|discriminate].
  cbn [mbind result_bind]. unfold parse_parts.
  destruct (length _ <? 5)%nat; [discriminate|].
  destruct (_ || _); [discriminate|].
  destruct (scan_parts _ _) as [st|]; [|discriminate].
  cbn [mbind result_bind].
  destruct (negb _); [discriminate|].
  destruct (bool_decide _); [discriminate|].
  destruct (Py.isdigit (default "" (duration st))) eqn:Hd; [|discriminate].
  destruct (Py.len (default "" (duration st)) =? 4)%nat eqn:Hdl; [|discriminate].
  destruct (Py.isdigit (default "" (timestamp st))) eqn:Ht; [|discriminate].
  destruct (Py.len (default "" (timestamp st)) =? 7)%nat eqn:Htl; [|discriminate].
  cbn [negb orb]. intros [= <-]. cbn [Parsed.duration Parsed.timestamp].
  apply Nat.eqb_eq in Hdl, Htl. auto.
Qed.

(** What a digit is not. *)
Lemma digit_char_facts (c : ascii) :
  Py.isdigit_char c = true ->
  Py.isspace c = false /\ Ascii.eqb c "+" = false /\ Ascii.eqb c "-" = false /\
  Ascii.eqb c "_" = false.
Proof.
  destruct c as [[] [] [] [] [] [] [] []]; vm_compute; intros H;
    solve [discriminate H | repeat split].
Qed.

(** [int] on four digits: it succeeds only on decimal digits, and its
    value is a hundred times the value of the first two plus the value of
    the last two. *)
Lemma int_four_digits (a b c e : ascii) (n : Z) :
  Py.isdigit (String a (String b (String c (String e "")))) = true ->
  Py.int (String a (String b (String c (String e "")))) = Some n ->
  exists hh mm,
    Py.int (String a (String b "")) = Some hh /\
    Py.int (String c (String e "")) = Some mm /\
    n = 100 * hh + mm.
Proof.
  unfold Py.isdigit. cbn [Py.is_empty negb andb Py.all_chars].
  intros H. apply andb_prop in H as [Ha H]. apply andb_prop in H as [Hb H].
  apply andb_prop in H as [Hc H]. apply andb_prop in H as [He _].
  destruct (digit_char_facts a Ha) as (Sa & Pa & Ma & Ua).
  destruct (digit_char_facts b Hb) as (Sb & Pb & Mb & Ub).
  destruct (digit_char_facts c Hc) as (Sc & Pc & Mc & Uc).
  destruct (digit_char_facts e He) as (Se & Pe & Me & Ue).
  unfold Py.int, Py.strip.
  cbn [Py.lstrip_by Py.rstrip_by]. rewrite ?Sa, ?Sb, ?Sc, ?Se.
  cbn [Py.lstrip_by Py.rstrip_by Py.is_empty andb]. rewrite ?Sa, ?Sb, ?Sc, ?Se.
  cbn [Py.lstrip_by Py.rstrip_by Py.is_empty andb].
  rewrite ?Pa, ?Ma, ?Pc, ?Mc.
  unfold Py.int_unsigned. cbn [Py.int_digits].
  rewrite ?Ua, ?Ub, ?Uc, ?Ue. cbn [andb].
  destruct (Py.isdecimal_char a); [|discriminate].
  destruct (Py.isdecimal_char b); [|discriminate].
  destruct (Py.isdecimal_char c); [|discriminate].
  destruct (Py.isdecimal_char e); [|discriminate].
  intros [= <-]. eexists _, _. split; [reflexivity|]. split; [reflexivity|]. lia.
Qed.

Lemma len_four (s : string) :
  Py.len s = 4%nat -> exists a b c e, s = String a (String b (String c (String e ""))).
Proof.
  destruct s as [|a [|b [|c [|e [|]]]]]; try discriminate. eauto.
Qed.

(** C2, the code in general. For every message that is parsed and
    enriched, the duration in minutes of the alert is the decimal value
    of the four digits, that is 100 times the first two digits plus the
    last two, not 60 times; the end time is the issue instant plus that
    many minutes. *)
Theorem duration_minutes_is_decimal (env : environment) (msg : string)
    (p : Parsed.t) (alert : Alert.t) :
  parse_same_message msg = Ok p ->
  create_alert_data env p msg = Ok alert ->
  exists hh mm,
    Py.int (Py.slice_to 2 (Parsed.duration p)) = Some hh /\
    Py.int (Py.slice_from 2 (Parsed.duration p)) = Some mm /\
    Alert.duration_minutes alert = 100 * hh + mm /\
    Alert.end_time alert =
      match Alert.timestamp_utc alert with
      | UTCText issued => Some (issued + (100 * hh + mm))
      | _ => None
      end.
Proof.
  intros Hp Ha. destruct (parse_ok_formats msg p Hp) as (Hd & Hl & _).
  destruct (len_four _ Hl) as (a & b & c & e & Hs).
  unfold create_alert_data, int_of in Ha.
  destruct (Py.int (Parsed.duration p)) as [n|] eqn:Hn; [|discriminate].
  cbn [mbind result_bind] in Ha. injection Ha as <-.
  cbn [Alert.duration_minutes Alert.end_time Alert.timestamp_utc].
  rewrite Hs in Hd, Hn |- *.
  destruct (int_four_digits a b c e n Hd Hn) as (hh & mm & Hh & Hm & ->).
  exists hh, mm. cbn [Py.slice_to Py.slice_from].
  split; [exact Hh|]. split; [exact Hm|]. split; [reflexivity|].
  destruct (format_julian_timestamp env (Parsed.timestamp p)); reflexivity.
Qed.

Lemma duration_minutes_is_decimal_witness :
  exists hh mm,
    Py.int "01" = Some hh /\ Py.int "30" = Some mm /\
    Alert.duration_minutes ninety_minute_alert = 100 * hh + mm /\
    Alert.end_time ninety_minute_alert = Some (399135 + (100 * hh + mm)).
Proof.
  refine (duration_minutes_is_decimal bare_environment ninety_minute_header
            ninety_minute_parsed ninety_minute_alert _ _).
  - vm_compute. reflexivity.
  - vm_compute. reflexivity.
Defined.

(** The header for 1 hour 30 minutes is enriched to 130 minutes, where
    hours times 60 plus minutes is 90, and its end time is 130 minutes
    after the issue instant. *)
Example ninety_minutes_decoded_as_130 :
  create_alert_data bare_environment ninety_minute_parsed ninety_minute_header
    = Ok ninety_minute_alert /\
  parse_same_message ninety_minute_header = Ok ninety_minute_parsed /\
  Alert.duration_minutes ninety_minute_alert = 130 /\
  Alert.duration_minutes ninety_minute_alert <> 1 * 60 + 30 /\
  Alert.end_time ninety_minute_alert = Some (399135 + 130).
Proof. vm_compute. repeat split. discriminate. Qed.

(** ** C9: a failed message and the rest of the stream *)

(** The guarded decoding never raises. *)
Lemma decode_guarded_ok (env : environment) (buffer : string) (w : world) :
  (decode_guarded env buffer w).1 = Ok tt.
Proof.
  unfold decode_guarded, try_except, logger.
  destruct (decode_same_message env buffer w) as [[[]|e] w']; reflexivity.
Qed.

(** After a failure the guarded decoding leaves the world of the failure,
    with one more line in the log. *)
Lemma decode_guarded_failure (env : environment) (buffer : string) (w w' : world) (e : exn) :
  decode_same_message env buffer w = (Raise e, w') ->
  decode_guarded env buffer w = (Ok tt, add_log (LogErrorDecoding buffer e) w').
Proof. intros H. unfold decode_guarded, try_except, logger. rewrite H. reflexivity. Qed.

(** A complete header line: the buffer is decoded and emptied, whatever
    the decoding did. *)
Lemma stream_step_complete (env : environment) (buffer line : string) (w : world) :
  is_header_line line = true -> is_terminated line = true ->
  stream_step env buffer line w =
  (Ok "", (decode_guarded env (buffer ++ Py.strip line) w).2).
Proof.
  unfold is_header_line, is_terminated, stream_step. intros -> ->.
  cbn [negb]. unfold mbind, action_bind, mret, action_ret.
  pose proof (decode_guarded_ok env (buffer ++ Py.strip line) w) as H.
  destruct (decode_guarded env (buffer ++ Py.strip line) w) as [r w'].
  cbn [fst] in H. subst r. reflexivity.
Qed.

(** No iteration raises, so the loop runs to the end of its input. *)
Lemma stream_step_total (env : environment) (buffer line : string) (w : world) :
  exists buffer', (stream_step env buffer line w).1 = Ok buffer'.
Proof.
  unfold stream_step.
  destruct (negb _); [eexists; reflexivity|].
  destruct (Py.endswith_char _ _); [|eexists; reflexivity].
  unfold mbind, action_bind, mret, action_ret.
  pose proof (decode_guarded_ok env (buffer ++ Py.strip line) w) as H.
  destruct (decode_guarded env _ w) as [r w']. cbn [fst] in H. subst r.
  eexists; reflexivity.
Qed.

Lemma stream_loop_total (env : environment) (lines : list string) :
  forall (buffer : string) (w : world),
    exists buffer', (stream_loop env buffer lines w).1 = Ok buffer'.
Proof.
  induction lines as [|line rest IH]; intros buffer w.
  - eexists; reflexivity.
  - cbn [stream_loop]. unfold mbind, action_bind.
    destruct (stream_step_total env buffer line w) as [b Hb].
    destruct (stream_step env buffer line w) as [r w']. cbn [fst] in Hb. subst r.
    apply IH.
Qed.

(** From an empty buffer, lines that are all well framed are processed
    header by header, each on its own text. *)
Lemma stream_loop_well_framed (env : environment) (lines : list string) :
  Forall well_framed lines ->
  forall w, stream_loop env "" lines w = (Ok "", process_all env (headers_of lines) w).
Proof.
  induction 1 as [|line rest Hline _ IH]; intros w; [reflexivity|].
  cbn [stream_loop]. unfold mbind, action_bind, headers_of.
  rewrite fmap_cons.
  destruct (is_header_line line) eqn:Hh.
  - rewrite (stream_step_complete env "" line w Hh (Hline Hh)).
    rewrite filter_cons_True by exact Hh. apply IH.
  - rewrite (stream_step_skips env "" line w Hh).
    rewrite filter_cons_False by (unfold is_header_line in Hh; congruence).
    apply IH.
Qed.

(** C9. A complete header line whose decoding raises, at any stage, does
    not stop the loop: the exception is logged, the buffer is empty for
    the next line and the loop goes on with the rest of the input as from
    a fresh start; the loop as a whole ends without raising; and when the
    lines that follow are noise or complete headers, every header among
    them is decoded in turn on its own text. *)
Theorem failure_isolated (env : environment) (buffer line : string)
    (rest : list string) (w w' : world) (e : exn) :
  is_header_line line = true -> is_terminated line = true ->
  decode_same_message env (buffer ++ Py.strip line) w = (Raise e, w') ->
  let logged := add_log (LogErrorDecoding (buffer ++ Py.strip line) e) w' in
  stream_loop env buffer (line :: rest) w = stream_loop env "" rest logged /\
  (exists buffer', (stream_loop env buffer (line :: rest) w).1 = Ok buffer') /\
  (Forall well_framed rest ->
   stream_loop env buffer (line :: rest) w
   = (Ok "", process_all env (headers_of rest) logged)).
Proof.
  intros Hh Ht He logged.
  assert (Hstep : stream_loop env buffer (line :: rest) w = stream_loop env "" rest logged).
  { cbn [stream_loop]. unfold mbind, action_bind.
    rewrite (stream_step_complete env buffer line w Hh Ht).
    rewrite (decode_guarded_failure env _ w w' e He). reflexivity. }
  split; [exact Hstep|]. split.
  - apply stream_loop_total.
  - intros Hrest. rewrite Hstep. apply stream_loop_well_framed, Hrest.
Qed.

Lemma failure_isolated_witness :
  let failed :=
    add_log (LogErrorDecoding short_duration_header (InvalidDurationFormat "030"))
      (add_log (LogFailedToDecode short_duration_header (InvalidDurationFormat "030"))
         ready_world) in
  stream_loop bare_environment ""
    [short_duration_header; "WARNING: noise"; TEST_MESSAGE] ready_world
  = (Ok "", process_all bare_environment [TEST_MESSAGE] failed).
Proof.
  refine (proj2 (proj2 (failure_isolated bare_environment "" short_duration_header
                          ["WARNING: noise"; TEST_MESSAGE] ready_world _ _ _ _ _)) _).
  - vm_compute. reflexivity.
  - vm_compute. reflexivity.
  - apply decode_parse_error. vm_compute. reflexivity.
  - repeat constructor; intros H; vm_compute in H; try discriminate H; vm_compute; reflexivity.
Defined.

(** In that run the header after the failed one is stored and published. *)
Example later_header_stored :
  let w := (stream_loop bare_environment ""
              [short_duration_header; "WARNING: noise"; TEST_MESSAGE] ready_world).2 in
  DbRow.raw_message <$> alerts_rows (db w) = [TEST_MESSAGE] /\
  Snapshot.source <$> last_message w = Some "WTSP/TV".
Proof. vm_compute. split; reflexivity. Qed.

(** A failure of the INSERT (the table is missing) and a failure of the
    snapshot write are isolated in the same way; after the second, the
    rows are stored and nothing is published. *)
Example persist_and_publish_failures :
  let r1 := stream_loop bare_environment "" [TEST_MESSAGE; TEST_MESSAGE] fresh_world in
  let r2 := stream_loop bare_environment "" [TEST_MESSAGE; TEST_MESSAGE] unwritable_world in
  r1.1 = Ok "" /\ alerts_rows (db r1.2) = [] /\ last_message r1.2 = None /\
  r2.1 = Ok "" /\ length (alerts_rows (db r2.2)) = 2%nat /\ last_message r2.2 = None.
Proof. vm_compute. repeat split. Qed.

(** ** Running actions *)

Lemma bind_run {A B : Type} (m : action A) (k : A -> action B) (w w' : world) (a : A) :
  m w = (Ok a, w') -> (m ≫= k) w = k a w'.
Proof. intros H. unfold mbind, action_bind. rewrite H. reflexivity. Qed.

Lemma bind_raise {A B : Type} (m : action A) (k : A -> action B) (w w' : world) (e : exn) :
  m w = (Raise e, w') -> (m ≫= k) w = (Raise e, w').
Proof. intros H. unfold mbind, action_bind. rewrite H. reflexivity. Qed.

Lemma try_except_ok {A : Type} (m : action A) (h : exn -> action A) (w w' : world) (a : A) :
  m w = (Ok a, w') -> try_except m h w = (Ok a, w').
Proof. intros H. unfold try_except. rewrite H. reflexivity. Qed.

Lemma get_schema_version_run (w : world) :
  Migrations.get_schema_version w = (Ok (stored_version (db w)), w).
Proof. reflexivity. Qed.

Lemma set_schema_version_run (version : Z) (w : world) :
  in_int64 version = true ->
  Migrations.set_schema_version version w =
  (Ok tt, set_db (with_version_rows
                    (Some (default [] (version_rows (db w)) ++ [version])%list) (db w)) w).
Proof.
  intros Hv.
  unfold Migrations.set_schema_version, Migrations.get_db_connection, try_except,
    execute, create_schema_version_if_not_exists, insert_schema_version.
  unfold_action. cbn [db set_db with_version_rows version_rows]. rewrite Hv. reflexivity.
Qed.

Lemma set_schema_version_overflow (version : Z) (w : world) :
  in_int64 version = false ->
  Migrations.set_schema_version version w =
  (Raise OverflowError,
   add_log (LogDatabaseError OverflowError)
     (set_db (with_version_rows (Some (default [] (version_rows (db w)))) (db w)) w)).
Proof.
  intros Hv.
  unfold Migrations.set_schema_version, Migrations.get_db_connection, try_except,
    execute, create_schema_version_if_not_exists, insert_schema_version.
  unfold_action. cbn [db set_db with_version_rows version_rows]. rewrite Hv. reflexivity.
Qed.

(** ** Actions that keep the version table *)

Lemma keeps_ret {A : Type} (a : A) : keeps_versions (mret a : action A).
Proof. intros w. reflexivity. Qed.

Lemma keeps_raise {A : Type} (e : exn) : keeps_versions (raise e : action A).
Proof. intros w. reflexivity. Qed.

Lemma keeps_logger (r : log_record) : keeps_versions (logger r).
Proof. intros w. reflexivity. Qed.

Lemma keeps_bind {A B : Type} (m : action A) (k : A -> action B) :
  keeps_versions m -> (forall a, keeps_versions (k a)) -> keeps_versions (m ≫= k).
Proof.
  intros Hm Hk w. unfold mbind, action_bind. specialize (Hm w).
  destruct (m w) as [[a|e] w1]; cbn [snd] in *; [|exact Hm].
  rewrite (Hk a w1). exact Hm.
Qed.

Lemma keeps_try_except {A : Type} (m : action A) (h : exn -> action A) :
  keeps_versions m -> (forall e, keeps_versions (h e)) -> keeps_versions (try_except m h).
Proof.
  intros Hm Hh w. unfold try_except. specialize (Hm w).
  destruct (m w) as [[a|e] w1]; cbn [snd] in *; [exact Hm|].
  rewrite (Hh e w1). exact Hm.
Qed.

Lemma keeps_connection {A : Type} (body : action A) :
  keeps_versions body -> keeps_versions (Migrations.get_db_connection body).
Proof.
  intros H. apply keeps_try_except; [exact H|].
  intros e. apply keeps_bind; [apply keeps_logger|]. intros _. apply keeps_raise.
Qed.

Lemma keeps_execute (stmt : database -> result database) :
  (forall d d', stmt d = Ok d' -> version_rows d' = version_rows d) ->
  keeps_versions (execute stmt).
Proof.
  intros H w. unfold execute. destruct (stmt (db w)) as [d'|e] eqn:Hs; [|reflexivity].
  exact (H _ _ Hs).
Qed.

Lemma create_alerts_versions (d d' : database) :
  create_alerts_if_not_exists d = Ok d' -> version_rows d' = version_rows d.
Proof.
  unfold create_alerts_if_not_exists.
  destruct (alerts_columns d); intros [= <-]; reflexivity.
Qed.

Lemma alter_versions (name : string) (c : bool) (d d' : database) :
  alter_add_column name c d = Ok d' -> version_rows d' = version_rows d.
Proof.
  unfold alter_add_column. destruct (alerts_columns d); [|discriminate].
  destruct (has_column _ _); [discriminate|].
  destruct (_ && _); [discriminate|]. intros [= <-]. reflexivity.
Qed.

Lemma create_index_versions (name column : string) (d d' : database) :
  create_index_if_not_exists name column d = Ok d' -> version_rows d' = version_rows d.
Proof.
  unfold create_index_if_not_exists. destruct (alerts_columns d); [|discriminate].
  destruct (indexes d !! name); [intros [= <-]; reflexivity|].
  destruct (has_column _ _); [|discriminate]. intros [= <-]. reflexivity.
Qed.

Lemma keeps_v0_to_v1 : keeps_versions Migrations.migration_v0_to_v1.
Proof.
  apply keeps_bind; [apply keeps_logger|]. intros _.
  apply keeps_connection, keeps_execute, create_alerts_versions.
Qed.

Lemma keeps_v1_to_v2 : keeps_versions Migrations.migration_v1_to_v2.
Proof.
  apply keeps_bind; [apply keeps_logger|]. intros _.
  apply keeps_connection.
  apply keeps_bind; [intros w; reflexivity|]. intros d.
  repeat (apply keeps_bind; [|intros _]);
    try (apply keeps_execute, create_index_versions);
    try apply keeps_logger.
  - destruct (bool_decide _); [|apply keeps_ret].
    apply keeps_bind; [apply keeps_execute, alter_versions|].
    intros _. apply keeps_logger.
  - destruct (bool_decide _); [|apply keeps_ret].
    apply keeps_bind; [apply keeps_execute, alter_versions|].
    intros _. apply keeps_logger.
Qed.

Lemma keeps_validate_schema : keeps_versions Migrations.validate_schema.
Proof.
  apply keeps_connection.
  apply keeps_bind; [intros w; reflexivity|]. intros d. cbv zeta.
  destruct (bool_decide _).
  - apply keeps_bind; [apply keeps_logger|]. intros _. apply keeps_ret.
  - apply keeps_bind; [|intros _].
    + destruct (bool_decide _); [apply keeps_logger|apply keeps_ret].
    + apply keeps_bind; [apply keeps_logger|]. intros _. apply keeps_ret.
Qed.

Lemma versions_after_bind {A B : Type} (m : action A) (k : A -> action B) :
  (forall a, keeps_versions (k a)) ->
  forall w, version_rows (db ((m ≫= k) w).2) = version_rows (db (m w).2).
Proof.
  intros Hk w. unfold mbind, action_bind.
  destruct (m w) as [[a|e] w1]; cbn [snd]; [apply Hk|reflexivity].
Qed.

Lemma versions_after_try {A : Type} (m : action A) (h : exn -> action A) :
  (forall e, keeps_versions (h e)) ->
  forall w, version_rows (db (try_except m h w).2) = version_rows (db (m w).2).
Proof.
  intros Hh w. unfold try_except.
  destruct (m w) as [[a|e] w1]; cbn [snd]; [reflexivity|apply Hh].
Qed.

(** ** C7: the version only moves forward *)

Lemma extend_rows_cons (rows : option (list Z)) (v : Z) (written : list Z) :
  extend_rows (Some (default [] rows ++ [v])%list) written = extend_rows rows (v :: written).
Proof.
  destruct written as [|x written]; [reflexivity|].
  unfold extend_rows. f_equal. change (default [] (Some ?l)) with l.
  rewrite <- app_assoc. reflexivity.
Qed.

Lemma stored_version_extend (d d' : database) (written : list Z) :
  version_rows d' = extend_rows (version_rows d) written ->
  stored_version d' = List.last written (stored_version d).
Proof.
  unfold stored_version. intros ->.
  destruct written as [|x written]; [reflexivity|].
  cbn [extend_rows]. generalize (default [] (version_rows d)). intros rows.
  generalize (default 0 (last rows)). intros z.
  revert x rows. induction written as [|y written IH]; intros x rows.
  - rewrite last_snoc. reflexivity.
  - change (rows ++ x :: y :: written)%list with (rows ++ [x] ++ y :: written)%list.
    rewrite app_assoc, IH. reflexivity.
Qed.

Lemma last_default_indep (z : Z) (l : list Z) (x y : Z) :
  List.last (z :: l) x = List.last (z :: l) y.
Proof.
  revert z. induction l as [|t l IH]; intros z; [reflexivity|].
  change (List.last (t :: l) x = List.last (t :: l) y). apply IH.
Qed.

Lemma strictly_increasing_last (x : Z) (l : list Z) :
  strictly_increasing (x :: l) -> x <= List.last l x.
Proof.
  revert x. induction l as [|y l IH]; intros x H; [cbn; lia|].
  destruct H as [Hxy Hl]. specialize (IH y Hl).
  destruct l as [|z l]; [cbn; lia|].
  change (x <= List.last (z :: l) x).
  rewrite (last_default_indep z l x y). lia.
Qed.

(** The loop over the migrations: what it appends to the version table
    is an increasing run that starts above the version it was entered
    with. *)
Lemma run_steps_versions (steps : list (Z * Z * action unit)) :
  Forall (fun s => s.1.1 < s.1.2 /\ in_int64 s.1.2 = true /\ keeps_versions s.2) steps ->
  forall (current_version : Z) (w : world),
  exists written,
    version_rows (db (Migrations.run_steps current_version steps w).2)
      = extend_rows (version_rows (db w)) written /\
    strictly_increasing (current_version :: written).
Proof.
  induction 1 as [|[[from_version to_version] migration_func] steps (Hlt & Hfit & Hk) _ IH];
    intros current_version w.
  - exists []. split; [reflexivity|exact I].
  - cbn [fst snd] in Hlt, Hfit, Hk. cbn [Migrations.run_steps].
    destruct (current_version =? from_version) eqn:Heq; [|apply IH].
    apply Z.eqb_eq in Heq. subst from_version.
    unfold mbind at 1. unfold action_bind at 1.
    pose proof (Hk w) as Hkw.
    destruct (migration_func w) as [[[]|e] w1]; cbn [snd] in Hkw.
    2:{ exists []. split; [exact Hkw|exact I]. }
    unfold mbind at 1. unfold action_bind at 1.
    rewrite (set_schema_version_run _ _ Hfit).
    unfold mbind at 1. unfold action_bind at 1. cbn [logger].
    destruct (IH to_version
                (add_log (LogMigratedTo to_version)
                   (set_db (with_version_rows
                              (Some (default [] (version_rows (db w1)) ++ [to_version])%list)
                              (db w1)) w1)))
      as (written & Hrows & Hinc).
    exists (to_version :: written). split.
    + rewrite Hrows. cbn [add_log set_db db with_version_rows version_rows].
      rewrite Hkw. apply extend_rows_cons.
    + split; [exact Hlt|exact Hinc].
Qed.

Lemma migrations_keep_versions :
  Forall (fun s : Z * Z * action unit =>
            s.1.1 < s.1.2 /\ in_int64 s.1.2 = true /\ keeps_versions s.2)
         Migrations.migrations.
Proof.
  repeat constructor; cbn [fst snd]; try lia; [apply keeps_v0_to_v1|apply keeps_v1_to_v2].
Qed.

(** C7. Whatever the store, the rows that [run_migrations] appends to the
    version table form a strictly increasing run above the version that
    was current at the start, so each record is greater than the version
    current when it was written and the stored version does not move
    backward. When the stored version exceeds the supported version 2,
    nothing is migrated: the answer is False, the newer version is
    reported, and the store and its backup are as before. *)
Theorem version_moves_forward (w : world) :
  let current := stored_version (db w) in
  let r := Migrations.run_migrations w in
  (exists written,
     version_rows (db r.2) = extend_rows (version_rows (db w)) written /\
     strictly_increasing (current :: written) /\
     current <= stored_version (db r.2)) /\
  (CURRENT_SCHEMA_VERSION < current ->
   r = (Ok false,
        add_log (LogVersionNewer current CURRENT_SCHEMA_VERSION)
          (add_log (LogTargetSchemaVersion CURRENT_SCHEMA_VERSION)
             (add_log (LogCurrentSchemaVersion current) w)))).
Proof.
  intros current r.
  assert (Hrun : exists written,
             version_rows (db r.2) = extend_rows (version_rows (db w)) written /\
             strictly_increasing (current :: written)).
  { subst r. unfold Migrations.run_migrations.
    rewrite (bind_run _ _ _ _ _ (get_schema_version_run w)). fold current.
    unfold mbind at 1. unfold action_bind at 1. cbn [logger].
    unfold mbind at 1. unfold action_bind at 1. cbn [logger].
    destruct (current =? CURRENT_SCHEMA_VERSION).
    { exists []. split; [reflexivity|exact I]. }
    destruct (CURRENT_SCHEMA_VERSION <? current).
    { exists []. split; [reflexivity|exact I]. }
    unfold mbind at 1. unfold action_bind at 1.
    cbn [Migrations.backup_database].
    unfold mbind at 1. unfold action_bind at 1. cbn [logger].
    rewrite versions_after_try.
    2:{ intros e. apply keeps_bind; [apply keeps_logger|]. intros _.
        apply keeps_bind; [apply keeps_logger|]. intros _. apply keeps_raise. }
    rewrite versions_after_bind.
    2:{ intros _. apply keeps_bind; [apply keeps_validate_schema|].
        intros [|]; (apply keeps_bind; [apply keeps_logger|]); intros _; apply keeps_ret. }
    match goal with
    | |- context [Migrations.run_steps ?c ?s ?w1] =>
        destruct (run_steps_versions s migrations_keep_versions c w1)
          as (written & Hrows & Hinc)
    end.
    exists written. split; [exact Hrows|exact Hinc]. }
  split.
  - destruct Hrun as (written & Hrows & Hinc). exists written.
    split; [exact Hrows|]. split; [exact Hinc|].
    rewrite (stored_version_extend _ _ _ Hrows). apply strictly_increasing_last, Hinc.
  - intros Hnew. subst r. unfold Migrations.run_migrations.
    rewrite (bind_run _ _ _ _ _ (get_schema_version_run w)). fold current.
    unfold mbind, action_bind. cbn [logger].
    replace (current =? CURRENT_SCHEMA_VERSION) with false by (symmetry; apply Z.eqb_neq; lia).
    replace (CURRENT_SCHEMA_VERSION <? current) with true by (symmetry; apply Z.ltb_lt; lia).
    reflexivity.
Qed.

(** A store at version 3 is refused and left alone. *)
Example newer_store_refused :
  (Migrations.run_migrations newer_world).1 = Ok false /\
  db (Migrations.run_migrations newer_world).2 = db newer_world /\
  log (Migrations.run_migrations newer_world).2 =
    [LogCurrentSchemaVersion 3; LogTargetSchemaVersion 2; LogVersionNewer 3 2].
Proof. repeat split. Qed.

(** ** C6: from version 0 to version 2 *)

Lemma connection_ok {A : Type} (body : action A) (w w' : world) (a : A) :
  body w = (Ok a, w') -> Migrations.get_db_connection body w = (Ok a, w').
Proof. apply try_except_ok. Qed.

Lemma alter_step (name : string) (constant_default : bool) (w : world) (cols : list string) :
  alerts_columns (db w) = Some cols ->
  has_column cols name = false ->
  constant_default = true \/ alerts_rows (db w) = [] ->
  execute (alter_add_column name constant_default) w =
  (Ok tt, set_db (with_alerts_columns (Some (cols ++ [name])%list) (db w)) w).
Proof.
  intros Hc Hn Hd. unfold execute, alter_add_column. rewrite Hc, Hn.
  destruct Hd as [-> | ->]; [reflexivity|].
  rewrite bool_decide_eq_true_2 by reflexivity. rewrite andb_false_r. reflexivity.
Qed.

Lemma create_index_step (name column : string) (w : world) (cols : list string) :
  alerts_columns (db w) = Some cols ->
  has_column cols column = true ->
  execute (create_index_if_not_exists name column) w =
    (Ok tt, set_db (with_indexes (add_index name column (indexes (db w))) (db w)) w).
Proof.
  intros Hc Hcol. unfold execute, create_index_if_not_exists, add_index. rewrite Hc, Hcol.
  destruct w as [[vr ac ix rows] b lm sw lg]. cbn [db indexes].
  destruct (ix !! name); reflexivity.
Qed.

Lemma add_index_lookup (name column : string) (ixs : gmap string string) :
  add_index name column ixs !! name = Some (default column (ixs !! name)).
Proof.
  unfold add_index. destruct (ixs !! name) as [c|] eqn:H.
  - rewrite H. reflexivity.
  - rewrite lookup_insert_eq. reflexivity.
Qed.

Lemma add_index_lookup_ne (name column other : string) (ixs : gmap string string) :
  other <> name -> add_index name column ixs !! other = ixs !! other.
Proof.
  intros Hne. unfold add_index. destruct (ixs !! name); [reflexivity|].
  apply lookup_insert_ne. congruence.
Qed.

Lemma add_index_subseteq (name column : string) (ixs : gmap string string) :
  ixs ⊆ add_index name column ixs.
Proof.
  unfold add_index. destruct (ixs !! name) eqn:H; [reflexivity|].
  apply insert_subseteq, H.
Qed.

(** After the four statements each index is there, on the column of its
    statement unless an index of that name was there before. *)
Lemma add_indexes_lookup (ixs : gmap string string) (name column : string) :
  (name, column) ∈ MIGRATION_INDEXES ->
  add_indexes MIGRATION_INDEXES ixs !! name = Some (default column (ixs !! name)).
Proof.
  unfold MIGRATION_INDEXES, add_indexes. cbn [foldl fst snd].
  rewrite !elem_of_cons. intros [H | [H | [H | [H | H]]]];
    try (apply elem_of_nil in H; destruct H); injection H as -> ->.
  - rewrite !add_index_lookup_ne by discriminate. apply add_index_lookup.
  - rewrite !add_index_lookup_ne by discriminate. rewrite add_index_lookup.
    rewrite !add_index_lookup_ne by discriminate. reflexivity.
  - rewrite !add_index_lookup_ne by discriminate. rewrite add_index_lookup.
    rewrite !add_index_lookup_ne by discriminate. reflexivity.
  - rewrite add_index_lookup.
    rewrite !add_index_lookup_ne by discriminate. reflexivity.
Qed.

Lemma add_indexes_names (ixs : gmap string string) (name : string) :
  name ∈ INDEX_NAMES -> name ∈ dom (add_indexes MIGRATION_INDEXES ixs).
Proof.
  intros Hn. apply elem_of_dom.
  assert (exists column, (name, column) ∈ MIGRATION_INDEXES) as [column Hc].
  { unfold INDEX_NAMES in Hn. rewrite !elem_of_cons in Hn.
    destruct Hn as [-> | [-> | [-> | [-> | Hn]]]];
      [eexists; unfold MIGRATION_INDEXES; rewrite !elem_of_cons..|apply elem_of_nil in Hn; destruct Hn].
    - left. reflexivity.
    - right. left. reflexivity.
    - right. right. left. reflexivity.
    - right. right. right. left. reflexivity. }
  rewrite (add_indexes_lookup _ _ _ Hc). eexists. reflexivity.
Qed.

Lemma alter_logged (name : string) (constant_default : bool) (r : log_record)
    (w : world) (cols : list string) :
  alerts_columns (db w) = Some cols ->
  has_column cols name = false ->
  constant_default = true \/ alerts_rows (db w) = [] ->
  (execute (alter_add_column name constant_default) ≫= fun _ => logger r) w =
  (Ok tt, add_log r (set_db (with_alerts_columns (Some (cols ++ [name])%list) (db w)) w)).
Proof.
  intros Hc Hn Hd. rewrite (bind_run _ _ _ _ _ (alter_step _ _ _ _ Hc Hn Hd)). reflexivity.
Qed.

Lemma base_lacks_event_code :
  "event_code" ∉ (list_to_set BASE_COLUMNS : gset string).
Proof. apply (bool_decide_unpack _). vm_compute. reflexivity. Qed.

Lemma base_lacks_created_at :
  "created_at" ∉ (list_to_set BASE_COLUMNS : gset string).
Proof. apply (bool_decide_unpack _). vm_compute. reflexivity. Qed.

(** The second migration on the base table without rows. *)
Lemma v1_to_v2_from_base (w : world) :
  alerts_columns (db w) = Some BASE_COLUMNS -> alerts_rows (db w) = [] ->
  exists w2,
    Migrations.migration_v1_to_v2 w = (Ok tt, w2) /\
    alerts_columns (db w2) = Some (BASE_COLUMNS ++ ["event_code"; "created_at"])%list /\
    indexes (db w2) = add_indexes MIGRATION_INDEXES (indexes (db w)) /\
    version_rows (db w2) = version_rows (db w) /\
    alerts_rows (db w2) = [].
Proof.
  intros Hc Hr. unfold Migrations.migration_v1_to_v2.
  rewrite (bind_run _ _ w (add_log LogRunningV1V2 w) tt eq_refl).
  set (w0 := add_log LogRunningV1V2 w).
  assert (Hc0 : alerts_columns (db w0) = Some BASE_COLUMNS) by exact Hc.
  assert (Hr0 : alerts_rows (db w0) = []) by exact Hr.
  assert (Hv0 : version_rows (db w0) = version_rows (db w)) by reflexivity.
  assert (Hi0 : indexes (db w0) = indexes (db w)) by reflexivity.
  clearbody w0.
  pose proof (alter_logged "event_code" true LogAddedEventCode w0 _ Hc0
                ltac:(vm_compute; reflexivity) (or_introl eq_refl)) as E1.
  set (w1 := add_log _ _) in E1.
  assert (Hc1 : alerts_columns (db w1) = Some (BASE_COLUMNS ++ ["event_code"])%list)
    by reflexivity.
  assert (Hr1 : alerts_rows (db w1) = []) by exact Hr0.
  assert (Hv1 : version_rows (db w1) = version_rows (db w)) by exact Hv0.
  assert (Hi1 : indexes (db w1) = indexes (db w)) by exact Hi0.
  clearbody w1.
  pose proof (alter_logged "created_at" false LogAddedCreatedAt w1 _ Hc1
                ltac:(vm_compute; reflexivity) (or_intror Hr1)) as E2.
  set (w2 := add_log _ _) in E2.
  assert (Hc2 : alerts_columns (db w2)
                = Some (BASE_COLUMNS ++ ["event_code"; "created_at"])%list)
    by reflexivity.
  assert (Hr2 : alerts_rows (db w2) = []) by exact Hr1.
  assert (Hv2 : version_rows (db w2) = version_rows (db w)) by exact Hv1.
  assert (Hi2 : indexes (db w2) = indexes (db w)) by exact Hi1.
  clearbody w2.
  pose proof (create_index_step "idx_alerts_timestamp" "timestamp_utc" w2 _ Hc2
                ltac:(vm_compute; reflexivity)) as E3.
  rewrite Hi2 in E3.
  set (w3 := set_db _ _) in E3.
  assert (Hc3 : alerts_columns (db w3)
                = Some (BASE_COLUMNS ++ ["event_code"; "created_at"])%list) by exact Hc2.
  assert (Hi3 : indexes (db w3)
                = add_indexes [("idx_alerts_timestamp", "timestamp_utc")] (indexes (db w)))
    by reflexivity.
  assert (Hr3 : alerts_rows (db w3) = []) by exact Hr2.
  assert (Hv3 : version_rows (db w3) = version_rows (db w)) by exact Hv2.
  clearbody w3.
  pose proof (create_index_step "idx_alerts_event_code" "event_code" w3 _ Hc3
                ltac:(vm_compute; reflexivity)) as E4.
  rewrite Hi3 in E4.
  set (w4 := set_db _ _) in E4.
  assert (Hc4 : alerts_columns (db w4)
                = Some (BASE_COLUMNS ++ ["event_code"; "created_at"])%list) by exact Hc3.
  assert (Hi4 : indexes (db w4)
                = add_indexes [("idx_alerts_timestamp", "timestamp_utc");
                               ("idx_alerts_event_code", "event_code")] (indexes (db w)))
    by reflexivity.
  assert (Hr4 : alerts_rows (db w4) = []) by exact Hr3.
  assert (Hv4 : version_rows (db w4) = version_rows (db w)) by exact Hv3.
  clearbody w4.
  pose proof (create_index_step "idx_alerts_originator" "originator" w4 _ Hc4
                ltac:(vm_compute; reflexivity)) as E5.
  rewrite Hi4 in E5.
  set (w5 := set_db _ _) in E5.
  assert (Hc5 : alerts_columns (db w5)
                = Some (BASE_COLUMNS ++ ["event_code"; "created_at"])%list) by exact Hc4.
  assert (Hi5 : indexes (db w5)
                = add_indexes [("idx_alerts_timestamp", "timestamp_utc");
                               ("idx_alerts_event_code", "event_code");
                               ("idx_alerts_originator", "originator")] (indexes (db w)))
    by reflexivity.
  assert (Hr5 : alerts_rows (db w5) = []) by exact Hr4.
  assert (Hv5 : version_rows (db w5) = version_rows (db w)) by exact Hv4.
  clearbody w5.
  pose proof (create_index_step "idx_alerts_created_at" "created_at" w5 _ Hc5
                ltac:(vm_compute; reflexivity)) as E6.
  rewrite Hi5 in E6.
  set (w6 := set_db _ _) in E6.
  assert (Hc6 : alerts_columns (db w6)
                = Some (BASE_COLUMNS ++ ["event_code"; "created_at"])%list) by exact Hc5.
  assert (Hi6 : indexes (db w6) = add_indexes MIGRATION_INDEXES (indexes (db w)))
    by reflexivity.
  assert (Hr6 : alerts_rows (db w6) = []) by exact Hr5.
  assert (Hv6 : version_rows (db w6) = version_rows (db w)) by exact Hv5.
  clearbody w6.
  exists (add_log LogAddedIndexes w6).
  split; [|split; [exact Hc6|split; [exact Hi6|split; [exact Hv6|exact Hr6]]]].
  apply connection_ok.
  rewrite (bind_run read_db _ w0 w0 (db w0) eq_refl).
  unfold table_info_alerts. rewrite Hc0.
  change (default [] (Some BASE_COLUMNS)) with BASE_COLUMNS.
  rewrite (bool_decide_eq_true_2 _ base_lacks_event_code).
  rewrite (bool_decide_eq_true_2 _ base_lacks_created_at).
  rewrite (bind_run _ _ _ _ _ E1), (bind_run _ _ _ _ _ E2), (bind_run _ _ _ _ _ E3),
    (bind_run _ _ _ _ _ E4), (bind_run _ _ _ _ _ E5), (bind_run _ _ _ _ _ E6).
  reflexivity.
Qed.

(** The first migration: the base table is there afterwards. *)
Lemma v0_to_v1_run (w : world) :
  exists w1,
    Migrations.migration_v0_to_v1 w = (Ok tt, w1) /\
    alerts_columns (db w1) = Some (default BASE_COLUMNS (alerts_columns (db w))) /\
    alerts_rows (db w1) = alerts_rows (db w) /\
    version_rows (db w1) = version_rows (db w) /\
    indexes (db w1) = indexes (db w).
Proof.
  unfold Migrations.migration_v0_to_v1.
  rewrite (bind_run _ _ w (add_log LogRunningV0V1 w) tt eq_refl).
  unfold Migrations.get_db_connection, try_except, execute, create_alerts_if_not_exists.
  cbn [add_log db].
  destruct (alerts_columns (db w)) as [cols|] eqn:Hc; eexists; (split; [reflexivity|]);
    cbn [set_db add_log db with_alerts_columns alerts_columns alerts_rows version_rows
         indexes];
    rewrite ?Hc; repeat split.
Qed.

Lemma full_schema_valid :
  Migrations.expected_columns
    ∖ list_to_set (BASE_COLUMNS ++ ["event_code"; "created_at"])%list = (∅ : gset string) /\
  list_to_set (BASE_COLUMNS ++ ["event_code"; "created_at"])%list
    ∖ Migrations.expected_columns = (∅ : gset string).
Proof. split; apply (bool_decide_unpack _); vm_compute; reflexivity. Qed.

(** The schema after both migrations passes the validation. *)
Lemma validate_full_schema (w : world) :
  alerts_columns (db w) = Some (BASE_COLUMNS ++ ["event_code"; "created_at"])%list ->
  Migrations.validate_schema w = (Ok true, add_log LogValidationPassed w).
Proof.
  intros Hc. unfold Migrations.validate_schema. apply connection_ok.
  rewrite (bind_run read_db _ w w (db w) eq_refl). cbv zeta.
  unfold table_info_alerts. rewrite Hc.
  change (default [] (Some ?l)) with l.
  destruct full_schema_valid as [-> ->].
  rewrite !bool_decide_eq_false_2 by (intros H; apply H; reflexivity).
  reflexivity.
Qed.

(** A second run on a store at version 2 runs no step. *)
Lemma up_to_date_run (w : world) :
  stored_version (db w) = CURRENT_SCHEMA_VERSION ->
  Migrations.run_migrations w =
  (Ok true,
   add_log LogSchemaUpToDate
     (add_log (LogTargetSchemaVersion CURRENT_SCHEMA_VERSION)
        (add_log (LogCurrentSchemaVersion CURRENT_SCHEMA_VERSION) w))).
Proof.
  intros Hv. unfold Migrations.run_migrations.
  rewrite (bind_run _ _ _ _ _ (get_schema_version_run w)), Hv.
  reflexivity.
Qed.

(** Where the migration does what C6 says: on a store at version 0
    without alerts (a new file, or the base table still without a row) it
    answers True and leaves the store at version 2. The version rows 1
    and 2 were appended, the table of alerts has the columns event_code
    and created_at after the base columns, and the four indexes exist,
    each on the column of its statement (issue time, event code,
    originator, receipt time) unless an index of that name was there
    before. A second run on the store it left runs no step, changes
    nothing but the log, reports that the schema is up to date and
    answers True. *)
Theorem migration_reaches_two (w : world) :
  version_zero_store (db w) ->
  exists w2,
    Migrations.run_migrations w = (Ok true, w2) /\
    Migrations.get_schema_version w2 = (Ok 2, w2) /\
    version_rows (db w2) = Some (default [] (version_rows (db w)) ++ [1; 2])%list /\
    alerts_columns (db w2) = Some (BASE_COLUMNS ++ ["event_code"; "created_at"])%list /\
    (forall name, name ∈ INDEX_NAMES -> name ∈ index_names (db w2)) /\
    (forall name column, (name, column) ∈ MIGRATION_INDEXES ->
       indexes (db w2) !! name = Some (default column (indexes (db w) !! name))) /\
    Migrations.run_migrations w2 =
      (Ok true,
       add_log LogSchemaUpToDate
         (add_log (LogTargetSchemaVersion 2) (add_log (LogCurrentSchemaVersion 2) w2))).
Proof.
  intros (Hv & Hc & Hr).
  set (wb := add_log LogCreatedBackup
               (add_log LogBackedUp
                  (set_db_backup (Some (db w))
                     (add_log (LogTargetSchemaVersion CURRENT_SCHEMA_VERSION)
                        (add_log (LogCurrentSchemaVersion 0) w))))).
  destruct (v0_to_v1_run wb) as (w1 & E1 & Hc1 & Hr1 & Hv1 & Hx1).
  change (alerts_columns (db wb)) with (alerts_columns (db w)) in Hc1.
  change (alerts_rows (db wb)) with (alerts_rows (db w)) in Hr1.
  change (version_rows (db wb)) with (version_rows (db w)) in Hv1.
  change (indexes (db wb)) with (indexes (db w)) in Hx1.
  assert (Hbase : alerts_columns (db w1) = Some BASE_COLUMNS).
  { rewrite Hc1. destruct Hc as [-> | ->]; reflexivity. }
  rewrite Hr in Hr1. clear Hc1.
  set (w1' := add_log (LogMigratedTo 1)
                (set_db (with_version_rows
                           (Some (default [] (version_rows (db w1)) ++ [1])%list) (db w1)) w1)).
  destruct (v1_to_v2_from_base w1' Hbase Hr1) as (w2 & E2 & Hc2 & Hi2 & Hv2 & Hr2).
  change (indexes (db w1')) with (indexes (db w1)) in Hi2. rewrite Hx1 in Hi2.
  set (w2' := add_log (LogMigratedTo 2)
                (set_db (with_version_rows
                           (Some (default [] (version_rows (db w2)) ++ [2])%list) (db w2)) w2)).
  assert (Hc2' : alerts_columns (db w2')
                 = Some (BASE_COLUMNS ++ ["event_code"; "created_at"])%list) by exact Hc2.
  pose proof (validate_full_schema w2' Hc2') as E3.
  assert (Hrows : version_rows (db w2')
                  = Some (default [] (version_rows (db w)) ++ [1; 2])%list).
  { subst w2'. cbn [add_log set_db db with_version_rows version_rows].
    rewrite Hv2. subst w1'. cbn [add_log set_db db with_version_rows version_rows].
    rewrite Hv1. change (default [] (Some ?l)) with l.
    rewrite <- app_assoc. reflexivity. }
  assert (Hstored : stored_version (db w2') = 2).
  { unfold stored_version. rewrite Hrows.
    change [1; 2] with ([1] ++ [2])%list. rewrite app_assoc, last_snoc. reflexivity. }
  exists (add_log LogAllMigrationsCompleted (add_log LogValidationPassed w2')).
  split; [|split; [|split; [exact Hrows|split; [exact Hc2|split; [|split]]]]].
  3:{ intros name Hn. unfold index_names.
      change (indexes (db (add_log LogAllMigrationsCompleted (add_log LogValidationPassed w2'))))
        with (indexes (db w2)).
      rewrite Hi2. apply add_indexes_names, Hn. }
  3:{ intros name column Hn.
      change (indexes (db (add_log LogAllMigrationsCompleted (add_log LogValidationPassed w2'))))
        with (indexes (db w2)).
      rewrite Hi2. apply add_indexes_lookup, Hn. }
  - unfold Migrations.run_migrations.
    rewrite (bind_run _ _ _ _ _ (get_schema_version_run w)), Hv.
    rewrite (bind_run (logger _) _ _ _ tt eq_refl).
    rewrite (bind_run (logger _) _ _ _ tt eq_refl).
    change (0 =? CURRENT_SCHEMA_VERSION) with false.
    change (CURRENT_SCHEMA_VERSION <? 0) with false. cbv iota.
    rewrite (bind_run Migrations.backup_database _ _ _ true eq_refl). cbv iota.
    rewrite (bind_run (logger _) _ _ _ tt eq_refl). fold wb.
    apply try_except_ok.
    cbn [Migrations.run_steps Migrations.migrations].
    change (0 =? 0) with true. cbv iota.
    erewrite bind_run; [|].
    2:{ rewrite (bind_run _ _ _ _ _ E1).
        rewrite (bind_run _ _ _ _ _ (set_schema_version_run 1 w1 eq_refl)).
        rewrite (bind_run (logger _) _ _ _ tt eq_refl). fold w1'.
        change (1 =? 0) with false. change (1 =? 1) with true. cbv iota.
        rewrite (bind_run _ _ _ _ _ E2).
        rewrite (bind_run _ _ _ _ _ (set_schema_version_run 2 w2 eq_refl)).
        rewrite (bind_run (logger _) _ _ _ tt eq_refl). fold w2'.
        reflexivity. }
    rewrite (bind_run _ _ _ _ _ E3). reflexivity.
  - rewrite get_schema_version_run. cbn [add_log db]. rewrite Hstored. reflexivity.
  - apply (up_to_date_run (add_log LogAllMigrationsCompleted (add_log LogValidationPassed w2'))).
    exact Hstored.
Qed.

Lemma migration_reaches_two_witness :
  exists w2,
    Migrations.run_migrations fresh_world = (Ok true, w2) /\
    Migrations.get_schema_version w2 = (Ok 2, w2) /\
    version_rows (db w2) = Some [1; 2] /\
    alerts_columns (db w2) = Some (BASE_COLUMNS ++ ["event_code"; "created_at"])%list /\
    (forall name, name ∈ INDEX_NAMES -> name ∈ index_names (db w2)) /\
    (forall name column, (name, column) ∈ MIGRATION_INDEXES ->
       indexes (db w2) !! name = Some (default column (indexes (db fresh_world) !! name))) /\
    Migrations.run_migrations w2 =
      (Ok true,
       add_log LogSchemaUpToDate
         (add_log (LogTargetSchemaVersion 2) (add_log (LogCurrentSchemaVersion 2) w2))).
Proof.
  exact (migration_reaches_two fresh_world
           (conj eq_refl (conj (or_introl eq_refl) eq_refl))).
Defined.

(** The hypothesis on the rows is needed: with a row in the base table
    the column created_at, whose default is not a constant, cannot be
    added, and the store stays at version 1. *)
Example populated_base_table_stays_at_one :
  let r := Migrations.run_migrations populated_legacy_world in
  r.1 = Raise SqliteNonConstantDefault /\ stored_version (db r.2) = 1.
Proof. vm_compute. split; reflexivity. Qed.

Lemma alter_refused (name : string) (w : world) (cols : list string) :
  alerts_columns (db w) = Some cols ->
  has_column cols name = false ->
  alerts_rows (db w) <> [] ->
  execute (alter_add_column name false) w = (Raise SqliteNonConstantDefault, w).
Proof.
  intros Hc Hn Hr. unfold execute, alter_add_column. rewrite Hc, Hn.
  rewrite bool_decide_eq_false_2 by exact Hr. reflexivity.
Qed.

(** The second migration on the base table with rows: event_code is
    added, created_at is refused. *)
Lemma v1_to_v2_populated (w : world) :
  alerts_columns (db w) = Some BASE_COLUMNS -> alerts_rows (db w) <> [] ->
  Migrations.migration_v1_to_v2 w =
  (Raise SqliteNonConstantDefault,
   add_log (LogDatabaseError SqliteNonConstantDefault)
     (add_log LogAddedEventCode
        (set_db (with_alerts_columns (Some (BASE_COLUMNS ++ ["event_code"])%list) (db w))
           (add_log LogRunningV1V2 w)))).
Proof.
  intros Hc Hr. unfold Migrations.migration_v1_to_v2.
  rewrite (bind_run _ _ w (add_log LogRunningV1V2 w) tt eq_refl).
  set (w0 := add_log LogRunningV1V2 w).
  assert (Hc0 : alerts_columns (db w0) = Some BASE_COLUMNS) by exact Hc.
  assert (Hr0 : alerts_rows (db w0) <> []) by exact Hr.
  pose proof (alter_logged "event_code" true LogAddedEventCode w0 _ Hc0
                ltac:(vm_compute; reflexivity) (or_introl eq_refl)) as E1.
  set (w1 := add_log _ _) in E1.
  assert (Hc1 : alerts_columns (db w1) = Some (BASE_COLUMNS ++ ["event_code"])%list)
    by reflexivity.
  assert (Hr1 : alerts_rows (db w1) <> []) by exact Hr0.
  pose proof (alter_refused "created_at" w1 _ Hc1 ltac:(vm_compute; reflexivity) Hr1) as E2.
  unfold Migrations.get_db_connection, try_except.
  rewrite (bind_run read_db _ w0 w0 (db w0) eq_refl).
  unfold table_info_alerts. rewrite Hc0.
  change (default [] (Some BASE_COLUMNS)) with BASE_COLUMNS.
  rewrite (bool_decide_eq_true_2 _ base_lacks_event_code).
  rewrite (bool_decide_eq_true_2 _ base_lacks_created_at).
  rewrite (bind_run _ _ _ _ _ E1).
  rewrite (bind_raise _ _ _ _ _ (bind_raise _ _ _ _ _ E2)).
  reflexivity.
Qed.

Lemma half_migrated_has_event_code :
  "event_code" ∈ (list_to_set (BASE_COLUMNS ++ ["event_code"])%list : gset string).
Proof. apply (bool_decide_unpack _). vm_compute. reflexivity. Qed.

Lemma half_migrated_lacks_created_at :
  "created_at" ∉ (list_to_set (BASE_COLUMNS ++ ["event_code"])%list : gset string).
Proof. apply (bool_decide_unpack _). vm_compute. reflexivity. Qed.

(** The second migration once more, where the first attempt left it. *)
Lemma v1_to_v2_stuck (w : world) :
  alerts_columns (db w) = Some (BASE_COLUMNS ++ ["event_code"])%list ->
  alerts_rows (db w) <> [] ->
  (Migrations.migration_v1_to_v2 w).1 = Raise SqliteNonConstantDefault.
Proof.
  intros Hc Hr. unfold Migrations.migration_v1_to_v2.
  rewrite (bind_run _ _ w (add_log LogRunningV1V2 w) tt eq_refl).
  set (w0 := add_log LogRunningV1V2 w).
  assert (Hc0 : alerts_columns (db w0) = Some (BASE_COLUMNS ++ ["event_code"])%list)
    by exact Hc.
  assert (Hr0 : alerts_rows (db w0) <> []) by exact Hr.
  pose proof (alter_refused "created_at" w0 _ Hc0 ltac:(vm_compute; reflexivity) Hr0) as E2.
  unfold Migrations.get_db_connection, try_except.
  rewrite (bind_run read_db _ w0 w0 (db w0) eq_refl).
  unfold table_info_alerts. rewrite Hc0.
  change (default [] (Some ?l)) with l.
  rewrite (bool_decide_eq_false_2 _ (fun H => H half_migrated_has_event_code)).
  rewrite (bool_decide_eq_true_2 _ half_migrated_lacks_created_at).
  rewrite (bind_run (mret tt) _ w0 w0 tt eq_refl).
  rewrite (bind_raise _ _ _ _ _ (bind_raise _ _ _ _ _ E2)).
  reflexivity.
Qed.

(** C6. The claim fails on a store at version 0 that holds alerts. On
    the base table of the legacy decoder with at least one row the
    migration raises: the version record 1 is written and event_code is
    added, but created_at, whose default is not a constant, is refused by
    SQLite, so the store stays at version 1 without that column and
    without any of the four indexes. A later run meets the same refusal. *)
Theorem populated_store_is_not_migrated (w : world) :
  stored_version (db w) = 0 ->
  alerts_columns (db w) = Some BASE_COLUMNS ->
  alerts_rows (db w) <> [] ->
  exists w',
    Migrations.run_migrations w = (Raise SqliteNonConstantDefault, w') /\
    stored_version (db w') = 1 /\
    alerts_columns (db w') = Some (BASE_COLUMNS ++ ["event_code"])%list /\
    indexes (db w') = indexes (db w) /\
    alerts_rows (db w') = alerts_rows (db w) /\
    (Migrations.run_migrations w').1 = Raise SqliteNonConstantDefault.
Proof.
  intros Hv Hc Hr.
  set (wb := add_log LogCreatedBackup
               (add_log LogBackedUp
                  (set_db_backup (Some (db w))
                     (add_log (LogTargetSchemaVersion CURRENT_SCHEMA_VERSION)
                        (add_log (LogCurrentSchemaVersion 0) w))))).
  destruct (v0_to_v1_run wb) as (w1 & E1 & Hc1 & Hr1 & Hv1 & Hx1).
  change (alerts_columns (db wb)) with (alerts_columns (db w)) in Hc1.
  change (alerts_rows (db wb)) with (alerts_rows (db w)) in Hr1.
  change (version_rows (db wb)) with (version_rows (db w)) in Hv1.
  change (indexes (db wb)) with (indexes (db w)) in Hx1.
  rewrite Hc in Hc1. change (default BASE_COLUMNS (Some BASE_COLUMNS)) with BASE_COLUMNS in Hc1.
  set (w1' := add_log (LogMigratedTo 1)
                (set_db (with_version_rows
                           (Some (default [] (version_rows (db w1)) ++ [1])%list) (db w1)) w1)).
  assert (Hc1' : alerts_columns (db w1') = Some BASE_COLUMNS) by exact Hc1.
  assert (Hr1' : alerts_rows (db w1') <> []) by (change (alerts_rows (db w1) <> []); congruence).
  pose proof (v1_to_v2_populated w1' Hc1' Hr1') as E2.
  set (w2 := add_log (LogDatabaseError SqliteNonConstantDefault) _) in E2.
  set (w' := add_log LogConsiderRestoring
               (add_log (LogMigrationFailed SqliteNonConstantDefault) w2)).
  assert (Hstored : stored_version (db w') = 1).
  { unfold stored_version. subst w' w2 w1'.
    cbn [add_log set_db db with_version_rows with_alerts_columns version_rows].
    rewrite last_snoc. reflexivity. }
  assert (Hcols : alerts_columns (db w') = Some (BASE_COLUMNS ++ ["event_code"])%list)
    by reflexivity.
  assert (Hrows : alerts_rows (db w') = alerts_rows (db w)) by exact Hr1.
  exists w'. split; [|split; [exact Hstored|split; [exact Hcols|split; [exact Hx1|split; [exact Hrows|]]]]].
  - unfold Migrations.run_migrations.
    rewrite (bind_run _ _ _ _ _ (get_schema_version_run w)), Hv.
    rewrite (bind_run (logger _) _ _ _ tt eq_refl).
    rewrite (bind_run (logger _) _ _ _ tt eq_refl).
    change (0 =? CURRENT_SCHEMA_VERSION) with false.
    change (CURRENT_SCHEMA_VERSION <? 0) with false. cbv iota.
    rewrite (bind_run Migrations.backup_database _ _ _ true eq_refl). cbv iota.
    rewrite (bind_run (logger _) _ _ _ tt eq_refl). fold wb.
    unfold try_except.
    cbn [Migrations.run_steps Migrations.migrations].
    change (0 =? 0) with true. cbv iota.
    erewrite bind_raise; [reflexivity|].
    rewrite (bind_run _ _ _ _ _ E1).
    rewrite (bind_run _ _ _ _ _ (set_schema_version_run 1 w1 eq_refl)).
    rewrite (bind_run (logger _) _ _ _ tt eq_refl). fold w1'.
    change (1 =? 0) with false. change (1 =? 1) with true. cbv iota.
    rewrite (bind_raise _ _ _ _ _ E2). reflexivity.
  - unfold Migrations.run_migrations.
    rewrite (bind_run _ _ _ _ _ (get_schema_version_run w')), Hstored.
    rewrite (bind_run (logger _) _ _ _ tt eq_refl).
    rewrite (bind_run (logger _) _ _ _ tt eq_refl).
    change (1 =? CURRENT_SCHEMA_VERSION) with false.
    change (CURRENT_SCHEMA_VERSION <? 1) with false. cbv iota.
    rewrite (bind_run Migrations.backup_database _ _ _ true eq_refl). cbv iota.
    rewrite (bind_run (logger _) _ _ _ tt eq_refl).
    unfold try_except.
    cbn [Migrations.run_steps Migrations.migrations].
    change (1 =? 0) with false. change (1 =? 1) with true. cbv iota.
    unfold mbind, action_bind.
    match goal with
    | |- context [Migrations.migration_v1_to_v2 ?wb2] =>
        assert (Hstuck : (Migrations.migration_v1_to_v2 wb2).1
                         = Raise SqliteNonConstantDefault)
          by (apply v1_to_v2_stuck; [exact Hcols|rewrite <- Hrows in Hr; exact Hr]);
        destruct (Migrations.migration_v1_to_v2 wb2) as [r2 w3]
    end.
    cbn [fst] in Hstuck. subst r2. reflexivity.
Qed.

Lemma populated_store_is_not_migrated_witness :
  exists w',
    Migrations.run_migrations populated_legacy_world = (Raise SqliteNonConstantDefault, w') /\
    stored_version (db w') = 1 /\
    alerts_columns (db w') = Some (BASE_COLUMNS ++ ["event_code"])%list /\
    indexes (db w') = indexes (db populated_legacy_world) /\
    alerts_rows (db w') = alerts_rows (db populated_legacy_world) /\
    (Migrations.run_migrations w').1 = Raise SqliteNonConstantDefault.
Proof.
  apply populated_store_is_not_migrated; [reflexivity|reflexivity|discriminate].
Defined.

Lemma version_moves_forward_witness :
  Migrations.run_migrations newer_world =
  (Ok false,
   add_log (LogVersionNewer 3 2)
     (add_log (LogTargetSchemaVersion 2) (add_log (LogCurrentSchemaVersion 3) newer_world))).
Proof.
  refine (proj2 (version_moves_forward newer_world) _). vm_compute. reflexivity.
Defined.

(* ------------------------------------------------------------------ *)
(** * Further properties of the two modules *)

(** ** Trimming *)

Lemma rstrip_by_empty (p : ascii -> bool) (s : string) :
  Py.rstrip_by p s = "" <-> Py.all_chars p s = true.
Proof.
  induction s as [|c s IH]; simpl; [tauto|].
  destruct (Py.is_empty (Py.rstrip_by p s)) eqn:He.
  - apply is_empty_true in He. destruct (p c); simpl.
    + split; [intros _; apply IH, He|reflexivity].
    + split; discriminate.
  - apply is_empty_false in He. simpl. split; [discriminate|].
    intros H. apply andb_prop in H as [_ H]. apply IH in H. contradiction.
Qed.

Lemma lstrip_by_all (p : ascii -> bool) (s : string) :
  Py.all_chars p s = true -> Py.lstrip_by p s = "".
Proof.
  induction s as [|c s IH]; simpl; [reflexivity|].
  intros H. apply andb_prop in H as [-> H]. apply IH, H.
Qed.

Lemma lstrip_rstrip_commute (p : ascii -> bool) (s : string) :
  Py.lstrip_by p (Py.rstrip_by p s) = Py.rstrip_by p (Py.lstrip_by p s).
Proof.
  induction s as [|c s IH]; [reflexivity|].
  cbn [Py.lstrip_by Py.rstrip_by]. destruct (p c) eqn:Hc.
  - destruct (Py.is_empty (Py.rstrip_by p s)) eqn:He; cbn [andb].
    + apply is_empty_true in He. cbn [Py.lstrip_by].
      apply rstrip_by_empty in He. rewrite (lstrip_by_all p s He). reflexivity.
    + cbn [Py.lstrip_by]. rewrite Hc. exact IH.
  - rewrite andb_false_r. cbn [Py.lstrip_by Py.rstrip_by]. rewrite Hc, andb_false_r.
    reflexivity.
Qed.

Lemma lstrip_by_idem (p : ascii -> bool) (s : string) :
  Py.lstrip_by p (Py.lstrip_by p s) = Py.lstrip_by p s.
Proof.
  induction s as [|c s IH]; [reflexivity|].
  cbn [Py.lstrip_by]. destruct (p c) eqn:Hc; [exact IH|].
  cbn [Py.lstrip_by]. rewrite Hc. reflexivity.
Qed.

Lemma rstrip_by_idem (p : ascii -> bool) (s : string) :
  Py.rstrip_by p (Py.rstrip_by p s) = Py.rstrip_by p s.
Proof.
  induction s as [|c s IH]; [reflexivity|].
  cbn [Py.rstrip_by].
  destruct (Py.is_empty (Py.rstrip_by p s) && p c) eqn:H; [reflexivity|].
  cbn [Py.rstrip_by]. rewrite IH, H. reflexivity.
Qed.

Lemma strip_idem (s : string) : Py.strip (Py.strip s) = Py.strip s.
Proof.
  unfold Py.strip.
  rewrite lstrip_rstrip_commute, lstrip_by_idem, rstrip_by_idem. reflexivity.
Qed.

(** A string that neither starts nor ends with a character of the class
    is left as it is. *)
Lemma rstrip_by_last (p : ascii -> bool) (s : string) (c : ascii) :
  Py.last_char s = Some c -> p c = false -> Py.rstrip_by p s = s.
Proof.
  induction s as [|d s IH]; [discriminate|].
  cbn [Py.last_char Py.rstrip_by]. destruct s as [|e s].
  - intros [= ->] Hc. cbn [Py.rstrip_by Py.is_empty andb]. rewrite Hc. reflexivity.
  - intros Hl Hc. rewrite (IH Hl Hc). reflexivity.
Qed.

Lemma rstrip_by_snoc (p : ascii -> bool) (s : string) (c : ascii) :
  p c = true -> Py.rstrip_by p (s ++ String c "") = Py.rstrip_by p s.
Proof.
  intros Hc. induction s as [|d s IH]; simpl.
  - rewrite Hc. reflexivity.
  - rewrite IH. reflexivity.
Qed.

Lemma rstrip_by_none (p : ascii -> bool) (s : string) :
  Py.all_chars (fun c => negb (p c)) s = true -> Py.rstrip_by p s = s.
Proof.
  induction s as [|c s IH]; [reflexivity|]. cbn [Py.all_chars Py.rstrip_by].
  intros H. apply andb_prop in H as [Hc H]. apply negb_true_iff in Hc.
  rewrite Hc, andb_false_r, (IH H). reflexivity.
Qed.

Lemma strip_no_space (s : string) :
  Py.all_chars (fun c => negb (Py.isspace c)) s = true -> Py.strip s = s.
Proof.
  intros H. unfold Py.strip.
  replace (Py.lstrip_by Py.isspace s) with s; [apply rstrip_by_none, H|].
  destruct s as [|c s]; [reflexivity|]. cbn [Py.all_chars] in H.
  apply andb_prop in H as [Hc _]. apply negb_true_iff in Hc.
  cbn [Py.lstrip_by]. rewrite Hc. reflexivity.
Qed.

Lemma all_chars_impl (p q : ascii -> bool) (s : string) :
  (forall c, p c = true -> q c = true) ->
  Py.all_chars p s = true -> Py.all_chars q s = true.
Proof.
  intros Hpq. induction s as [|c s IH]; [reflexivity|]. cbn [Py.all_chars].
  intros H. apply andb_prop in H as [Hc H]. rewrite (Hpq c Hc), (IH H). reflexivity.
Qed.

Lemma all_chars_not_contains (p : ascii -> bool) (c : ascii) (s : string) :
  p c = false -> Py.all_chars p s = true -> Py.contains_char c s = false.
Proof.
  intros Hc. induction s as [|d s IH]; [reflexivity|]. cbn [Py.all_chars Py.contains_char].
  intros H. apply andb_prop in H as [Hd H]. rewrite (IH H), orb_false_r.
  apply Ascii.eqb_neq. intros <-. congruence.
Qed.

(** Digits are clean: no whitespace, no dash, no separator. *)
Lemma isdigit_clean (s : string) :
  Py.isdigit s = true ->
  s <> "" /\ Py.strip s = s /\ no_dash s /\ no_plus s.
Proof.
  unfold Py.isdigit. intros H. apply andb_prop in H as [He H].
  apply negb_true_iff, is_empty_false in He. split; [exact He|]. split; [|split].
  - apply strip_no_space. revert H. apply all_chars_impl.
    intros c Hc. destruct (digit_char_facts c Hc) as (-> & _). reflexivity.
  - exact (all_chars_not_contains _ "-" s eq_refl H).
  - exact (all_chars_not_contains _ "+" s eq_refl H).
Qed.

(** ** Splitting and joining *)

Lemma split_no_sep (c : ascii) (s : string) :
  Py.contains_char c s = false -> Py.split c s = [s].
Proof.
  induction s as [|d s IH]; [reflexivity|]. cbn [Py.contains_char Py.split].
  intros H. apply orb_false_elim in H as [Hd H]. rewrite Hd, (IH H). reflexivity.
Qed.

Lemma split_app (c : ascii) (a b : string) :
  Py.contains_char c a = false ->
  Py.split c (a ++ String c b) = a :: Py.split c b.
Proof.
  induction a as [|d a IH]; simpl; intros H.
  - rewrite Ascii.eqb_refl. reflexivity.
  - apply orb_false_elim in H as [Hd H]. rewrite Hd, (IH H). reflexivity.
Qed.

(** Joining tokens that do not contain the separator and splitting the
    result gives the tokens back. *)
Lemma split_join (c : ascii) (tokens : list string) :
  tokens <> [] -> Forall (fun t => Py.contains_char c t = false) tokens ->
  Py.split c (Py.join (String c "") tokens) = tokens.
Proof.
  intros Hne H. induction H as [|t tokens Ht _ IH]; [contradiction|].
  destruct tokens as [|u tokens].
  - apply split_no_sep, Ht.
  - change (Py.join (String c "") (t :: u :: tokens))
      with (t ++ String c (Py.join (String c "") (u :: tokens))).
    rewrite (split_app c t _ Ht), IH by discriminate. reflexivity.
Qed.

Lemma contains_char_append (c : ascii) (a b : string) :
  Py.contains_char c (a ++ b) = Py.contains_char c a || Py.contains_char c b.
Proof.
  induction a as [|d a IH]; simpl; [reflexivity|]. rewrite IH, orb_assoc. reflexivity.
Qed.

Lemma last_char_append (a b : string) :
  b <> "" -> Py.last_char (a ++ b) = Py.last_char b.
Proof.
  intros Hb. induction a as [|d a IH]; [reflexivity|].
  change (String d a ++ b) with (String d (a ++ b)). cbn [Py.last_char].
  destruct (a ++ b) eqn:Hab; [|exact IH].
  destruct a; [simpl in Hab; contradiction|discriminate].
Qed.

Lemma last_char_contained (s : string) (c : ascii) :
  Py.last_char s = Some c -> Py.contains_char c s = true.
Proof.
  induction s as [|d s IH]; [discriminate|]. cbn [Py.last_char Py.contains_char].
  destruct s as [|e s].
  - intros [= ->]. rewrite Ascii.eqb_refl. reflexivity.
  - intros H. rewrite (IH H). apply orb_true_r.
Qed.

Lemma last_char_some (s : string) : s <> "" -> exists c, Py.last_char s = Some c.
Proof.
  induction s as [|d s IH]; [contradiction|]. intros _. cbn [Py.last_char].
  destruct s as [|e s]; [eauto|]. apply IH. discriminate.
Qed.

Lemma last_char_join (sep : string) (tokens : list string) (t : string) :
  t <> "" -> Py.last_char (Py.join sep (tokens ++ [t])) = Py.last_char t.
Proof.
  intros Ht. induction tokens as [|u tokens IH]; [reflexivity|].
  change ((u :: tokens) ++ [t])%list with (u :: (tokens ++ [t]))%list.
  destruct (tokens ++ [t])%list as [|v rest] eqn:Hl.
  { destruct tokens; discriminate. }
  change (Py.join sep (u :: v :: rest)) with (u ++ sep ++ Py.join sep (v :: rest)).
  assert (Hne : Py.join sep (v :: rest) <> "").
  { intros He. rewrite He in IH. destruct (last_char_some t Ht) as [c Hc].
    rewrite Hc in IH. discriminate. }
  rewrite last_char_append.
  - rewrite last_char_append by exact Hne. exact IH.
  - destruct sep; simpl; [exact Hne|discriminate].
Qed.

Lemma startswith_append (p s : string) : Py.startswith p (p ++ s) = true.
Proof.
  unfold Py.startswith. induction p as [|a p IH]; simpl; [destruct s; reflexivity|].
  destruct (ascii_dec a a); [exact IH|contradiction].
Qed.

Lemma collected_codes_clean (areas : list string) (last : string) :
  Forall (fun a => clean_token a /\ no_plus a) areas -> clean_token last ->
  collected_codes areas last = (areas ++ [last])%list.
Proof.
  intros Ha Hl. unfold collected_codes.
  assert (H : Forall clean_token (areas ++ [last])%list).
  { apply Forall_app. split; [|constructor; [exact Hl|constructor]].
    eapply Forall_impl; [exact Ha|]. intros a [Hc _]. exact Hc. }
  induction H as [|t l (Hne & _ & Hs) _ IH]; [reflexivity|].
  rewrite fmap_cons, Hs, filter_cons_True by exact Hne. rewrite IH. reflexivity.
Qed.

(** ** The parser: round trip, trimming, invariants *)

(** X1. Round trip. A header laid out from clean fields (no dash, no
    surrounding whitespace, not empty; area codes without the separator;
    a duration of four digits and a timestamp of seven) and not longer
    than 1000 characters is parsed back into exactly those fields, the
    area codes in their order. *)
Theorem header_round_trip (orig ev : string) (areas : list string)
    (last dur ts st : string) :
  clean_token orig -> clean_token ev ->
  Forall (fun a => clean_token a /\ no_plus a) areas ->
  clean_token last -> no_plus last ->
  Py.isdigit dur = true -> Py.len dur = 4%nat ->
  Py.isdigit ts = true -> Py.len ts = 7%nat ->
  clean_token st ->
  (Py.len (render_header orig ev areas last dur ts st) <= 1000)%nat ->
  parse_same_message (render_header orig ev areas last dur ts st) =
  Ok {| Parsed.originator := orig; Parsed.event_code := ev;
        Parsed.fips_codes := (areas ++ [last])%list; Parsed.duration := dur;
        Parsed.timestamp := ts; Parsed.station_id := st |}.
Proof.
  intros (Hon & Hod & Hos) (Hen & Hed & Hes) Ha (Hln & Hld & Hls) Hlp
         Hdd Hdl Htd Htl (Hsn & Hsd & Hss) Hlen.
  destruct (isdigit_clean dur Hdd) as (Hdn & Hds & Hddash & Hdp).
  destruct (isdigit_clean ts Htd) as (Htn & Hts & Htdash & Htp).
  set (tokens := ([orig; ev] ++ areas ++ [(last ++ String "+" dur)%string; ts; st])%list).
  set (body := Py.join "-" tokens).
  assert (Hrender : render_header orig ev areas last dur ts st
                    = START_MARKER ++ body ++ "-") by reflexivity.
  assert (Hlast : exists c, Py.last_char body = Some c /\ Ascii.eqb "-" c = false).
  { destruct (last_char_some st Hsn) as [c Hc]. exists c. split.
    - subst body tokens.
      change ([orig; ev] ++ areas ++ [(last ++ String "+" dur)%string; ts; st])%list
        with (([orig; ev] ++ (areas ++ [(last ++ String "+" dur)%string; ts; st]))%list).
      replace (areas ++ [(last ++ String "+" dur)%string; ts; st])%list
        with ((areas ++ [(last ++ String "+" dur)%string; ts]) ++ [st])%list
        by (rewrite <- app_assoc; reflexivity).
      rewrite app_assoc, (last_char_join "-" _ st Hsn). exact Hc.
    - destruct (Ascii.eqb "-" c) eqn:He; [|reflexivity].
      apply Ascii.eqb_eq in He. subst c. apply last_char_contained in Hc.
      unfold no_dash in Hsd. congruence. }
  destruct Hlast as (c & Hc & Hcd).
  assert (Htokens : Forall (fun t => Py.contains_char "-" t = false) tokens).
  { subst tokens. repeat (apply Forall_app; split); repeat constructor; try assumption.
    - eapply Forall_impl; [exact Ha|]. intros a [(_ & Hd & _) _]. exact Hd.
    - rewrite contains_char_append. unfold no_dash in Hld. rewrite Hld.
      cbn [Py.contains_char orb]. unfold no_dash in Hddash. rewrite Hddash. reflexivity. }
  assert (Hparts : header_parts (START_MARKER ++ body ++ "-") = tokens).
  { unfold header_parts.
    change (Py.slice_from 5 (START_MARKER ++ body ++ "-")) with (body ++ "-").
    unfold Py.rstrip_char. rewrite rstrip_by_snoc by reflexivity.
    rewrite (rstrip_by_last _ body c Hc Hcd).
    apply split_join; [discriminate|exact Htokens]. }
  assert (Hstrip : Py.strip (START_MARKER ++ body ++ "-") = START_MARKER ++ body ++ "-").
  { unfold Py.strip.
    change (Py.lstrip_by Py.isspace (START_MARKER ++ body ++ "-"))
      with (START_MARKER ++ body ++ "-").
    apply (rstrip_by_last _ _ "-"); [|reflexivity].
    rewrite (last_char_append START_MARKER) by (destruct body; discriminate).
    rewrite last_char_append by discriminate. reflexivity. }
  unfold parse_same_message, validate_same_message_format.
  rewrite Hrender in Hlen |- *. rewrite Hstrip.
  replace (Py.is_empty (START_MARKER ++ body ++ "-")) with false by reflexivity.
  rewrite startswith_append.
  cbn [negb]. apply Nat.leb_le in Hlen.
  replace (1000 <? Py.len (START_MARKER ++ body ++ "-"))%nat with false
    by (symmetry; apply Nat.ltb_ge; apply Nat.leb_le; exact Hlen).
  cbn [mbind result_bind]. rewrite Hparts. subst tokens.
  change ([orig; ev] ++ areas ++ [(last ++ String "+" dur)%string; ts; st])%list
    with (orig :: ev :: areas ++ (last ++ String "+" dur)%string :: ts :: st :: [])%list.
  rewrite parse_parts_shape.
  2:{ eapply Forall_impl; [exact Ha|]. intros a [_ Hp]. exact Hp. }
  2:{ exact Hlp. }
  unfold shaped_outcome.
  rewrite Hos, Hes, Hts, Hss, (collected_codes_clean areas last Ha (conj Hln (conj Hld Hls))).
  apply is_empty_false in Hon, Hen, Hdn, Htn, Hsn.
  rewrite Hon, Hen, Hdn, Htn, Hsn. cbn [orb].
  rewrite bool_decide_eq_false_2 by (destruct areas; discriminate).
  rewrite Hdd, Htd, Hdl, Htl. reflexivity.
Qed.

Lemma header_round_trip_witness :
  parse_same_message
    (render_header "EAS" "RWT" ["012057"; "012081"; "012101"; "012103"] "012115"
       "0030" "2780415" "WTSP/TV") =
  Ok {| Parsed.originator := "EAS"; Parsed.event_code := "RWT";
        Parsed.fips_codes := ["012057"; "012081"; "012101"; "012103"; "012115"];
        Parsed.duration := "0030"; Parsed.timestamp := "2780415";
        Parsed.station_id := "WTSP/TV" |}.
Proof.
  assert (Hclean : forall t, t <> "" -> Py.contains_char "-" t = false ->
                             Py.strip t = t -> clean_token t)
    by (intros t H1 H2 H3; exact (conj H1 (conj H2 H3))).
  refine (header_round_trip "EAS" "RWT" ["012057"; "012081"; "012101"; "012103"]
            "012115" "0030" "2780415" "WTSP/TV" _ _ _ _ _ _ _ _ _ _ _).
  - apply Hclean; [discriminate|reflexivity|reflexivity].
  - apply Hclean; [discriminate|reflexivity|reflexivity].
  - repeat (apply List.Forall_cons;
            [split; [apply Hclean; [discriminate|reflexivity|reflexivity]|reflexivity]|]).
    apply List.Forall_nil.
  - apply Hclean; [discriminate|reflexivity|reflexivity].
  - reflexivity.
  - reflexivity.
  - reflexivity.
  - reflexivity.
  - reflexivity.
  - apply Hclean; [discriminate|reflexivity|reflexivity].
  - vm_compute. lia.
Defined.

(** A message of whitespace only is refused as empty. *)
Lemma whitespace_only_is_empty (msg : string) :
  Py.all_chars Py.isspace msg = true -> parse_same_message msg = Raise MessageEmpty.
Proof.
  intros H. unfold parse_same_message, validate_same_message_format, Py.strip.
  rewrite (lstrip_by_all _ _ H). reflexivity.
Qed.

(** X2. The parser does not see whitespace around the message: parsing a
    message and parsing the trimmed message give the same outcome. *)
Theorem parse_ignores_surrounding_space (msg : string) :
  parse_same_message (Py.strip msg) = parse_same_message msg.
Proof.
  unfold parse_same_message, validate_same_message_format. rewrite strip_idem. reflexivity.
Qed.

Lemma split_parts_no_sep (c : ascii) (s : string) :
  Forall (fun t => Py.contains_char c t = false) (Py.split c s).
Proof.
  induction s as [|d s IH]; cbn [Py.split]; [repeat constructor|].
  destruct (Ascii.eqb c d) eqn:Hd; [constructor; [reflexivity|exact IH]|].
  destruct (Py.split c s) as [|h t]; [repeat constructor; simpl; rewrite Hd; reflexivity|].
  inversion IH as [|? ? Hh Ht]; subst. constructor; [|exact Ht].
  simpl. rewrite Hd, Hh. reflexivity.
Qed.

Lemma lstrip_by_keeps_absent (p : ascii -> bool) (c : ascii) (s : string) :
  Py.contains_char c s = false -> Py.contains_char c (Py.lstrip_by p s) = false.
Proof.
  induction s as [|d s IH]; [reflexivity|]. cbn [Py.lstrip_by].
  intros H. destruct (p d); [|exact H].
  cbn [Py.contains_char] in H. apply orb_false_elim in H as [_ H]. apply IH, H.
Qed.

Lemma rstrip_by_keeps_absent (p : ascii -> bool) (c : ascii) (s : string) :
  Py.contains_char c s = false -> Py.contains_char c (Py.rstrip_by p s) = false.
Proof.
  induction s as [|d s IH]; [reflexivity|]. cbn [Py.rstrip_by Py.contains_char].
  intros H. apply orb_false_elim in H as [Hd H].
  destruct (_ && _); [reflexivity|]. cbn [Py.contains_char]. rewrite Hd, (IH H). reflexivity.
Qed.

Lemma strip_keeps_absent (c : ascii) (s : string) :
  Py.contains_char c s = false -> Py.contains_char c (Py.strip s) = false.
Proof.
  intros H. unfold Py.strip. apply rstrip_by_keeps_absent, lstrip_by_keeps_absent, H.
Qed.

Lemma append_nonempty_good (fips : list string) (part : string) :
  Forall good_code fips -> no_dash part -> no_plus part ->
  Forall good_code (append_nonempty fips (Py.strip part)).
Proof.
  intros Hf Hd Hp. unfold append_nonempty.
  destruct (Py.is_empty (Py.strip part)) eqn:He; [exact Hf|].
  apply Forall_app. split; [exact Hf|]. constructor; [|constructor].
  apply is_empty_false in He. split; [exact He|].
  split; [apply strip_keeps_absent, Hd|].
  split; [apply strip_keeps_absent, Hp|apply strip_idem].
Qed.

(** What the scan keeps: every code collected is a good code, and the
    three fields after the codes have no dash. *)
Lemma scan_parts_invariant (rest : list string) :
  Forall no_dash rest ->
  forall (fips : list string) (st : scan_state),
  Forall good_code fips ->
  scan_parts fips rest = Ok st ->
  Forall good_code (fips_codes st) /\
  (forall d, duration st = Some d -> no_dash d) /\
  (forall t, timestamp st = Some t -> no_dash t /\ Py.strip t = t) /\
  (forall t, station_id st = Some t -> no_dash t /\ Py.strip t = t).
Proof.
  induction 1 as [|part following Hpart Hfollowing IH]; intros fips st Hf; cbn [scan_parts].
  - intros [= <-]. cbn. repeat split; try exact Hf; discriminate.
  - destruct (Py.contains_char "+" part) eqn:Hplus.
    + destruct (split1_two _ _ Hplus) as (a & b & -> & Ha).
      rewrite (split1_app _ _ _ Ha).
      unfold no_dash in Hpart. rewrite contains_char_append in Hpart.
      apply orb_false_elim in Hpart as [Hda Hdb].
      cbn [Py.contains_char] in Hdb. apply orb_false_elim in Hdb as [_ Hdb].
      destruct following as [|ts [|sid beyond]]; try discriminate.
      inversion Hfollowing as [|? ? Hts Hrest]; subst.
      inversion Hrest as [|? ? Hsid _]; subst.
      intros [= <-]. cbn [fips_codes duration timestamp station_id].
      split; [apply append_nonempty_good; assumption|].
      split; [intros d [= <-]; exact Hdb|].
      split; intros t [= <-]; (split; [apply strip_keeps_absent; assumption|apply strip_idem]).
    + apply IH. apply append_nonempty_good; assumption.
Qed.

Lemma header_parts_no_dash (m : string) : Forall no_dash (header_parts m).
Proof. apply split_parts_no_sep. Qed.

(** X3. No half-valid result. Every message the parser accepts has a
    trimmed, non-empty originator, event code and station without a dash,
    at least one area code, every area code non-empty, trimmed and free of
    dash and separator, a duration of exactly four digits and a timestamp
    of exactly seven. *)
Theorem parsed_fields_invariant (msg : string) (p : Parsed.t) :
  parse_same_message msg = Ok p ->
  (Parsed.originator p <> "" /\ no_dash (Parsed.originator p)
     /\ Py.strip (Parsed.originator p) = Parsed.originator p) /\
  (Parsed.event_code p <> "" /\ no_dash (Parsed.event_code p)
     /\ Py.strip (Parsed.event_code p) = Parsed.event_code p) /\
  (Parsed.fips_codes p <> [] /\ Forall good_code (Parsed.fips_codes p)) /\
  (Py.isdigit (Parsed.duration p) = true /\ Py.len (Parsed.duration p) = 4%nat) /\
  (Py.isdigit (Parsed.timestamp p) = true /\ Py.len (Parsed.timestamp p) = 7%nat) /\
  (Parsed.station_id p <> "" /\ no_dash (Parsed.station_id p)
     /\ Py.strip (Parsed.station_id p) = Parsed.station_id p).
Proof.
  intros Hp. destruct (parse_ok_formats msg p Hp) as (Hd & Hdl & Ht & Htl).
  revert Hp. unfold parse_same_message.
  destruct (validate_same_message_format msg) as [m|]; [|discriminate].
  cbn [mbind result_bind]. unfold parse_parts.
  pose proof (header_parts_no_dash m) as Hparts.
  destruct (header_parts m) as [|p0 [|p1 rest]]; try discriminate.
  destruct (length _ <? 5)%nat; [discriminate|].
  cbn [nth drop]. rewrite drop_0.
  inversion Hparts as [|? ? H0 Hparts1]; subst.
  inversion Hparts1 as [|? ? H1 Hrest]; subst.
  destruct (Py.is_empty (Py.strip p0)) eqn:Ho; [discriminate|].
  destruct (Py.is_empty (Py.strip p1)) eqn:He; [discriminate|].
  cbn [orb].
  destruct (scan_parts [] rest) as [st|] eqn:Hscan; [|discriminate].
  cbn [mbind result_bind].
  destruct (scan_parts_invariant rest Hrest [] st (List.Forall_nil _) Hscan)
    as (Hfips & _ & Hts & Hsid).
  destruct (negb _) eqn:Hall; [discriminate|].
  case_bool_decide as Hne; [discriminate|].
  destruct (negb (Py.isdigit _) || _); [discriminate|].
  destruct (negb (Py.isdigit _) || _); [discriminate|].
  intros [= <-]. cbn [Parsed.originator Parsed.event_code Parsed.fips_codes
                       Parsed.duration Parsed.timestamp Parsed.station_id] in *.
  apply is_empty_false in Ho, He.
  apply negb_false_iff in Hall.
  repeat (apply andb_prop in Hall as [Hall ?]).
  split; [split; [exact Ho|split; [apply strip_keeps_absent, H0|apply strip_idem]]|].
  split; [split; [exact He|split; [apply strip_keeps_absent, H1|apply strip_idem]]|].
  split; [split; [exact Hne|exact Hfips]|].
  split; [split; [exact Hd|exact Hdl]|].
  split; [split; [exact Ht|exact Htl]|].
  destruct (station_id st) as [sid|]; [|discriminate].
  destruct (Hsid sid eq_refl) as [Hsd Hss]. cbn [default].
  split; [|split; assumption].
  apply is_empty_false. apply negb_true_iff. assumption.
Qed.

Lemma parsed_fields_invariant_witness :
  let p := {| Parsed.originator := "EAS"; Parsed.event_code := "RWT";
              Parsed.fips_codes := ["012057"; "012081"; "012101"; "012103"; "012115"];
              Parsed.duration := "0030"; Parsed.timestamp := "2780415";
              Parsed.station_id := "WTSP/TV" |} in
  (Parsed.originator p <> "" /\ no_dash (Parsed.originator p)
     /\ Py.strip (Parsed.originator p) = Parsed.originator p) /\
  (Parsed.event_code p <> "" /\ no_dash (Parsed.event_code p)
     /\ Py.strip (Parsed.event_code p) = Parsed.event_code p) /\
  (Parsed.fips_codes p <> [] /\ Forall good_code (Parsed.fips_codes p)) /\
  (Py.isdigit (Parsed.duration p) = true /\ Py.len (Parsed.duration p) = 4%nat) /\
  (Py.isdigit (Parsed.timestamp p) = true /\ Py.len (Parsed.timestamp p) = 7%nat) /\
  (Parsed.station_id p <> "" /\ no_dash (Parsed.station_id p)
     /\ Py.strip (Parsed.station_id p) = Parsed.station_id p).
Proof.
  refine (parsed_fields_invariant TEST_MESSAGE _ _). vm_compute. reflexivity.
Defined.

Lemma scan_parts_no_plus (rest : list string) :
  Forall no_plus rest ->
  forall fips, exists codes,
    scan_parts fips rest =
    Ok {| fips_codes := codes; duration := None; timestamp := None; station_id := None |}.
Proof.
  induction 1 as [|part rest Hp _ IH]; intros fips; cbn [scan_parts].
  - eexists; reflexivity.
  - rewrite Hp. apply IH.
Qed.

(** X4. A header without the separator. When no token from the third on
    contains '+', a header that passes the checks before the scan is
    refused for missing required fields, however many tokens it has. *)
Theorem no_separator_is_missing_fields (msg m : string) :
  validate_same_message_format msg = Ok m ->
  (5 <= length (header_parts m))%nat ->
  Py.strip (nth 0 (header_parts m) "") <> "" ->
  Py.strip (nth 1 (header_parts m) "") <> "" ->
  Forall no_plus (drop 2 (header_parts m)) ->
  parse_same_message msg = Raise MissingRequiredFields.
Proof.
  intros Hv Hlen Ho He Hnp. unfold parse_same_message. rewrite Hv.
  cbn [mbind result_bind]. unfold parse_parts.
  apply Nat.ltb_ge in Hlen. rewrite Hlen.
  apply is_empty_false in Ho, He. rewrite Ho, He. cbn [orb].
  destruct (scan_parts_no_plus _ Hnp []) as [codes ->].
  cbn [mbind result_bind duration truthy andb negb]. rewrite andb_false_r. reflexivity.
Qed.

Lemma no_separator_is_missing_fields_witness :
  parse_same_message "ZCZC-EAS-RWT-012057-012081-0030-2780415-WTSP/TV-"
  = Raise MissingRequiredFields.
Proof.
  refine (no_separator_is_missing_fields
            "ZCZC-EAS-RWT-012057-012081-0030-2780415-WTSP/TV-"
            "ZCZC-EAS-RWT-012057-012081-0030-2780415-WTSP/TV-" _ _ _ _ _).
  - vm_compute. reflexivity.
  - vm_compute. lia.
  - vm_compute. discriminate.
  - vm_compute. discriminate.
  - vm_compute. repeat constructor.
Defined.

(** ** Enrichment *)

Lemma decimal_digit_value (c : ascii) :
  Py.isdecimal_char c = true -> 0 <= Py.digit_value c <= 9.
Proof.
  unfold Py.isdecimal_char, Py.digit_value. intros H.
  apply andb_prop in H as [H1 H2]. apply N.leb_le in H1, H2. lia.
Qed.

Lemma decimal_is_digit (c : ascii) :
  Py.isdecimal_char c = true -> Py.isdigit_char c = true.
Proof. unfold Py.isdigit_char. intros ->. reflexivity. Qed.

(** [int] on a string of digits: the decimal value when every digit is a
    decimal digit, ValueError otherwise. *)
Lemma int_digits_decimal (s : string) (acc : Z) :
  Py.all_chars Py.isdecimal_char s = true -> 0 <= acc ->
  exists v, Py.int_digits acc false s = Some v /\
            acc * 10 ^ Z.of_nat (Py.len s) <= v < (acc + 1) * 10 ^ Z.of_nat (Py.len s).
Proof.
  revert acc. induction s as [|c s IH]; intros acc H Hacc.
  - exists acc. split; [reflexivity|]. cbn. lia.
  - cbn [Py.all_chars] in H. apply andb_prop in H as [Hc H].
    cbn [Py.int_digits]. rewrite Hc.
    pose proof (decimal_digit_value c Hc) as Hv.
    destruct (IH (10 * acc + Py.digit_value c) H ltac:(lia)) as (v & -> & Hb).
    exists v. split; [reflexivity|].
    change (Py.len (String c s)) with (S (Py.len s)).
    rewrite Nat2Z.inj_succ, Z.pow_succ_r by lia.
    assert (0 < 10 ^ Z.of_nat (Py.len s)) by (apply Z.pow_pos_nonneg; lia). nia.
Qed.

Lemma int_digits_not_decimal (s : string) (acc : Z) :
  Py.all_chars Py.isdigit_char s = true ->
  Py.all_chars Py.isdecimal_char s = false ->
  Py.int_digits acc false s = None.
Proof.
  revert acc. induction s as [|c s IH]; intros acc Hd Hn; [discriminate|].
  cbn [Py.all_chars] in Hd, Hn. apply andb_prop in Hd as [Hc Hd].
  cbn [Py.int_digits]. destruct (Py.isdecimal_char c).
  - apply IH; assumption.
  - destruct (digit_char_facts c Hc) as (_ & _ & _ & ->). reflexivity.
Qed.

Lemma int_of_digit_string (s : string) :
  Py.isdigit s = true ->
  if Py.all_chars Py.isdecimal_char s
  then exists v, Py.int s = Some v /\ 0 <= v < 10 ^ Z.of_nat (Py.len s)
  else Py.int s = None.
Proof.
  intros Hd. destruct (isdigit_clean s Hd) as (Hne & Hs & _).
  unfold Py.isdigit in Hd. apply andb_prop in Hd as [_ Hd].
  unfold Py.int. rewrite Hs. destruct s as [|c s]; [contradiction|].
  cbn [Py.all_chars] in Hd |- *. apply andb_prop in Hd as [Hc Hd].
  destruct (digit_char_facts c Hc) as (_ & -> & -> & _).
  unfold Py.int_unsigned. destruct (Py.isdecimal_char c) eqn:Hdec; cbn [andb].
  - destruct (Py.all_chars Py.isdecimal_char s) eqn:Hall.
    + pose proof (decimal_digit_value c Hdec) as Hv.
      destruct (int_digits_decimal s (Py.digit_value c) Hall ltac:(lia)) as (v & -> & Hb).
      exists v. split; [reflexivity|].
      change (Py.len (String c s)) with (S (Py.len s)).
      rewrite Nat2Z.inj_succ, Z.pow_succ_r by lia.
      assert (0 < 10 ^ Z.of_nat (Py.len s)) by (apply Z.pow_pos_nonneg; lia). nia.
    + apply int_digits_not_decimal; assumption.
  - reflexivity.
Qed.

(** X5. Enrichment of a parsed message. When the four digits of the
    duration are decimal digits the enrichment succeeds, the duration in
    minutes lies between 0 and 9999 and the end time, when there is one,
    is not before the issue time. When a digit is one of the superscript
    digits, which the parser accepts, the enrichment raises the
    ValueError of [int] on the duration. *)
Theorem enrichment_of_parsed (env : environment) (msg : string) (p : Parsed.t) :
  parse_same_message msg = Ok p ->
  if Py.all_chars Py.isdecimal_char (Parsed.duration p)
  then exists alert,
         create_alert_data env p msg = Ok alert /\
         0 <= Alert.duration_minutes alert <= 9999 /\
         Alert.end_time alert =
           match Alert.timestamp_utc alert with
           | UTCText issued => Some (issued + Alert.duration_minutes alert)
           | _ => None
           end
  else create_alert_data env p msg = Raise (IntValueError (Parsed.duration p)).
Proof.
  intros Hp. destruct (parse_ok_formats msg p Hp) as (Hd & Hl & _).
  pose proof (int_of_digit_string _ Hd) as Hint.
  unfold create_alert_data, int_of.
  destruct (Py.all_chars Py.isdecimal_char (Parsed.duration p)).
  - destruct Hint as (v & -> & Hv). rewrite Hl in Hv. cbn [mbind result_bind].
    eexists. split; [reflexivity|].
    cbn [Alert.duration_minutes Alert.end_time Alert.timestamp_utc].
    split; [change (10 ^ Z.of_nat 4) with 10000 in Hv; lia|].
    destruct (format_julian_timestamp env (Parsed.timestamp p)); reflexivity.
  - rewrite Hint. reflexivity.
Qed.

Lemma enrichment_of_parsed_witness :
  exists alert,
    create_alert_data bare_environment ninety_minute_parsed ninety_minute_header = Ok alert /\
    0 <= Alert.duration_minutes alert <= 9999 /\
    Alert.end_time alert =
      match Alert.timestamp_utc alert with
      | UTCText issued => Some (issued + Alert.duration_minutes alert)
      | _ => None
      end.
Proof.
  refine (enrichment_of_parsed bare_environment ninety_minute_header ninety_minute_parsed _).
  vm_compute. reflexivity.
Defined.

(** A duration of four superscript twos passes the parser and stops the
    enrichment. *)
Example superscript_duration :
  parse_same_message superscript_header = Ok superscript_parsed /\
  create_alert_data bare_environment superscript_parsed superscript_header
    = Raise (IntValueError (Parsed.duration superscript_parsed)).
Proof. vm_compute. split; reflexivity. Qed.

(** X6. A formatted issue time lies in the current year. When
    [format_julian_timestamp] produces a UTC time, the token has seven
    digits, none of day, hour and minute is out of range, and the instant
    is at or after the start of the year and less than 366 days later. *)
Theorem formatted_time_in_year (env : environment) (ts : string) (instant : Z) :
  format_julian_timestamp env ts = UTCText instant ->
  Py.isdigit ts = true /\ Py.len ts = 7%nat /\ out_of_range ts = false /\
  year_start env <= instant < year_start env + 366 * 1440.
Proof.
  unfold format_julian_timestamp, julian_instant, out_of_range, int_of.
  destruct (Py.is_empty ts); [discriminate|].
  destruct (Py.isdigit ts); [|discriminate].
  destruct (Py.len ts =? 7)%nat eqn:Hl; [|discriminate].
  cbn [negb orb].
  destruct (Py.int (Py.slice_to 3 ts)) as [jjj|]; [|discriminate].
  destruct (Py.int (Py.slice 3 5 ts)) as [hh|]; [|discriminate].
  destruct (Py.int (Py.slice_from 5 ts)) as [mm|]; [|discriminate].
  cbn [mbind result_bind].
  destruct ((1 <=? jjj) && (jjj <=? 366)) eqn:Hj; [|discriminate].
  destruct ((0 <=? hh) && (hh <=? 23)) eqn:Hh; [|discriminate].
  destruct ((0 <=? mm) && (mm <=? 59)) eqn:Hm; [|discriminate].
  cbn [negb orb]. intros [= <-].
  apply Nat.eqb_eq in Hl.
  apply andb_prop in Hj as [? ?]. apply andb_prop in Hh as [? ?].
  apply andb_prop in Hm as [? ?].
  repeat split; try assumption; lia.
Qed.

Lemma formatted_time_in_year_witness :
  Py.isdigit "2780415" = true /\ Py.len "2780415" = 7%nat /\
  out_of_range "2780415" = false /\
  year_start bare_environment <= 399135 < year_start bare_environment + 366 * 1440.
Proof.
  refine (formatted_time_in_year bare_environment "2780415" 399135 _).
  vm_compute. reflexivity.
Defined.

(** ** The pipeline: what a message can change *)

(** A message that went through left the world of [decode_success]. *)
Lemma decode_ok_inv (env : environment) (msg : string) (w w' : world) :
  decode_same_message env msg w = (Ok tt, w') ->
  exists p alert store,
    parse_same_message msg = Ok p /\
    create_alert_data env p msg = Ok alert /\
    insert_alert (alert_row alert) (db w) = Ok store /\
    snapshot_writable w = true /\
    w' = decoded_world env alert store w.
Proof.
  unfold decode_same_message, log_alert_to_db, get_db_connection, write_last_message,
    write_and_rename.
  unfold_action.
  destruct (parse_same_message msg) as [p|e] eqn:Hp; [|discriminate].
  destruct (create_alert_data env p msg) as [alert|e] eqn:Ha; [|discriminate].
  cbn [db add_log set_db].
  destruct (insert_alert (alert_row alert) (db w)) as [store|e] eqn:Hi; [|discriminate].
  cbn [snapshot_writable add_log set_db].
  destruct (snapshot_writable w) eqn:Hw; [|discriminate].
  intros [= <-]. exists p, alert, store. repeat split; assumption.
Qed.

(** X7. Publication follows storage. When decoding succeeds, the message
    was parsed and enriched, its row is the one new row of the store and
    the snapshot is the one of that alert. When decoding raises, the
    snapshot is the one from before, and the store is as before unless the
    failure is the write of the snapshot, in which case the message was
    parsed and enriched and the row of that alert has been stored. *)
Theorem publication_follows_storage (env : environment) (msg : string) (w : world) :
  let r := decode_same_message env msg w in
  match r.1 with
  | Ok _ =>
      exists p alert,
        parse_same_message msg = Ok p /\
        create_alert_data env p msg = Ok alert /\
        alerts_rows (db r.2) = (alerts_rows (db w) ++ [alert_row alert])%list /\
        last_message r.2 = Some (message_data env alert)
  | Raise e =>
      last_message r.2 = last_message w /\
      (alerts_rows (db r.2) = alerts_rows (db w) \/
       e = OSErrorOnWrite /\
       exists p alert,
         parse_same_message msg = Ok p /\
         create_alert_data env p msg = Ok alert /\
         alerts_rows (db r.2) = (alerts_rows (db w) ++ [alert_row alert])%list)
  end.
Proof.
  unfold decode_same_message, log_alert_to_db, get_db_connection, write_last_message,
    write_and_rename.
  unfold_action.
  destruct (parse_same_message msg) as [p|e] eqn:Hp; [|cbn; auto].
  destruct (create_alert_data env p msg) as [alert|e] eqn:Ha; [|cbn; auto].
  cbn [db add_log set_db]. unfold insert_alert.
  destruct (alerts_columns (db w)) as [cols|]; [|cbn; auto].
  destruct (filter _ INSERT_COLUMNS); [|cbn; auto].
  destruct (in_int64 _); [|cbn; auto].
  cbn [snapshot_writable add_log set_db].
  destruct (snapshot_writable w); cbn.
  - exists p, alert. repeat split. exact Ha.
  - split; [reflexivity|]. right. split; [reflexivity|].
    exists p, alert. repeat split. exact Ha.
Qed.

(** X8. The stored row is faithful to the message. After a successful
    decoding the last row of the store holds the message as it was given,
    the event code, the timestamp token and the station of the parsed
    message, and its area codes joined by commas; the originator and the
    event are the raw codes when the reference tables have no entry for
    them; and the snapshot shows the same event, event code, originator,
    station and duration as the row. *)
Theorem stored_row_is_faithful (env : environment) (msg : string) (w w' : world) :
  decode_same_message env msg w = (Ok tt, w') ->
  exists p row snapshot,
    parse_same_message msg = Ok p /\
    last (alerts_rows (db w')) = Some row /\
    last_message w' = Some snapshot /\
    DbRow.raw_message row = msg /\
    DbRow.event_code row = Parsed.event_code p /\
    DbRow.issued_code row = Parsed.timestamp p /\
    DbRow.source row = Parsed.station_id p /\
    DbRow.fips_codes row = Py.join "," (Parsed.fips_codes p) /\
    (originators env !! Parsed.originator p = None ->
     DbRow.originator row = Parsed.originator p) /\
    (events env !! Parsed.event_code p = None ->
     DbRow.event row = Parsed.event_code p) /\
    Snapshot.event snapshot = DbRow.event row /\
    Snapshot.event_code snapshot = DbRow.event_code row /\
    Snapshot.originator snapshot = DbRow.originator row /\
    Snapshot.source snapshot = DbRow.source row /\
    Snapshot.duration_minutes snapshot = DbRow.duration_minutes row.
Proof.
  intros H. destruct (decode_ok_inv env msg w w' H) as (p & alert & store & Hp & Ha & Hi & _ & ->).
  exists p, (alert_row alert), (message_data env alert).
  split; [exact Hp|]. split.
  { unfold insert_alert in Hi. destruct (alerts_columns (db w)); [|discriminate].
    destruct (filter _ INSERT_COLUMNS); [|discriminate].
    destruct (in_int64 _); [|discriminate]. injection Hi as <-.
    cbn. apply last_snoc. }
  split; [reflexivity|].
  unfold create_alert_data in Ha.
  destruct (int_of (Parsed.duration p)) as [n|]; [|discriminate].
  cbn [mbind result_bind] in Ha. injection Ha as <-. cbn.
  repeat split; unfold get_or; intros ->; reflexivity.
Qed.

Lemma stored_row_is_faithful_witness :
  exists p row snapshot,
    parse_same_message TEST_MESSAGE = Ok p /\
    last (alerts_rows
            (db (decode_same_message bare_environment TEST_MESSAGE ready_world).2)) = Some row /\
    last_message (decode_same_message bare_environment TEST_MESSAGE ready_world).2
      = Some snapshot /\
    DbRow.raw_message row = TEST_MESSAGE /\
    DbRow.event_code row = Parsed.event_code p /\
    DbRow.issued_code row = Parsed.timestamp p /\
    DbRow.source row = Parsed.station_id p /\
    DbRow.fips_codes row = Py.join "," (Parsed.fips_codes p) /\
    (originators bare_environment !! Parsed.originator p = None ->
     DbRow.originator row = Parsed.originator p) /\
    (events bare_environment !! Parsed.event_code p = None ->
     DbRow.event row = Parsed.event_code p) /\
    Snapshot.event snapshot = DbRow.event row /\
    Snapshot.event_code snapshot = DbRow.event_code row /\
    Snapshot.originator snapshot = DbRow.originator row /\
    Snapshot.source snapshot = DbRow.source row /\
    Snapshot.duration_minutes snapshot = DbRow.duration_minutes row.
Proof.
  refine (stored_row_is_faithful bare_environment TEST_MESSAGE ready_world _ _).
  vm_compute. reflexivity.
Defined.

(** ** The stream: what it keeps *)

Lemma only_appends_refl (w : world) : only_appends 0 w w.
Proof.
  unfold only_appends. do 5 (split; [reflexivity|]).
  exists []. rewrite app_nil_r. split; [reflexivity|cbn; lia].
Qed.

Lemma only_appends_log (r : log_record) (w : world) : only_appends 0 w (add_log r w).
Proof. exact (only_appends_refl w). Qed.

Lemma only_appends_trans (n m : nat) (w w1 w2 : world) :
  only_appends n w w1 -> only_appends m w1 w2 -> only_appends (n + m) w w2.
Proof.
  intros (Hv & Hc & Hi & Hb & Hs & a & Ha & Hn) (Hv' & Hc' & Hi' & Hb' & Hs' & a' & Ha' & Hm).
  unfold only_appends. rewrite Hv', Hc', Hi', Hb', Hs', Ha', Ha.
  do 5 (split; [assumption|]).
  exists (a ++ a')%list. rewrite app_assoc, length_app. split; [reflexivity|lia].
Qed.

Lemma only_appends_le (n m : nat) (w w' : world) :
  (n <= m)%nat -> only_appends n w w' -> only_appends m w w'.
Proof.
  intros Hle (Hv & Hc & Hi & Hb & Hs & a & Ha & Hn). unfold only_appends.
  do 5 (split; [assumption|]). exists a. split; [exact Ha|lia].
Qed.

(** One message adds at most one row, which carries the message as it
    was given, and touches nothing else of the store. *)
Lemma decode_only_appends (env : environment) (msg : string) (w : world) :
  let w' := (decode_same_message env msg w).2 in
  only_appends 1 w w' /\
  (alerts_rows (db w') = alerts_rows (db w) \/
   exists row, alerts_rows (db w') = (alerts_rows (db w) ++ [row])%list /\
               DbRow.raw_message row = msg).
Proof.
  unfold decode_same_message, log_alert_to_db, get_db_connection, write_last_message,
    write_and_rename.
  unfold_action.
  assert (Hsame : forall r, only_appends 1 w (add_log r w))
    by (intros r; apply (only_appends_le 0); [lia|apply only_appends_log]).
  destruct (parse_same_message msg) as [p|e]; [|cbn [snd]; auto].
  destruct (create_alert_data env p msg) as [alert|e] eqn:Ha; [|cbn [snd]; auto].
  assert (Hraw : DbRow.raw_message (alert_row alert) = msg).
  { unfold create_alert_data in Ha. destruct (int_of _); [|discriminate].
    cbn [mbind result_bind] in Ha. injection Ha as <-. reflexivity. }
  cbn [db add_log set_db]. unfold insert_alert.
  destruct (alerts_columns (db w)) as [cols|] eqn:Hc.
  2:{ cbn [snd]. split; [|left; reflexivity].
      apply (only_appends_le 0); [lia|exact (only_appends_refl w)]. }
  destruct (filter _ INSERT_COLUMNS).
  2:{ cbn [snd]. split; [|left; reflexivity].
      apply (only_appends_le 0); [lia|exact (only_appends_refl w)]. }
  destruct (in_int64 _).
  2:{ cbn [snd]. split; [|left; reflexivity].
      apply (only_appends_le 0); [lia|exact (only_appends_refl w)]. }
  cbn [snapshot_writable add_log set_db].
  destruct (snapshot_writable w) eqn:Hw; cbn [snd];
    (split; [|right; eexists; split; [reflexivity|exact Hraw]]);
    unfold only_appends; cbn; rewrite ?Hc, ?Hw;
    (split; [reflexivity|]); (split; [reflexivity|]); (split; [reflexivity|]);
    (split; [reflexivity|]); (split; [reflexivity|]);
    exists [alert_row alert]; (split; [reflexivity|cbn; lia]).
Qed.

Lemma decode_guarded_world (env : environment) (buffer : string) (w : world) :
  (decode_guarded env buffer w).2 = (decode_same_message env buffer w).2 \/
  exists e, (decode_guarded env buffer w).2
            = add_log (LogErrorDecoding buffer e) (decode_same_message env buffer w).2.
Proof.
  unfold decode_guarded, try_except, logger.
  destruct (decode_same_message env buffer w) as [[[]|e] w']; cbn [snd]; eauto.
Qed.

(** X9. The stream only appends. Whatever the lines, processing them
    leaves the schema of the store, its version table, its indexes and its
    backup untouched, keeps the rows already stored in their order, and
    adds at most one row per line. *)
Theorem stream_only_appends (env : environment) (lines : list string) :
  forall (buffer : string) (w : world),
    only_appends (length lines) w (stream_loop env buffer lines w).2.
Proof.
  induction lines as [|line rest IH]; intros buffer w; [apply only_appends_refl|].
  cbn [stream_loop length]. unfold mbind, action_bind.
  assert (Hstep : only_appends 1 w (stream_step env buffer line w).2).
  { unfold stream_step.
    destruct (negb _); [apply (only_appends_le 0); [lia|apply only_appends_refl]|].
    destruct (Py.endswith_char _ _);
      [|apply (only_appends_le 0); [lia|apply only_appends_refl]].
    unfold mbind, action_bind, mret, action_ret.
    pose proof (decode_guarded_ok env (buffer ++ Py.strip line) w) as Hok.
    pose proof (decode_guarded_world env (buffer ++ Py.strip line) w) as Hw.
    destruct (decode_guarded env (buffer ++ Py.strip line) w) as [r w'].
    cbn [fst snd] in *. subst r.
    destruct (decode_only_appends env (buffer ++ Py.strip line) w) as [Hd _].
    destruct Hw as [-> | [e ->]]; exact Hd. }
  destruct (stream_step_total env buffer line w) as [b Hb].
  destruct (stream_step env buffer line w) as [r w1]. cbn [fst snd] in *. subst r.
  change (S (length rest)) with (1 + length rest)%nat.
  eapply only_appends_trans; [exact Hstep|apply IH].
Qed.


Lemma startswith_app (p a b : string) :
  Py.startswith p a = true -> Py.startswith p (a ++ b) = true.
Proof.
  unfold Py.startswith. revert a. induction p as [|c p IH]; intros a.
  - intros _. destruct (a ++ b); reflexivity.
  - destruct a as [|d a]; [discriminate|]. simpl.
    destruct (ascii_dec c d); [apply IH|discriminate].
Qed.

Lemma buffer_ok_append (buffer line : string) :
  buffer_ok buffer -> Py.startswith START_MARKER line = true ->
  Py.startswith START_MARKER (buffer ++ line) = true.
Proof.
  intros [-> | Hb] Hl; [exact Hl|]. apply startswith_app, Hb.
Qed.

Lemma framed_append (buffer line : string) :
  buffer_ok buffer -> framed line -> framed (buffer ++ line).
Proof.
  intros Hb [Hs He]. split; [apply buffer_ok_append; assumption|].
  unfold Py.endswith_char in *. rewrite last_char_append; [exact He|].
  intros ->. discriminate.
Qed.

(** One iteration keeps the buffer empty or started by the marker, and a
    row it stores carries a framed text. *)
Lemma stream_step_framed (env : environment) (buffer line : string) (w : world) :
  buffer_ok buffer ->
  exists buffer' added,
    (stream_step env buffer line w).1 = Ok buffer' /\
    buffer_ok buffer' /\
    alerts_rows (db (stream_step env buffer line w).2) = (alerts_rows (db w) ++ added)%list /\
    Forall (fun row => framed (DbRow.raw_message row)) added.
Proof.
  intros Hb. unfold stream_step.
  destruct (Py.startswith START_MARKER (Py.strip line)) eqn:Hs; cbn [negb].
  2:{ exists buffer, []. rewrite app_nil_r. repeat split; [exact Hb|constructor]. }
  destruct (Py.endswith_char "-" (Py.strip line)) eqn:He.
  2:{ exists (buffer ++ Py.strip line), []. rewrite app_nil_r.
      repeat split; [right; apply buffer_ok_append; assumption|constructor]. }
  unfold mbind, action_bind, mret, action_ret.
  pose proof (decode_guarded_ok env (buffer ++ Py.strip line) w) as Hok.
  pose proof (decode_guarded_world env (buffer ++ Py.strip line) w) as Hw.
  destruct (decode_guarded env (buffer ++ Py.strip line) w) as [r w'].
  cbn [fst snd] in *. subst r. cbn [fst snd].
  assert (Hrows : alerts_rows (db w')
                  = alerts_rows (db (decode_same_message env (buffer ++ Py.strip line) w).2)).
  { destruct Hw as [-> | [e ->]]; reflexivity. }
  destruct (decode_only_appends env (buffer ++ Py.strip line) w) as [_ [Hsame | (row & Hrow & Hraw)]].
  - exists "", []. rewrite app_nil_r, Hrows.
    split; [reflexivity|]. split; [left; reflexivity|]. split; [exact Hsame|constructor].
  - exists "", [row]. rewrite Hrows.
    split; [reflexivity|]. split; [left; reflexivity|]. split; [exact Hrow|].
    constructor; [|constructor]. rewrite Hraw. apply framed_append; [exact Hb|].
    split; assumption.
Qed.

(** X11. What the stream stores is framed. Started with an empty buffer,
    the loop ends with a buffer that is empty or starts with the start
    marker, and every row it added to the store carries a raw message that
    starts with the start marker and ends with a dash. *)
Theorem stream_stores_framed_messages (env : environment) (lines : list string) (w : world) :
  exists buffer added,
    (stream_loop env "" lines w).1 = Ok buffer /\
    buffer_ok buffer /\
    alerts_rows (db (stream_loop env "" lines w).2) = (alerts_rows (db w) ++ added)%list /\
    Forall (fun row => framed (DbRow.raw_message row)) added.
Proof.
  assert (H : forall buffer0 w0, buffer_ok buffer0 ->
            exists buffer added,
              (stream_loop env buffer0 lines w0).1 = Ok buffer /\
              buffer_ok buffer /\
              alerts_rows (db (stream_loop env buffer0 lines w0).2)
                = (alerts_rows (db w0) ++ added)%list /\
              Forall (fun row => framed (DbRow.raw_message row)) added).
  { induction lines as [|line rest IH]; intros buffer0 w0 Hb.
    - exists buffer0, []. rewrite app_nil_r. repeat split; [exact Hb|constructor].
    - cbn [stream_loop]. unfold mbind, action_bind.
      destruct (stream_step_framed env buffer0 line w0 Hb) as (b1 & a1 & Hr & Hb1 & Hrows & Hf).
      destruct (stream_step env buffer0 line w0) as [r w1]. cbn [fst snd] in *. subst r.
      destruct (IH b1 w1 Hb1) as (b2 & a2 & Hr2 & Hb2 & Hrows2 & Hf2).
      exists b2, (a1 ++ a2)%list. rewrite Hrows2, Hrows, app_assoc.
      split; [exact Hr2|]. split; [exact Hb2|]. split; [reflexivity|].
      apply Forall_app. split; assumption. }
  apply H. left. reflexivity.
Qed.

(** ** The migration: what it keeps *)

Section Respects.

Variable R : world -> world -> Prop.
Hypothesis R_refl : forall w, R w w.
Hypothesis R_trans : forall w1 w2 w3, R w1 w2 -> R w2 w3 -> R w1 w3.
Hypothesis R_log : forall r w, R w (add_log r w).

Lemma respects_ret {A : Type} (a : A) : respects R (mret a : action A).
Proof. intros w. apply R_refl. Qed.

Lemma respects_raise {A : Type} (e : exn) : respects R (raise e : action A).
Proof. intros w. apply R_refl. Qed.

Lemma respects_logger (r : log_record) : respects R (logger r).
Proof. intros w. apply R_log. Qed.

Lemma respects_read_db : respects R read_db.
Proof. intros w. apply R_refl. Qed.

Lemma respects_bind {A B : Type} (m : action A) (k : A -> action B) :
  respects R m -> (forall a, respects R (k a)) -> respects R (m ≫= k).
Proof.
  intros Hm Hk w. unfold mbind, action_bind. specialize (Hm w).
  destruct (m w) as [[a|e] w1]; cbn [snd] in *; [|exact Hm].
  eapply R_trans; [exact Hm|apply Hk].
Qed.

Lemma respects_try_except {A : Type} (m : action A) (h : exn -> action A) :
  respects R m -> (forall e, respects R (h e)) -> respects R (try_except m h).
Proof.
  intros Hm Hh w. unfold try_except. specialize (Hm w).
  destruct (m w) as [[a|e] w1]; cbn [snd] in *; [exact Hm|].
  eapply R_trans; [exact Hm|apply Hh].
Qed.

Lemma respects_connection {A : Type} (body : action A) :
  respects R body -> respects R (Migrations.get_db_connection body).
Proof.
  intros H. apply respects_try_except; [exact H|].
  intros e. apply respects_bind; [apply respects_logger|]. intros _. apply respects_raise.
Qed.

Lemma respects_execute (stmt : database -> result database) :
  (forall w d, stmt (db w) = Ok d -> R w (set_db d w)) -> respects R (execute stmt).
Proof.
  intros H w. unfold execute. destruct (stmt (db w)) as [d|e] eqn:Hs; cbn [snd].
  - apply H, Hs.
  - apply R_refl.
Qed.

Hypothesis R_create : forall w d, create_alerts_if_not_exists (db w) = Ok d -> R w (set_db d w).
Hypothesis R_alter : forall name c w d,
  alter_add_column name c (db w) = Ok d -> R w (set_db d w).
Hypothesis R_index : forall name column w d,
  create_index_if_not_exists name column (db w) = Ok d -> R w (set_db d w).
Hypothesis R_version : forall v w d, insert_schema_version v (db w) = Ok d -> R w (set_db d w).
Hypothesis R_version_table : forall w d,
  create_schema_version_if_not_exists (db w) = Ok d -> R w (set_db d w).

Lemma respects_v0_to_v1 : respects R Migrations.migration_v0_to_v1.
Proof.
  apply respects_bind; [apply respects_logger|]. intros _.
  apply respects_connection, respects_execute, R_create.
Qed.

Lemma respects_v1_to_v2 : respects R Migrations.migration_v1_to_v2.
Proof.
  apply respects_bind; [apply respects_logger|]. intros _.
  apply respects_connection.
  apply respects_bind; [apply respects_read_db|]. intros d.
  repeat (apply respects_bind; [|intros _]);
    try (apply respects_execute, R_index);
    try apply respects_logger.
  - destruct (bool_decide _); [|apply respects_ret].
    apply respects_bind; [apply respects_execute, R_alter|].
    intros _. apply respects_logger.
  - destruct (bool_decide _); [|apply respects_ret].
    apply respects_bind; [apply respects_execute, R_alter|].
    intros _. apply respects_logger.
Qed.

Lemma respects_validate_schema : respects R Migrations.validate_schema.
Proof.
  apply respects_connection.
  apply respects_bind; [apply respects_read_db|]. intros d. cbv zeta.
  destruct (bool_decide _).
  - apply respects_bind; [apply respects_logger|]. intros _. apply respects_ret.
  - apply respects_bind; [|intros _].
    + destruct (bool_decide _); [apply respects_logger|apply respects_ret].
    + apply respects_bind; [apply respects_logger|]. intros _. apply respects_ret.
Qed.

Lemma respects_set_schema_version (v : Z) : respects R (Migrations.set_schema_version v).
Proof.
  apply respects_connection.
  apply respects_bind; [apply respects_execute, R_version_table|].
  intros _. apply respects_execute, R_version.
Qed.

Lemma respects_run_steps (steps : list (Z * Z * action unit)) :
  Forall (fun s => respects R s.2) steps ->
  forall current_version, respects R (Migrations.run_steps current_version steps).
Proof.
  induction 1 as [|[[from_version to_version] f] steps Hf _ IH]; intros current_version.
  - apply respects_ret.
  - cbn [Migrations.run_steps]. destruct (current_version =? from_version); [|apply IH].
    apply respects_bind; [exact Hf|]. intros _.
    apply respects_bind; [apply respects_set_schema_version|]. intros _.
    apply respects_bind; [apply respects_logger|]. intros _. apply IH.
Qed.

Hypothesis R_backup : forall w, R w (set_db_backup (Some (db w)) w).

Lemma respects_run_migrations : respects R Migrations.run_migrations.
Proof.
  unfold Migrations.run_migrations.
  apply respects_bind.
  { apply respects_try_except; [|intros _; apply respects_ret].
    apply respects_connection. apply respects_bind; [apply respects_read_db|].
    intros d. apply respects_ret. }
  intros current_version.
  apply respects_bind; [apply respects_logger|]. intros _.
  apply respects_bind; [apply respects_logger|]. intros _.
  destruct (current_version =? CURRENT_SCHEMA_VERSION).
  { apply respects_bind; [apply respects_logger|]. intros _. apply respects_ret. }
  destruct (CURRENT_SCHEMA_VERSION <? current_version).
  { apply respects_bind; [apply respects_logger|]. intros _. apply respects_ret. }
  apply respects_bind.
  { intros w. unfold Migrations.backup_database. cbn [snd].
    eapply R_trans; [apply R_backup|apply R_log]. }
  intros backup_path.
  apply respects_bind.
  { destruct backup_path; [apply respects_logger|apply respects_ret]. }
  intros _. apply respects_try_except.
  - apply respects_bind.
    { apply respects_run_steps. repeat constructor;
        [apply respects_v0_to_v1|apply respects_v1_to_v2]. }
    intros _. apply respects_bind; [apply respects_validate_schema|].
    intros [|]; (apply respects_bind; [apply respects_logger|]); intros _; apply respects_ret.
  - intros e. apply respects_bind; [apply respects_logger|]. intros _.
    apply respects_bind.
    { destruct backup_path; [apply respects_logger|apply respects_ret]. }
    intros _. apply respects_raise.
Qed.

End Respects.

Lemma db_grows_refl (d : database) : db_grows d d.
Proof.
  split; [reflexivity|]. split; [reflexivity|].
  intros cols ->. exists []. rewrite app_nil_r. reflexivity.
Qed.

Lemma db_grows_trans (d1 d2 d3 : database) :
  db_grows d1 d2 -> db_grows d2 d3 -> db_grows d1 d3.
Proof.
  intros (Hr & Hi & Hc) (Hr' & Hi' & Hc').
  split; [congruence|]. split; [etransitivity; eassumption|].
  intros cols H. destruct (Hc cols H) as [more Hm]. destruct (Hc' _ Hm) as [more' Hm'].
  exists (more ++ more')%list. rewrite Hm', app_assoc. reflexivity.
Qed.

Lemma create_alerts_grows (d d' : database) :
  create_alerts_if_not_exists d = Ok d' -> db_grows d d'.
Proof.
  unfold create_alerts_if_not_exists. destruct (alerts_columns d) eqn:Hc; intros [= <-].
  - apply db_grows_refl.
  - split; [reflexivity|]. split; [reflexivity|]. intros cols H. congruence.
Qed.

Lemma alter_grows (name : string) (c : bool) (d d' : database) :
  alter_add_column name c d = Ok d' -> db_grows d d'.
Proof.
  unfold alter_add_column. destruct (alerts_columns d) as [cols|] eqn:Hc; [|discriminate].
  destruct (has_column _ _); [discriminate|].
  destruct (_ && _); [discriminate|]. intros [= <-].
  split; [reflexivity|]. split; [reflexivity|].
  intros cols' H. rewrite Hc in H. injection H as <-. exists [name]. reflexivity.
Qed.

Lemma create_index_grows (name column : string) (d d' : database) :
  create_index_if_not_exists name column d = Ok d' -> db_grows d d'.
Proof.
  unfold create_index_if_not_exists. destruct (alerts_columns d) as [cols|] eqn:Hc; [|discriminate].
  destruct (indexes d !! name) eqn:Hx; [intros [= <-]; apply db_grows_refl|].
  destruct (has_column _ _); [|discriminate]. intros [= <-].
  split; [reflexivity|]. split; [cbn; apply insert_subseteq, Hx|].
  intros cols' H. cbn. rewrite Hc in H |- *. injection H as <-.
  exists []. rewrite app_nil_r. reflexivity.
Qed.

Lemma insert_version_grows (v : Z) (d d' : database) :
  insert_schema_version v d = Ok d' -> db_grows d d'.
Proof.
  unfold insert_schema_version. destruct (version_rows d); [|discriminate].
  destruct (in_int64 v); [|discriminate].
  intros [= <-]. split; [reflexivity|]. split; [reflexivity|].
  intros cols H. cbn. rewrite H. exists []. rewrite app_nil_r. reflexivity.
Qed.

Lemma create_version_table_grows (d d' : database) :
  create_schema_version_if_not_exists d = Ok d' -> db_grows d d'.
Proof.
  intros [= <-]. split; [reflexivity|]. split; [reflexivity|].
  intros cols H. cbn. rewrite H. exists []. rewrite app_nil_r. reflexivity.
Qed.

(** X12. The migration loses nothing. Whatever the store and however the
    migration ends, the rows of alerts are the ones from before, every
    index from before is still there on its column, the columns from
    before are still the first columns of the table, and the snapshot is
    not touched. *)
Theorem migration_keeps_data (w : world) :
  db_grows (db w) (db (Migrations.run_migrations w).2) /\
  same_snapshot w (Migrations.run_migrations w).2.
Proof.
  split.
  - apply (respects_run_migrations (fun w w' => db_grows (db w) (db w'))).
    + intros w0. apply db_grows_refl.
    + intros w1 w2 w3. apply db_grows_trans.
    + intros r w0. apply db_grows_refl.
    + intros w0 d. apply create_alerts_grows.
    + intros name c w0 d. apply alter_grows.
    + intros name column w0 d. apply create_index_grows.
    + intros v w0 d. apply insert_version_grows.
    + intros w0 d. apply create_version_table_grows.
    + intros w0. apply db_grows_refl.
  - apply (respects_run_migrations same_snapshot); unfold same_snapshot;
      try (intros; split; reflexivity).
    intros w1 w2 w3 [H1 H2] [H3 H4]. split; congruence.
Qed.

(** A store with rows and an index of its own keeps them through a
    migration that fails. *)
Example populated_store_keeps_rows :
  let w' := (Migrations.run_migrations populated_legacy_world).2 in
  alerts_rows (db w') = alerts_rows (db populated_legacy_world) /\
  alerts_columns (db w') = Some (BASE_COLUMNS ++ ["event_code"])%list.
Proof. vm_compute. split; reflexivity. Qed.

Lemma validate_schema_ok (w : world) :
  exists b w', Migrations.validate_schema w = (Ok b, w') /\ db w' = db w.
Proof.
  unfold Migrations.validate_schema, Migrations.get_db_connection, try_except.
  unfold_action. cbv zeta.
  destruct (bool_decide _); [eexists _, _; split; reflexivity|].
  destruct (bool_decide _); eexists _, _; split; reflexivity.
Qed.

Lemma validate_schema_run (w : world) :
  exists w',
    Migrations.validate_schema w =
      (Ok (bool_decide (Migrations.expected_columns
                          ⊆ list_to_set (table_info_alerts (db w)))), w') /\
    db w' = db w /\ db_backup w' = db_backup w /\ same_snapshot w w'.
Proof.
  unfold Migrations.validate_schema, Migrations.get_db_connection, try_except.
  unfold_action. cbv zeta.
  set (actual := list_to_set (table_info_alerts (db w)) : gset string).
  destruct (bool_decide (Migrations.expected_columns ∖ actual ≠ ∅)) eqn:Hm.
  - apply bool_decide_eq_true in Hm.
    rewrite bool_decide_eq_false_2.
    2:{ intros Hsub. apply Hm. apply elem_of_equiv_empty_L. intros x Hx.
        apply elem_of_difference in Hx as [Hx Hn]. apply Hn, Hsub, Hx. }
    eexists; repeat split; reflexivity.
  - apply bool_decide_eq_false in Hm.
    rewrite (bool_decide_eq_true_2 (Migrations.expected_columns ⊆ actual)).
    2:{ intros x Hx. destruct (decide (x ∈ actual)) as [Hin|Hnot]; [exact Hin|].
        exfalso. apply Hm. intros Hempty.
        assert (x ∈ Migrations.expected_columns ∖ actual) as Hd
          by (apply elem_of_difference; split; assumption).
        rewrite Hempty in Hd. exact (not_elem_of_empty x Hd). }
    destruct (bool_decide _); eexists; repeat split; reflexivity.
Qed.

(** X13. The schema check. [validate_schema] never raises and changes
    nothing in the store; it answers True exactly when every expected
    column is a column of the table of alerts under the same spelling, so
    columns beyond the expected ones are accepted and a missing table is
    answered with False. *)
Theorem validate_schema_outcome (w : world) :
  exists w',
    Migrations.validate_schema w =
      (Ok (bool_decide (Migrations.expected_columns
                          ⊆ list_to_set (table_info_alerts (db w)))), w') /\
    db w' = db w.
Proof.
  destruct (validate_schema_run w) as (w' & H & Hdb & _).
  exists w'. split; assumption.
Qed.

Example validate_schema_examples :
  (Migrations.validate_schema fresh_world).1 = Ok false /\
  (Migrations.validate_schema ready_world).1 = Ok true /\
  (Migrations.validate_schema populated_legacy_world).1 = Ok false.
Proof. vm_compute. repeat split. Qed.

(** X14. Version records. Recording a version that fits 64 bits keeps
    the records from before and makes that version the one that is read
    next. A version that does not fit raises OverflowError: the version
    table is there afterwards, no record is added, and the version read
    next is the one from before. *)
Theorem version_round_trip (version : Z) (w : world) :
  let r := Migrations.set_schema_version version w in
  if in_int64 version
  then r.1 = Ok tt /\
       version_rows (db r.2) = Some (default [] (version_rows (db w)) ++ [version])%list /\
       Migrations.get_schema_version r.2 = (Ok version, r.2)
  else r.1 = Raise OverflowError /\
       version_rows (db r.2) = Some (default [] (version_rows (db w))) /\
       Migrations.get_schema_version r.2 = (Ok (stored_version (db w)), r.2).
Proof.
  cbv zeta. destruct (in_int64 version) eqn:Hv.
  - rewrite (set_schema_version_run _ _ Hv). cbn [fst snd].
    split; [reflexivity|]. split; [reflexivity|].
    rewrite get_schema_version_run. f_equal. f_equal.
    unfold stored_version. cbn [set_db db with_version_rows version_rows].
    rewrite last_snoc. reflexivity.
  - rewrite (set_schema_version_overflow _ _ Hv). cbn [fst snd].
    split; [reflexivity|]. split; [reflexivity|].
    rewrite get_schema_version_run. f_equal. f_equal.
    unfold stored_version. cbn [add_log set_db db with_version_rows version_rows].
    destruct (version_rows (db w)); reflexivity.
Qed.

(** The largest version that can be recorded, and the first that cannot. *)
Example version_bound :
  (Migrations.set_schema_version (2 ^ 63 - 1) fresh_world).1 = Ok tt /\
  (Migrations.set_schema_version (2 ^ 63) fresh_world).1 = Raise OverflowError /\
  version_rows (db (Migrations.set_schema_version (2 ^ 63) fresh_world).2) = Some [].
Proof. vm_compute. repeat split. Qed.

(** X15. The backup. When the stored version is below the supported one,
    the migration ends, normally or not, with a backup that is the store
    as it was before the first step; otherwise the backup is not
    touched. *)
Theorem backup_before_migrating (w : world) :
  db_backup (Migrations.run_migrations w).2 =
  if stored_version (db w) <? CURRENT_SCHEMA_VERSION then Some (db w) else db_backup w.
Proof.
  unfold Migrations.run_migrations.
  rewrite (bind_run _ _ _ _ _ (get_schema_version_run w)).
  rewrite (bind_run (logger _) _ _ _ tt eq_refl).
  rewrite (bind_run (logger _) _ _ _ tt eq_refl).
  destruct (stored_version (db w) =? CURRENT_SCHEMA_VERSION) eqn:Heq.
  { apply Z.eqb_eq in Heq. rewrite Heq. reflexivity. }
  destruct (CURRENT_SCHEMA_VERSION <? stored_version (db w)) eqn:Hgt.
  { apply Z.ltb_lt in Hgt. replace (_ <? _) with false by (symmetry; apply Z.ltb_ge; lia).
    reflexivity. }
  apply Z.eqb_neq in Heq. apply Z.ltb_ge in Hgt.
  replace (stored_version (db w) <? CURRENT_SCHEMA_VERSION) with true
    by (symmetry; apply Z.ltb_lt; lia).
  rewrite (bind_run Migrations.backup_database _ _ _ true eq_refl). cbv iota.
  rewrite (bind_run (logger _) _ _ _ tt eq_refl).
  match goal with
  | |- db_backup (?tail ?wb).2 = _ =>
      assert (Htail : respects (fun w w' => db_backup w' = db_backup w) tail)
  end.
  { assert (Htrans : forall w1 w2 w3 : world,
              db_backup w2 = db_backup w1 -> db_backup w3 = db_backup w2 ->
              db_backup w3 = db_backup w1) by (intros; congruence).
    apply respects_try_except; try (intros; reflexivity); try exact Htrans.
    - apply respects_bind; try (intros; reflexivity); try exact Htrans.
      + apply respects_run_steps; try (intros; reflexivity); try exact Htrans.
        repeat constructor;
          [apply respects_v0_to_v1|apply respects_v1_to_v2];
          try (intros; reflexivity); exact Htrans.
      + intros _. apply respects_bind; try (intros; reflexivity); try exact Htrans.
        * apply respects_validate_schema; try (intros; reflexivity); exact Htrans.
        * intros [|]; (apply respects_bind; try (intros; reflexivity); try exact Htrans);
            try (apply respects_logger; intros; reflexivity);
            intros _; apply respects_ret; intros; reflexivity.
    - intros e. apply respects_bind; try (intros; reflexivity); try exact Htrans.
      + apply respects_logger; intros; reflexivity.
      + intros _. apply respects_bind; try (intros; reflexivity); try exact Htrans.
        * apply respects_logger; intros; reflexivity.
        * intros _. apply respects_raise; intros; reflexivity. }
  rewrite Htail. reflexivity.
Qed.

Lemma v1_to_v2_failure_at (w w0 : world) (e : exn) (k : unit -> action Z) :
  stored_version (db w) = 1 ->
  (forall w2, exists v w3, k tt w2 = (Ok v, w3)) ->
  (Migrations.migration_v1_to_v2 ≫= k) w = (Raise e, w0) ->
  stored_version (db w0) = 1.
Proof.
  intros Hv Hk H.
  destruct (Migrations.migration_v1_to_v2 w) as [[[]|e1] w2] eqn:Hm.
  - rewrite (bind_run _ _ _ _ _ Hm) in H.
    destruct (Hk w2) as (v & w3 & Hr). rewrite Hr in H. discriminate.
  - rewrite (bind_raise _ _ _ _ _ Hm) in H. injection H as _ <-.
    pose proof (keeps_v1_to_v2 w) as Hkeep. rewrite Hm in Hkeep. cbn [snd] in Hkeep.
    unfold stored_version in *. rewrite Hkeep. exact Hv.
Qed.

Lemma run_steps_failure (cur : Z) (w w0 : world) (e : exn) :
  stored_version (db w) = cur ->
  Migrations.run_steps cur Migrations.migrations w = (Raise e, w0) ->
  stored_version (db w0) = 1.
Proof.
  intros Hcur H. unfold Migrations.migrations in H. cbn [Migrations.run_steps] in H.
  assert (Hk : forall w2, exists v w3,
             (_ ← Migrations.set_schema_version 2; _ ← logger (LogMigratedTo 2);
              (mret 2 : action Z)) w2 = (Ok v, w3)).
  { intros w2. eexists _, _. reflexivity. }
  destruct (cur =? 0) eqn:H0.
  - destruct (v0_to_v1_run w) as (w1 & Hr & _ & _ & _).
    rewrite (bind_run _ _ _ _ _ Hr) in H.
    rewrite (bind_run _ _ _ _ _ (set_schema_version_run 1 w1 eq_refl)) in H.
    rewrite (bind_run (logger _) _ _ _ tt eq_refl) in H.
    change (1 =? 1) with true in H. cbv iota in H.
    refine (v1_to_v2_failure_at _ _ _ _ _ _ H); [|exact Hk].
    unfold stored_version. cbn [add_log set_db db with_version_rows version_rows].
    rewrite last_snoc. reflexivity.
  - destruct (cur =? 1) eqn:H1; [|discriminate].
    apply Z.eqb_eq in H1. rewrite H1 in Hcur.
    refine (v1_to_v2_failure_at _ _ _ _ Hcur _ H). exact Hk.
Qed.

(** X16. A failed migration. When [run_migrations] raises, the step that
    failed is the one from version 1 to version 2: the store is left at
    version 1, whatever version it had before, and the failure is in the
    log. *)
Theorem failed_migration_stops_at_one (w w' : world) (e : exn) :
  Migrations.run_migrations w = (Raise e, w') ->
  stored_version (db w') = 1 /\ LogMigrationFailed e ∈ log w'.
Proof.
  unfold Migrations.run_migrations.
  rewrite (bind_run _ _ _ _ _ (get_schema_version_run w)).
  rewrite (bind_run (logger _) _ _ _ tt eq_refl).
  rewrite (bind_run (logger _) _ _ _ tt eq_refl).
  destruct (stored_version (db w) =? CURRENT_SCHEMA_VERSION); [discriminate|].
  destruct (CURRENT_SCHEMA_VERSION <? stored_version (db w)); [discriminate|].
  rewrite (bind_run Migrations.backup_database _ _ _ true eq_refl). cbv iota.
  rewrite (bind_run (logger _) _ _ _ tt eq_refl).
  unfold try_except.
  match goal with
  | |- context [(Migrations.run_steps ?c ?s ≫= ?k) ?wb] =>
      destruct ((Migrations.run_steps c s ≫= k) wb) as [[b|e0] w0] eqn:Hbody
  end; [discriminate|].
intros H. injection H as <- <-.
  match type of Hbody with
  | (?m ≫= ?k) ?wb = _ => destruct (m wb) as [[v|e1] w1] eqn:Hsteps
  end.
  - rewrite (bind_run _ _ _ _ _ Hsteps) in Hbody.
    destruct (validate_schema_ok w1) as (b & w2 & Hval & _).
    rewrite (bind_run _ _ _ _ _ Hval) in Hbody.
    destruct b; discriminate.
  - rewrite (bind_raise _ _ _ _ _ Hsteps) in Hbody. injection Hbody as <- <-.
    split.
    + exact (run_steps_failure _ _ _ _ eq_refl Hsteps).
    + cbn [add_log log]. rewrite !elem_of_app, !list_elem_of_singleton.
      left. right. reflexivity.
Qed.

Lemma failed_migration_stops_at_one_witness :
  let w' := (Migrations.run_migrations populated_legacy_world).2 in
  Migrations.run_migrations populated_legacy_world = (Raise SqliteNonConstantDefault, w') /\
  stored_version (db w') = 1 /\ LogMigrationFailed SqliteNonConstantDefault ∈ log w'.
Proof.
  split; [vm_compute; reflexivity|].
  apply (failed_migration_stops_at_one populated_legacy_world). vm_compute. reflexivity.
Defined.

Lemma run_steps_success (cur v : Z) (w w1 : world) :
  Migrations.run_steps cur Migrations.migrations w = (Ok v, w1) ->
  stored_version (db w1) = 2 \/ (w1 = w /\ cur <> 0 /\ cur <> 1).
Proof.
  intros H. unfold Migrations.migrations in H. cbn [Migrations.run_steps] in H.
  assert (Hlast : forall (m : action unit) (w0 : world),
             (m ≫= fun _ => _ ← Migrations.set_schema_version 2;
                             _ ← logger (LogMigratedTo 2); (mret 2 : action Z)) w0
             = (Ok v, w1) -> stored_version (db w1) = 2).
  { intros m w0 Hm. destruct (m w0) as [[[]|e] w2] eqn:Hr.
    - rewrite (bind_run _ _ _ _ _ Hr) in Hm. injection Hm as _ <-.
      unfold stored_version. cbn [add_log set_db db with_version_rows version_rows].
      rewrite last_snoc. reflexivity.
    - rewrite (bind_raise _ _ _ _ _ Hr) in Hm. discriminate. }
  destruct (cur =? 0) eqn:H0.
  - destruct (v0_to_v1_run w) as (w2 & Hr & _).
    rewrite (bind_run _ _ _ _ _ Hr) in H.
    rewrite (bind_run _ _ _ _ _ (set_schema_version_run 1 w2 eq_refl)) in H.
    rewrite (bind_run (logger _) _ _ _ tt eq_refl) in H.
    change (1 =? 1) with true in H. cbv iota in H.
    left. exact (Hlast _ _ H).
  - destruct (cur =? 1) eqn:H1.
    + left. exact (Hlast _ _ H).
    + injection H as _ <-. right. apply Z.eqb_neq in H0, H1. auto.
Qed.

Lemma get_database_stats_run (w : world) :
  Migrations.get_database_stats w =
  match alerts_columns (db w) with
  | None => (Raise (SqliteNoSuchTable "alerts"),
             add_log (LogDatabaseError (SqliteNoSuchTable "alerts")) w)
  | Some _ => (Ok (stored_version (db w), length (alerts_rows (db w))), w)
  end.
Proof.
  unfold Migrations.get_database_stats, Migrations.get_db_connection, try_except.
  unfold_action. destruct (alerts_columns (db w)); reflexivity.
Qed.

Lemma off_track_run (w : world) :
  stored_version (db w) < CURRENT_SCHEMA_VERSION ->
  stored_version (db w) <> 0 -> stored_version (db w) <> 1 ->
  exists w',
    Migrations.run_migrations w =
      (Ok (bool_decide (Migrations.expected_columns
                          ⊆ list_to_set (table_info_alerts (db w)))), w') /\
    db w' = db w /\ db_backup w' = Some (db w) /\ same_snapshot w w'.
Proof.
  intros Hlt H0 H1. unfold Migrations.run_migrations.
  rewrite (bind_run _ _ _ _ _ (get_schema_version_run w)).
  rewrite (bind_run (logger _) _ _ _ tt eq_refl).
  rewrite (bind_run (logger _) _ _ _ tt eq_refl).
  replace (stored_version (db w) =? CURRENT_SCHEMA_VERSION) with false
    by (symmetry; apply Z.eqb_neq; lia).
  replace (CURRENT_SCHEMA_VERSION <? stored_version (db w)) with false
    by (symmetry; apply Z.ltb_ge; lia).
  rewrite (bind_run Migrations.backup_database _ _ _ true eq_refl). cbv iota.
  rewrite (bind_run (logger _) _ _ _ tt eq_refl).
  unfold Migrations.migrations. cbn [Migrations.run_steps].
  replace (stored_version (db w) =? 0) with false by (symmetry; apply Z.eqb_neq; lia).
  replace (stored_version (db w) =? 1) with false by (symmetry; apply Z.eqb_neq; lia).
  match goal with
  | |- context [try_except ?body ?h ?wb] =>
      destruct (validate_schema_run wb) as (w2 & Hval & Hdb & Hbk & Hm & Hs);
      assert (Hbody : exists w3, body wb = (Ok (bool_decide (Migrations.expected_columns
                          ⊆ list_to_set (table_info_alerts (db w)))), w3) /\
                        db w3 = db w /\ db_backup w3 = Some (db w) /\ same_snapshot w w3)
  end.
  { rewrite (bind_run (mret _) _ _ _ _ eq_refl).
    rewrite (bind_run _ _ _ _ _ Hval).
    cbn [add_log set_db_backup db db_backup last_message snapshot_writable] in *.
    destruct (bool_decide _); eexists; (split; [reflexivity|]);
      cbn [add_log db db_backup last_message snapshot_writable];
      repeat split; assumption. }
  destruct Hbody as (w3 & Hbody & Hrest).
  exists w3. split; [|exact Hrest]. apply try_except_ok. exact Hbody.
Qed.

Lemma run_migrations_success (w w' : world) :
  Migrations.run_migrations w = (Ok true, w') ->
  stored_version (db w') = CURRENT_SCHEMA_VERSION \/
  (stored_version (db w) < CURRENT_SCHEMA_VERSION /\
   stored_version (db w) <> 0 /\ stored_version (db w) <> 1).
Proof.
  unfold Migrations.run_migrations.
  rewrite (bind_run _ _ _ _ _ (get_schema_version_run w)).
  rewrite (bind_run (logger _) _ _ _ tt eq_refl).
  rewrite (bind_run (logger _) _ _ _ tt eq_refl).
  destruct (stored_version (db w) =? CURRENT_SCHEMA_VERSION) eqn:Heq.
  { intros [= <-]. left. apply Z.eqb_eq in Heq. exact Heq. }
  destruct (CURRENT_SCHEMA_VERSION <? stored_version (db w)) eqn:Hgt; [discriminate|].
  apply Z.eqb_neq in Heq. apply Z.ltb_ge in Hgt.
  rewrite (bind_run Migrations.backup_database _ _ _ true eq_refl). cbv iota.
  rewrite (bind_run (logger _) _ _ _ tt eq_refl).
  unfold try_except.
  match goal with
  | |- context [(Migrations.run_steps ?c ?s ≫= ?k) ?wb] =>
      destruct (Migrations.run_steps c s wb) as [[v|e1] w1] eqn:Hsteps;
      [rewrite (bind_run _ k _ _ _ Hsteps)|rewrite (bind_raise _ k _ _ _ Hsteps)]
  end.
  2:{ discriminate. }
  destruct (validate_schema_run w1) as (w2 & Hval & Hdb & _).
  rewrite (bind_run _ _ _ _ _ Hval).
  destruct (bool_decide _); [|discriminate].
  intros [= <-]. cbn [add_log db]. rewrite Hdb.
  destruct (run_steps_success _ _ _ _ Hsteps) as [H2|(_ & H0 & H1)].
  - left. exact H2.
  - right. repeat split; [lia|exact H0|exact H1].
Qed.

Lemma initialize_database_inv (w w1 : world) :
  initialize_database w = (Ok tt, w1) ->
  exists wm cols,
    Migrations.run_migrations (add_log LogInitializing w) = (Ok true, wm) /\
    alerts_columns (db wm) = Some cols /\
    w1 = add_log (LogDatabaseReady (stored_version (db wm))
                                   (length (alerts_rows (db wm)))) wm.
Proof.
  unfold initialize_database, try_except.
  rewrite (bind_run (logger _) _ _ _ tt eq_refl).
  destruct (Migrations.run_migrations (add_log LogInitializing w)) as [[[|]|e] wm] eqn:Hrun.
  - rewrite (bind_run _ _ _ _ _ Hrun). cbn [negb].
    pose proof (get_database_stats_run wm) as Hstats.
    destruct (alerts_columns (db wm)) as [cols|] eqn:Hc.
    + rewrite (bind_run _ _ _ _ _ Hstats). cbn [fst snd].
      intros [= <-]. exists wm, cols. repeat split; assumption.
    + rewrite (bind_raise _ _ _ _ _ Hstats). discriminate.
  - rewrite (bind_run _ _ _ _ _ Hrun). discriminate.
  - rewrite (bind_raise _ _ _ _ _ Hrun). discriminate.
Qed.

Lemma initialize_database_ok (w wm : world) (cols : list string) :
  Migrations.run_migrations (add_log LogInitializing w) = (Ok true, wm) ->
  alerts_columns (db wm) = Some cols ->
  initialize_database w =
  (Ok tt, add_log (LogDatabaseReady (stored_version (db wm))
                                    (length (alerts_rows (db wm)))) wm).
Proof.
  intros Hrun Hc. unfold initialize_database. apply try_except_ok.
  rewrite (bind_run (logger _) _ _ _ tt eq_refl).
  rewrite (bind_run _ _ _ _ _ Hrun). cbn [negb].
  pose proof (get_database_stats_run wm) as Hstats. rewrite Hc in Hstats.
  rewrite (bind_run _ _ _ _ _ Hstats). reflexivity.
Qed.

(** X17. Starting again. After a start-up that ended normally, another
    start-up ends normally too and changes nothing but the log: the
    store, the backup and the snapshot are what the first one left. *)
Theorem restart_changes_nothing (w w1 : world) :
  initialize_database w = (Ok tt, w1) ->
  exists w2,
    initialize_database w1 = (Ok tt, w2) /\
    db w2 = db w1 /\ db_backup w2 = db_backup w1 /\ same_snapshot w1 w2.
Proof.
  intros Hinit.
  destruct (initialize_database_inv _ _ Hinit) as (wm & cols & Hrun & Hc & ->).
  set (w1 := add_log _ wm).
  destruct (run_migrations_success _ _ Hrun) as [H2|(Hlt & H0 & H1)].
  - assert (Hup : stored_version (db (add_log LogInitializing w1)) = CURRENT_SCHEMA_VERSION)
      by exact H2.
    pose proof (up_to_date_run _ Hup) as Hrun2.
    eexists. split; [exact (initialize_database_ok _ _ cols Hrun2 Hc)|].
    repeat split; reflexivity.
  - destruct (off_track_run _ Hlt H0 H1) as (wm' & Hrun1 & Hdb & Hbk & _).
    rewrite Hrun in Hrun1. injection Hrun1 as Hvalid <-.
    assert (Hdb1 : db (add_log LogInitializing w1) = db w) by exact Hdb.
    destruct (off_track_run (add_log LogInitializing w1)) as (wm2 & Hrun2 & Hdb2 & Hbk2 & Hs2);
      try (rewrite Hdb1; assumption).
    rewrite Hdb1 in Hrun2. change (db (add_log LogInitializing w)) with (db w) in Hvalid.
    rewrite <- Hvalid in Hrun2.
    assert (Hc2 : alerts_columns (db wm2) = Some cols).
    { rewrite Hdb2. exact Hc. }
    eexists. split; [exact (initialize_database_ok _ _ cols Hrun2 Hc2)|].
    split; [exact Hdb2|]. split; [|exact Hs2].
    change (db_backup wm2 = db_backup wm). rewrite Hbk2, Hbk.
    f_equal. exact Hdb.
Qed.

Lemma restart_changes_nothing_witness :
  exists w2,
    initialize_database ready_world = (Ok tt, w2) /\
    db w2 = db ready_world /\ db_backup w2 = db_backup ready_world /\
    same_snapshot ready_world w2.
Proof.
  apply (restart_changes_nothing fresh_world). vm_compute. reflexivity.
Defined.






(** The durations of the decoder are far from the bound: the alert
    made from a parsed message always fits. *)
Lemma decoded_duration_fits (env : environment) (msg : string) (p : Parsed.t)
    (alert : Alert.t) :
  parse_same_message msg = Ok p ->
  create_alert_data env p msg = Ok alert ->
  in_int64 (Alert.duration_minutes alert) = true.
Proof.
  intros Hp Ha. destruct (parse_ok_formats msg p Hp) as (Hd & Hl & _).
  pose proof (int_of_digit_string _ Hd) as Hint.
  unfold create_alert_data, int_of in Ha.
  destruct (Py.all_chars Py.isdecimal_char (Parsed.duration p)).
  - destruct Hint as (v & Hv & Hb). rewrite Hv in Ha. cbn [mbind result_bind] in Ha.
    injection Ha as <-. cbn [Alert.duration_minutes].
    rewrite Hl in Hb. change (10 ^ Z.of_nat 4) with 10000 in Hb.
    unfold in_int64. apply andb_true_intro. split; [apply Z.leb_le|apply Z.ltb_lt]; lia.
  - rewrite Hint in Ha. discriminate.
Qed.

(** A store may be at the supported version without the columns of that
    version: start-up then ends normally, since an up-to-date store is not
    validated, and the first alert is refused. *)
Example unvalidated_store_refuses_alerts :
  let w := set_db (with_version_rows (Some [2]) (db populated_legacy_world))
                  populated_legacy_world in
  (initialize_database w).1 = Ok tt /\
  (log_alert_to_db (alert_for_regions []) (initialize_database w).2).1
    = Raise (SqliteNoColumnNamed "event_code").
Proof. vm_compute. split; reflexivity. Qed.
